(** * User administration UI: payload normalisation, form validation,
      search filter and list unwrapping

    A shallow embedding of the logic in
    - [src/services/user.service.ts] ([getAllUsers], [createUser],
      [updateUser], [patchUser]),
    - [src/pages/user.tsx] ([validateForm], [handleImageUpload],
      [handleSubmit], [filteredUsers]),
    - [src/config/endpoints.ts] and [src/config/api.config.ts] (URLs).

    JavaScript strings are sequences of UTF-16 code units ([list N]).
    JSON values are an inductive type whose objects are finite maps and
    whose numbers are IEEE 754 doubles.  The platform functions the code
    calls whose full definition is outside the repository,
    [String.prototype.toLowerCase], [JSON.parse] and the conversion of a
    number to a string, are parameters of the definitions that use them;
    a reference JSON reader and the Basic Latin / Latin-1 case mapping
    are supplied to evaluate the definitions on concrete inputs. *)

From Stdlib Require Import Strings.String Strings.Ascii.
From Stdlib Require Import NArith ZArith List Bool Lia.
From Stdlib Require Import Floats.SpecFloat.
From stdpp Require Import gmap list fin_maps.
Import ListNotations.
Close Scope string_scope.

Set Warnings "-register-all".

(** ** JavaScript strings *)

Abbreviation jsstring := (list N).

(** A literal: one code unit per character of the (ASCII) literal. *)
Definition str (s : String.string) : jsstring :=
  List.map Ascii.N_of_ascii (String.list_ascii_of_string s).
Arguments str s%_string.

Section JsString.
Local Open Scope N_scope.

(** ECMAScript [WhiteSpace] and [LineTerminator] code points, the set
    removed by [trim]. *)
Definition isWhiteSpace (c : N) : bool :=
  (c =? 0x09) || (c =? 0x0A) || (c =? 0x0B) || (c =? 0x0C) || (c =? 0x0D)
  || (c =? 0x20) || (c =? 0xA0) || (c =? 0x1680)
  || ((0x2000 <=? c) && (c <=? 0x200A))
  || (c =? 0x2028) || (c =? 0x2029) || (c =? 0x202F) || (c =? 0x205F)
  || (c =? 0x3000) || (c =? 0xFEFF).

Definition isDigit (c : N) : bool := (0x30 <=? c) && (c <=? 0x39).

Fixpoint trimStart (s : jsstring) : jsstring :=
  match s with
  | [] => []
  | c :: s' => if isWhiteSpace c then trimStart s' else s
  end.

Fixpoint trimEnd (s : jsstring) : jsstring :=
  match s with
  | [] => []
  | c :: s' =>
      match trimEnd s' with
      | [] => if isWhiteSpace c then [] else [c]
      | t => c :: t
      end
  end.

(** [s.trim()] *)
Definition trim (s : jsstring) : jsstring := trimEnd (trimStart s).

(** [s.startsWith(p)] *)
Fixpoint startsWith (s p : jsstring) {struct p} : bool :=
  match p, s with
  | [], _ => true
  | _ :: _, [] => false
  | a :: p', b :: s' => (a =? b) && startsWith s' p'
  end.

(** [s.includes(t)] *)
Fixpoint includes (s t : jsstring) : bool :=
  startsWith s t ||
  match s with
  | [] => false
  | _ :: s' => includes s' t
  end.

(** [s.match(/[^0-9]/)] is non-null: some code unit is not a digit. *)
Definition matchNonDigit (s : jsstring) : bool :=
  existsb (fun c => negb (isDigit c)) s.

(** Case mapping of one code unit in the Basic Latin and Latin-1 blocks
    (A-Z and U+00C0..U+00DE except the multiplication sign). *)
Definition lowerLatin1 (c : N) : N :=
  if ((0x41 <=? c) && (c <=? 0x5A))
     || ((0xC0 <=? c) && (c <=? 0xDE) && negb (c =? 0xD7))
  then c + 0x20 else c.

Definition isAscii (c : N) : bool := c <? 0x80.

End JsString.

(** [toLowerCase] restricted to strings of code units below U+0100, where
    the mapping is code unit by code unit. *)
Definition toLowerCaseLatin1 (s : jsstring) : jsstring := List.map lowerLatin1 s.

(** ** JSON values

    The values that cross the service boundary.  A number is a double:
    a [spec_float] of precision 53 and maximal exponent 1024, which is
    a signed zero, a signed infinity, NaN, or [(-1)^s * m * 2^e]. *)

Abbreviation number := spec_float.

(** The double nearest to an integer (ties to even). *)
Definition ofInteger (n : Z) : number := binary_normalize 53 1024 n 0 false.

Inductive json : Type :=
| JNull
| JBool (b : bool)
| JNum (x : number)
| JStr (s : jsstring)
| JArr (l : list json)
| JObj (o : gmap jsstring json).

Definition JInt (n : Z) : json := JNum (ofInteger n).

Inductive jstype : Type := TObject | TBoolean | TNumber | TString.

(** [typeof v]; note that [typeof null] and [typeof []] are ['object']. *)
Definition typeof (v : json) : jstype :=
  match v with
  | JNull | JArr _ | JObj _ => TObject
  | JBool _ => TBoolean
  | JNum _ => TNumber
  | JStr _ => TString
  end.

Definition isObject (v : json) : bool :=
  match typeof v with TObject => true | _ => false end.

Definition isString (v : json) : bool :=
  match typeof v with TString => true | _ => false end.

(** [ToBoolean] of a number: [+0], [-0] and [NaN] are falsy. *)
Definition truthyNumber (x : number) : bool :=
  match x with
  | S754_zero _ | S754_nan => false
  | S754_infinity _ | S754_finite _ _ _ => true
  end.

(** JavaScript truthiness of a value that is present. *)
Definition truthy (v : json) : bool :=
  match v with
  | JNull => false
  | JBool b => b
  | JNum x => truthyNumber x
  | JStr [] => false
  | JStr (_ :: _) => true
  | JArr _ | JObj _ => true
  end.

(** Truthiness of a property that may be absent ([undefined]). *)
Definition truthyProp (ov : option json) : bool :=
  match ov with
  | Some v => truthy v
  | None => false
  end.

(** [v.k] for a value [v] that is neither [null] nor [undefined]:
    [None] stands for [undefined]. *)
Definition getProp (v : json) (k : jsstring) : option json :=
  match v with
  | JObj o => o !! k
  | _ => None
  end.

(** [o.k = v], where assigning [undefined] is rendered as removing the
    key: an [undefined] property is dropped by [JSON.stringify] and by the
    empty-field loop of [createUser] alike. *)
Definition assign (k : jsstring) (ov : option json) (o : gmap jsstring json)
  : gmap jsstring json :=
  match ov with
  | Some v => <[k := v]> o
  | None => delete k o
  end.

(** ** [JSON.stringify]

    [wire v] is the value that the text [JSON.stringify(v)] denotes, that
    is [JSON.parse(JSON.stringify(v))]: a number that is not finite is
    written as [null] and [-0] is written as [0]; every other number is
    written with the digits that read back as the same double. *)

Definition wireNumber (x : number) : json :=
  match x with
  | S754_zero _ => JNum (S754_zero false)
  | S754_finite _ _ _ => JNum x
  | S754_infinity _ | S754_nan => JNull
  end.

Fixpoint wire (v : json) : json :=
  match v with
  | JNum x => wireNumber x
  | JArr l => JArr (List.map wire l)
  | JObj o => JObj (wire <$> o)
  | JNull | JBool _ | JStr _ => v
  end.

(** The number of nodes of a value, on which the nested values are
    smaller than the value that holds them. *)
Fixpoint json_size (v : json) : nat :=
  match v with
  | JArr l => S (list_sum (List.map json_size l))
  | JObj o => S (map_fold (fun _ w n => json_size w + n) 0 o)
  | JNull | JBool _ | JNum _ | JStr _ => 1
  end.

(** ** A reference reader for JSON text

    [jsonParse] follows the JSON grammar: [None] is the [SyntaxError] of
    [JSON.parse].  It is used to run the definitions on concrete texts;
    the general statements below hold for any reader. *)

Section JsonReader.
Local Open Scope N_scope.

Definition isJsonWs (c : N) : bool :=
  (c =? 0x20) || (c =? 0x09) || (c =? 0x0A) || (c =? 0x0D).

Fixpoint skipWs (s : jsstring) : jsstring :=
  match s with
  | [] => []
  | c :: s' => if isJsonWs c then skipWs s' else s
  end.

Definition hexValue (c : N) : option N :=
  if isDigit c then Some (c - 0x30)
  else if (0x41 <=? c) && (c <=? 0x46) then Some (c - 0x41 + 10)
  else if (0x61 <=? c) && (c <=? 0x66) then Some (c - 0x61 + 10)
  else None.

Definition hex4 (a b c d : N) : option N :=
  match hexValue a, hexValue b, hexValue c, hexValue d with
  | Some x, Some y, Some z, Some w => Some (((x * 16 + y) * 16 + z) * 16 + w)
  | _, _, _, _ => None
  end.

Definition simpleEscape (c : N) : option N :=
  if c =? 0x22 then Some 0x22
  else if c =? 0x5C then Some 0x5C
  else if c =? 0x2F then Some 0x2F
  else if c =? 0x62 then Some 0x08
  else if c =? 0x66 then Some 0x0C
  else if c =? 0x6E then Some 0x0A
  else if c =? 0x72 then Some 0x0D
  else if c =? 0x74 then Some 0x09
  else None.

(** The body of a string, after its opening quote; [acc] is reversed. *)
Fixpoint readString (s acc : jsstring) : option (jsstring * jsstring) :=
  match s with
  | [] => None
  | c :: s' =>
      if c =? 0x22 then Some (rev acc, s')
      else if c =? 0x5C then
        match s' with
        | [] => None
        | e :: s'' =>
            if e =? 0x75 then
              match s'' with
              | h1 :: h2 :: h3 :: h4 :: r =>
                  match hex4 h1 h2 h3 h4 with
                  | Some u => readString r (u :: acc)
                  | None => None
                  end
              | _ => None
              end
            else
              match simpleEscape e with
              | Some u => readString s'' (u :: acc)
              | None => None
              end
        end
      else if c <? 0x20 then None
      else readString s' (c :: acc)
  end.

Fixpoint readDigits (s : jsstring) : jsstring * jsstring :=
  match s with
  | [] => ([], [])
  | c :: s' =>
      if isDigit c then let (d, r) := readDigits s' in (c :: d, r)
      else ([], s)
  end.

Definition digitsValue (d : jsstring) : Z :=
  fold_left (fun a c => (10 * a + Z.of_N (c - 0x30))%Z) d 0%Z.

(** Integer part: a single [0], or a non-empty run of digits that does
    not start with [0]. *)
Definition readInt (s : jsstring) : option (jsstring * jsstring) :=
  match s with
  | [] => None
  | c :: r =>
      if c =? 0x30 then Some ([c], r)
      else if isDigit c then Some (readDigits s)
      else None
  end.

Definition readFrac (s : jsstring) : option (jsstring * jsstring) :=
  match s with
  | c :: r =>
      if c =? 0x2E then
        match readDigits r with
        | ([], _) => None
        | (d, r') => Some (d, r')
        end
      else Some ([], s)
  | [] => Some ([], s)
  end.

Definition readSign (s : jsstring) : bool * jsstring :=
  match s with
  | c :: r =>
      if c =? 0x2D then (true, r)
      else if c =? 0x2B then (false, r)
      else (false, s)
  | [] => (false, s)
  end.

Definition readExp (s : jsstring) : option (Z * jsstring) :=
  match s with
  | c :: r =>
      if (c =? 0x65) || (c =? 0x45) then
        let (neg, r1) := readSign r in
        match readDigits r1 with
        | ([], _) => None
        | (d, r2) =>
            Some ((if neg then - digitsValue d else digitsValue d)%Z, r2)
        end
      else Some (0%Z, s)
  | [] => Some (0%Z, s)
  end.

(** The double nearest to the decimal [(-1)^neg * m * 10^x] (ties to
    even), for [0 <= m]: the value of a numeric literal.  The sign of a
    zero is kept, a literal beyond the largest double gives an infinity
    and one below the smallest gives a zero. *)
Definition ofDecimal (neg : bool) (m x : Z) : number :=
  match m with
  | Zpos p =>
      match x with
      | Zneg k =>
          SFdiv 53 1024 (S754_finite neg p 0)
                        (S754_finite false (Pos.pow 10 k) 0)
      | _ =>
          binary_normalize 53 1024
            (if neg then - (m * 10 ^ x) else m * 10 ^ x)%Z 0 false
      end
  | _ => S754_zero neg
  end.

Definition readNumber (s : jsstring) : option (json * jsstring) :=
  let (neg, s1) :=
    match s with
    | c :: r => if c =? 0x2D then (true, r) else (false, s)
    | [] => (false, s)
    end in
  match readInt s1 with
  | None => None
  | Some (i, s2) =>
      match readFrac s2 with
      | None => None
      | Some (f, s3) =>
          match readExp s3 with
          | None => None
          | Some (x, s4) =>
              let m := digitsValue (i ++ f) in
              Some (JNum (ofDecimal neg m (x - Z.of_nat (length f))), s4)
          end
      end
  end.

Definition readLiteral (s : jsstring) : option (json * jsstring) :=
  if startsWith s (str "null") then Some (JNull, skipn 4 s)
  else if startsWith s (str "true") then Some (JBool true, skipn 4 s)
  else if startsWith s (str "false") then Some (JBool false, skipn 5 s)
  else readNumber s.

Fixpoint readValue (fuel : nat) (s : jsstring) : option (json * jsstring) :=
  match fuel with
  | O => None
  | S fuel' =>
      match skipWs s with
      | [] => None
      | c :: r =>
          if c =? 0x22 then
            match readString r [] with
            | Some (t, r') => Some (JStr t, r')
            | None => None
            end
          else if c =? 0x5B then
            match skipWs r with
            | d :: r' =>
                if d =? 0x5D then Some (JArr [], r')
                else readElements fuel' r []
            | [] => None
            end
          else if c =? 0x7B then
            match skipWs r with
            | d :: r' =>
                if d =? 0x7D then Some (JObj ∅, r')
                else readMembers fuel' r ∅
            | [] => None
            end
          else readLiteral (c :: r)
      end
  end
with readElements (fuel : nat) (s : jsstring) (acc : list json)
  : option (json * jsstring) :=
  match fuel with
  | O => None
  | S fuel' =>
      match readValue fuel' s with
      | None => None
      | Some (v, r) =>
          match skipWs r with
          | c :: r' =>
              if c =? 0x2C then readElements fuel' r' (v :: acc)
              else if c =? 0x5D then Some (JArr (rev (v :: acc)), r')
              else None
          | [] => None
          end
      end
  end
with readMembers (fuel : nat) (s : jsstring) (acc : gmap jsstring json)
  : option (json * jsstring) :=
  match fuel with
  | O => None
  | S fuel' =>
      match skipWs s with
      | q :: r =>
          if q =? 0x22 then
            match readString r [] with
            | None => None
            | Some (k, r1) =>
                match skipWs r1 with
                | c :: r2 =>
                    if c =? 0x3A then
                      match readValue fuel' r2 with
                      | None => None
                      | Some (v, r3) =>
                          match skipWs r3 with
                          | d :: r4 =>
                              if d =? 0x2C
                              then readMembers fuel' r4 (<[k := v]> acc)
                              else if d =? 0x7D
                              then Some (JObj (<[k := v]> acc), r4)
                              else None
                          | [] => None
                          end
                      end
                    else None
                | [] => None
                end
            end
          else None
      | [] => None
      end
  end.

(** The whole text must be one value, surrounded by white space only.
    Every call of the reader consumes a character within two steps, so
    twice the length of the text is fuel enough. *)
Definition jsonParse (s : jsstring) : option json :=
  match readValue (2 * length s + 2) s with
  | Some (v, r) =>
      match skipWs r with
      | [] => Some v
      | _ :: _ => None
      end
  | None => None
  end.

End JsonReader.

(** A double quote, to write JSON texts. *)
Definition dq : jsstring := [34%N].

(** ** Configuration: [api.config.ts] and [endpoints.ts] *)

Definition BASE_URL : jsstring :=
  str "https://8015b5dbc0724d38882ac90397c27649.weavy.io".

Module ENDPOINTS.
Module USERS.
Definition BASE : jsstring := BASE_URL ++ str "/api/users".
Definition BY_ID (userId : jsstring) : jsstring :=
  BASE_URL ++ str "/api/users/" ++ userId.
Definition GET_AUTHENTICATED : jsstring := BASE_URL ++ str "/api/user".
Definition TOKENS (userId : jsstring) : jsstring :=
  BASE_URL ++ str "/api/users/" ++ userId ++ str "/tokens".
Definition TRASH (userId : jsstring) : jsstring :=
  BASE_URL ++ str "/api/users/" ++ userId ++ str "/trash".
Definition RESTORE (userId : jsstring) : jsstring :=
  BASE_URL ++ str "/api/users/" ++ userId ++ str "/restore".
End USERS.
End ENDPOINTS.

(** ** Transport client: [api.service.ts]

    A call of the client is the request it hands to [fetch]; [req_body]
    is the value given to [JSON.stringify] and [sentBody] the value that
    the text written by [JSON.stringify] denotes. *)

Inductive method : Type := GET | POST | PUT | PATCH | DELETE.

Record Request : Type := mkRequest {
  req_method : method;
  req_url : jsstring;
  req_body : option json
}.

Definition sentBody (r : Request) : option json := wire <$> req_body r.

Module ApiService.
Definition get (url : jsstring) : Request := mkRequest GET url None.
Definition post (url : jsstring) (data : json) : Request :=
  let formattedUrl := if startsWith url (str "http") then url else BASE_URL ++ url in
  mkRequest POST formattedUrl (Some data).
Definition put (url : jsstring) (data : json) : Request :=
  mkRequest PUT url (Some data).
Definition patch (url : jsstring) (data : json) : Request :=
  mkRequest PATCH url (Some data).
Definition delete (url : jsstring) : Request := mkRequest DELETE url None.
End ApiService.

(** ** User data service: [user.service.ts] *)

(** [value === '' || value === null || value === undefined] for a value
    that is present. *)
Definition isEmptyField (v : json) : bool :=
  match v with
  | JStr [] => true
  | JNull => true
  | _ => false
  end.

(** The [Object.keys(...).forEach] loop of [createUser]. *)
Definition removeEmptyFields (d : gmap jsstring json) : gmap jsstring json :=
  filter (fun kv => isEmptyField kv.2 = false) d.

Module UserService.
Section WithJsonParse.

(** [JSON.parse]: [None] when it throws. *)
Variable JSON_parse : jsstring -> option json.

(** [createUser], lines 142-146: a truthy [directory] of type ['object']
    is replaced by its [name] property. *)
Definition reduceDirectory (d : gmap jsstring json) : gmap jsstring json :=
  match d !! str "directory" with
  | Some v =>
      if truthy v then
        if isObject v
        then assign (str "directory") (getProp v (str "name")) d
        else d
      else d
  | None => d
  end.

(** [createUser], lines 148-154: a truthy string [metadata] is parsed, and
    deleted when [JSON.parse] throws. *)
Definition parseMetadata (d : gmap jsstring json) : gmap jsstring json :=
  match d !! str "metadata" with
  | Some (JStr s as v) =>
      if truthy v then
        match JSON_parse s with
        | Some p => <[str "metadata" := p]> d
        | None => delete (str "metadata") d
        end
      else d
  | _ => d
  end.

(** [createUser], lines 156-163. *)
Definition checkPicture (d : gmap jsstring json) : gmap jsstring json :=
  match d !! str "picture" with
  | Some (JStr s as v) =>
      if truthy v then
        if startsWith s (str "data:image") then d
        else if negb (startsWith s (str "http")) then delete (str "picture") d
        else d
      else d
  | _ => d
  end.

(** [createUser], line 139: [JSON.parse(JSON.stringify(userData))]. *)
Definition copyOf (userData : gmap jsstring json) : gmap jsstring json :=
  wire <$> userData.

(** The final value of the local [userDataToSend]. *)
Definition userDataToSend (userData : gmap jsstring json)
  : gmap jsstring json :=
  removeEmptyFields
    (checkPicture (parseMetadata (reduceDirectory (copyOf userData)))).

(** [createUser] up to its network call: the request it sends, or the
    message of the error it throws before sending. *)
Definition createUser (userData : gmap jsstring json) : jsstring + Request :=
  let data := userDataToSend userData in
  match ENDPOINTS.USERS.BASE with
  | [] =>
      inl (str "Failed to create user: Invalid API endpoint for user creation")
  | _ :: _ => inr (ApiService.post ENDPOINTS.USERS.BASE (JObj data))
  end.

End WithJsonParse.

(** [createUser] after its network call: the response is returned, an
    error of the client is rethrown with a prefix. *)
Definition createUserResult (r : jsstring + json) : jsstring + json :=
  match r with
  | inr response => inr response
  | inl message => inl (str "Failed to create user: " ++ message)
  end.

(** [updateUser] and [patchUser]: a non-empty string [directory] is
    wrapped in an object; anything else is sent as it is. *)
Definition wrapDirectory (userData : gmap jsstring json)
  : gmap jsstring json :=
  match userData !! str "directory" with
  | Some (JStr s as v) =>
      if truthy v
      then <[str "directory" := JObj {[ str "name" := JStr s ]}]> userData
      else userData
  | _ => userData
  end.

Definition updateUser (userId : jsstring) (userData : gmap jsstring json)
  : Request :=
  ApiService.put (ENDPOINTS.USERS.BY_ID userId) (JObj (wrapDirectory userData)).

Definition patchUser (userId : jsstring) (userData : gmap jsstring json)
  : Request :=
  ApiService.patch (ENDPOINTS.USERS.BY_ID userId) (JObj (wrapDirectory userData)).

(** [getAllUsers]: the request.  [take] is a number or absent; in the
    template literal a number is converted by [numberToString], the
    platform's [Number::toString]. *)
Definition getAllUsersRequest (numberToString : number -> jsstring)
    (take : option number) : Request :=
  let url :=
    match take with
    | Some n =>
        if truthyNumber n
        then ENDPOINTS.USERS.BASE ++ str "?take=" ++ numberToString n
        else ENDPOINTS.USERS.BASE
    | None => ENDPOINTS.USERS.BASE
    end in
  ApiService.get url.

(** [getAllUsers]: [response.data || []] on the decoded response.
    [None] is the [TypeError] of reading a property of [null]. *)
Definition getAllUsers (response : json) : option json :=
  match response with
  | JNull => None
  | _ =>
      match getProp response (str "data") with
      | Some data => if truthy data then Some data else Some (JArr [])
      | None => Some (JArr [])
      end
  end.

End UserService.

(** ** The creation form: [pages/user.tsx], [UserCreationForm] *)

Module UserCreationForm.

Record UserFormData : Type := mkUserFormData {
  uid : jsstring;
  name : option jsstring;
  given_name : option jsstring;
  middle_name : option jsstring;
  family_name : option jsstring;
  nickname : option jsstring;
  email : option jsstring;
  phone_number : option jsstring;
  comment : option jsstring;
  picture : option jsstring;
  directory : option jsstring;
  metadata : option (gmap jsstring json);
  tags : option (list jsstring)
}.

Definition initialFormState : UserFormData :=
  mkUserFormData [] (Some []) (Some []) (Some []) (Some []) (Some [])
    (Some []) (Some []) (Some []) (Some []) (Some []) (Some ∅) (Some []).

(** The component state held by the [useState] hooks. *)
Record State : Type := mkState {
  formData : UserFormData;
  metadataKey : jsstring;
  metadataValue : jsstring;
  tag : jsstring;
  isLoading : bool;
  error : option jsstring;
  success : bool;
  imagePreview : option jsstring
}.

Definition setFormData (f : UserFormData -> UserFormData) (st : State) : State :=
  mkState (f (formData st)) (metadataKey st) (metadataValue st) (tag st)
    (isLoading st) (error st) (success st) (imagePreview st).

Definition setIsLoading (b : bool) (st : State) : State :=
  mkState (formData st) (metadataKey st) (metadataValue st) (tag st)
    b (error st) (success st) (imagePreview st).

Definition setError (e : option jsstring) (st : State) : State :=
  mkState (formData st) (metadataKey st) (metadataValue st) (tag st)
    (isLoading st) e (success st) (imagePreview st).

Definition setSuccess (b : bool) (st : State) : State :=
  mkState (formData st) (metadataKey st) (metadataValue st) (tag st)
    (isLoading st) (error st) b (imagePreview st).

Definition setImagePreview (p : option jsstring) (st : State) : State :=
  mkState (formData st) (metadataKey st) (metadataValue st) (tag st)
    (isLoading st) (error st) (success st) p.

Definition withPicture (p : jsstring) (f : UserFormData) : UserFormData :=
  mkUserFormData (uid f) (name f) (given_name f) (middle_name f)
    (family_name f) (nickname f) (email f) (phone_number f) (comment f)
    (Some p) (directory f) (metadata f) (tags f).

(** The form [{uid: u}], every optional field absent. *)
Definition blankForm (u : jsstring) : UserFormData :=
  mkUserFormData u None None None None None None None None None None None None.

Definition withEmail (e : jsstring) (f : UserFormData) : UserFormData :=
  mkUserFormData (uid f) (name f) (given_name f) (middle_name f)
    (family_name f) (nickname f) (Some e) (phone_number f) (comment f)
    (picture f) (directory f) (metadata f) (tags f).

(** The state of the component when it is mounted, holding form [f]. *)
Definition stateOf (f : UserFormData) : State :=
  mkState f [] [] [] false None false None.

(** Truthiness of a string, and of an optional string property. *)
Definition nonEmpty (s : jsstring) : bool :=
  match s with
  | [] => false
  | _ :: _ => true
  end.

Definition truthyStr (o : option jsstring) : bool :=
  match o with
  | Some s => nonEmpty s
  | None => false
  end.

(** The reasons for which [validateForm] returns [false], named as in the
    error taxonomy of the specification; [errorMessage] is the text the
    code gives to [setError]. *)
Inductive ValidationError : Type :=
| MissingUid
| UidAllDigits
| UidHasWhitespace
| InvalidEmail.

Definition errorMessage (e : ValidationError) : jsstring :=
  match e with
  | MissingUid => str "User ID is required"
  | UidAllDigits => str "User ID must contain at least one non-digit character"
  | UidHasWhitespace => str "User ID cannot contain whitespace"
  | InvalidEmail => str "Please enter a valid email address"
  end.

(** [validateForm]: [None] when it returns [true], [Some e] when it
    calls [setError (errorMessage e)] and returns [false]. *)
Definition validateForm (f : UserFormData) : option ValidationError :=
  if negb (nonEmpty (uid f)) || negb (nonEmpty (trim (uid f)))
  then Some MissingUid
  else if negb (matchNonDigit (uid f))
  then Some UidAllDigits
  else if includes (uid f) (str " ")
  then Some UidHasWhitespace
  else
    match email f with
    | Some e =>
        if nonEmpty e && negb (includes e (str "@"))
        then Some InvalidEmail
        else None
    | None => None
    end.

(** The file picked in the file input. *)
Record File : Type := mkFile {
  file_type : jsstring;
  file_size : N
}.

(** [handleImageUpload]: the state after the handler returns, and the file
    handed to [FileReader.readAsDataURL] if any.  [file.type.match('image.*')]
    searches the pattern anywhere in the media type. *)
Definition handleImageUpload (st : State) (file : option File)
  : State * option File :=
  match file with
  | None => (st, None)
  | Some f =>
      if negb (includes (file_type f) (str "image"))
      then (setError (Some (str "Please select an image file")) st, None)
      else if (5 * 1024 * 1024 <? file_size f)%N
      then (setError (Some (str "Image size should be less than 5MB")) st, None)
      else (st, Some f)
  end.

(** The two callbacks of the reader. *)
Definition readerOnload (base64String : jsstring) (st : State) : State :=
  setFormData (withPicture base64String)
    (setImagePreview (Some base64String) st).

Definition readerOnerror (st : State) : State :=
  setError (Some (str "Failed to read the image file")) st.

(** [if (formData.k && formData.k.trim()) cleanedData.k = formData.k.trim()] *)
Definition addTrimmed (k : jsstring) (v : option jsstring)
  (d : gmap jsstring json) : gmap jsstring json :=
  match v with
  | Some s =>
      if nonEmpty s && nonEmpty (trim s) then <[k := JStr (trim s)]> d else d
  | None => d
  end.

Definition addTags (v : option (list jsstring)) (d : gmap jsstring json)
  : gmap jsstring json :=
  match v with
  | Some l =>
      if (0 <? length l)%nat then <[str "tags" := JArr (List.map JStr l)]> d else d
  | None => d
  end.

Definition addMetadata (v : option (gmap jsstring json))
  (d : gmap jsstring json) : gmap jsstring json :=
  match v with
  | Some m =>
      if (0 <? size m)%nat then <[str "metadata" := JObj m]> d else d
  | None => d
  end.

(** The free-text fields copied by [handleSubmit], in the order of the
    code, with the form field each one reads. *)
Definition freeTextFields : list (jsstring * (UserFormData -> option jsstring)) :=
  [ (str "name", name); (str "given_name", given_name);
    (str "middle_name", middle_name); (str "family_name", family_name);
    (str "nickname", nickname); (str "email", email);
    (str "phone_number", phone_number); (str "comment", comment) ].

(** [cleanedData] as [handleSubmit] builds it, lines 162-192. *)
Definition cleanedData (f : UserFormData) : gmap jsstring json :=
  let d0 : gmap jsstring json := {[ str "uid" := JStr (trim (uid f)) ]} in
  let d1 := fold_left (fun d kf => addTrimmed kf.1 (kf.2 f) d) freeTextFields d0 in
  let d2 := addTrimmed (str "directory") (directory f) d1 in
  let d3 := addTrimmed (str "picture") (picture f) d2 in
  let d4 := addTags (tags f) d3 in
  addMetadata (metadata f) d4.

Section WithJsonParse.
Variable JSON_parse : jsstring -> option json.

(** [handleSubmit] up to the network call: the state when the handler
    yields, and the request sent if any. *)
Definition handleSubmit (st : State) : State * option Request :=
  let st1 := setError None st in
  match validateForm (formData st1) with
  | Some e => (setError (Some (errorMessage e)) st1, None)
  | None =>
      let st2 := setIsLoading true st1 in
      match UserService.createUser JSON_parse (cleanedData (formData st2)) with
      | inr request => (st2, Some request)
      | inl message => (setIsLoading false (setError (Some message) st2), None)
      end
  end.

End WithJsonParse.

(** [handleSubmit] after the network call: [response] is the decoded user,
    or the message of the error thrown by the client. *)
Definition handleSubmitResponse (response : jsstring + json) (st : State) : State :=
  match UserService.createUserResult response with
  | inr _ =>
      setIsLoading false
        (setImagePreview None
           (setFormData (fun _ => initialFormState) (setSuccess true st)))
  | inl message => setIsLoading false (setError (Some message) st)
  end.

End UserCreationForm.

(** ** The list view: [pages/user.tsx] and [pages/home.tsx], [HomePage] *)

Module HomePage.

(** A user as the view reads it; [other] holds the remaining properties. *)
Record User : Type := mkUser {
  uid : jsstring;
  name : option jsstring;
  email : option jsstring;
  other : gmap jsstring json
}.

Section WithToLowerCase.

(** [String.prototype.toLowerCase] *)
Variable toLowerCase : jsstring -> jsstring.

(** [field?.toLowerCase().includes(searchString) || false] *)
Definition optionalIncludes (field : option jsstring) (searchString : jsstring)
  : bool :=
  match field with
  | Some s => includes (toLowerCase s) searchString || false
  | None => false
  end.

Definition matchesSearch (searchTerm : jsstring) (user : User) : bool :=
  let searchString := toLowerCase searchTerm in
  includes (toLowerCase (uid user)) searchString
  || optionalIncludes (name user) searchString
  || optionalIncludes (email user) searchString.

(** The same filter in both pages; [pages/user.tsx] guards it with
    [Array.isArray(users)], which holds of a list. *)
Definition filteredUsers (users : list User) (searchTerm : jsstring)
  : list User :=
  List.filter (matchesSearch searchTerm) users.

End WithToLowerCase.

End HomePage.

(** ** Predicates used to state the properties *)

Import UserCreationForm.

(** A string that does not begin with white space. *)
Definition noLeadingWs (s : jsstring) : Prop :=
  match s with
  | [] => True
  | c :: _ => isWhiteSpace c = false
  end.

(** The three [uid] rules of [validateForm] all pass. *)
Definition uidAccepted (u : jsstring) : bool :=
  nonEmpty (trim u) && matchNonDigit u && negb (includes u (str " ")).

(** Every string held at the top level is its own trimmed form. *)
Definition trimmedStrings (d : gmap jsstring json) : Prop :=
  forall (k : jsstring) (s : jsstring), d !! k = Some (JStr s) -> trim s = s.

(** The filter predicate in the words of the specification. *)
Definition isSubstringOf (t s : jsstring) : Prop :=
  exists pre post : jsstring, s = pre ++ t ++ post.

Definition matchesQuery (lower : jsstring -> jsstring) (query : jsstring)
  (user : HomePage.User) : Prop :=
  isSubstringOf (lower query) (lower (HomePage.uid user))
  \/ (exists n, HomePage.name user = Some n
                /\ isSubstringOf (lower query) (lower n))
  \/ (exists e, HomePage.email user = Some e
                /\ isSubstringOf (lower query) (lower e)).

(** ** The other handlers of the creation form: [pages/user.tsx] *)

Module FormHandlers.

(** The text inputs wired to [handleInputChange], by their [name]. *)
Inductive InputName : Type :=
| In_uid | In_name | In_given_name | In_middle_name | In_family_name
| In_nickname | In_email | In_phone_number | In_comment | In_picture
| In_directory.

(** [{...prev, [name]: value}] *)
Definition setField (n : InputName) (v : jsstring) (f : UserFormData)
  : UserFormData :=
  match n with
  | In_uid =>
      mkUserFormData v (name f) (given_name f) (middle_name f) (family_name f)
        (nickname f) (email f) (phone_number f) (comment f) (picture f)
        (directory f) (metadata f) (tags f)
  | In_name =>
      mkUserFormData (uid f) (Some v) (given_name f) (middle_name f)
        (family_name f) (nickname f) (email f) (phone_number f) (comment f)
        (picture f) (directory f) (metadata f) (tags f)
  | In_given_name =>
      mkUserFormData (uid f) (name f) (Some v) (middle_name f)
        (family_name f) (nickname f) (email f) (phone_number f) (comment f)
        (picture f) (directory f) (metadata f) (tags f)
  | In_middle_name =>
      mkUserFormData (uid f) (name f) (given_name f) (Some v)
        (family_name f) (nickname f) (email f) (phone_number f) (comment f)
        (picture f) (directory f) (metadata f) (tags f)
  | In_family_name =>
      mkUserFormData (uid f) (name f) (given_name f) (middle_name f)
        (Some v) (nickname f) (email f) (phone_number f) (comment f)
        (picture f) (directory f) (metadata f) (tags f)
  | In_nickname =>
      mkUserFormData (uid f) (name f) (given_name f) (middle_name f)
        (family_name f) (Some v) (email f) (phone_number f) (comment f)
        (picture f) (directory f) (metadata f) (tags f)
  | In_email => withEmail v f
  | In_phone_number =>
      mkUserFormData (uid f) (name f) (given_name f) (middle_name f)
        (family_name f) (nickname f) (email f) (Some v) (comment f)
        (picture f) (directory f) (metadata f) (tags f)
  | In_comment =>
      mkUserFormData (uid f) (name f) (given_name f) (middle_name f)
        (family_name f) (nickname f) (email f) (phone_number f) (Some v)
        (picture f) (directory f) (metadata f) (tags f)
  | In_picture => withPicture v f
  | In_directory =>
      mkUserFormData (uid f) (name f) (given_name f) (middle_name f)
        (family_name f) (nickname f) (email f) (phone_number f) (comment f)
        (picture f) (Some v) (metadata f) (tags f)
  end.

Definition withMetadata (m : gmap jsstring json) (f : UserFormData)
  : UserFormData :=
  mkUserFormData (uid f) (name f) (given_name f) (middle_name f)
    (family_name f) (nickname f) (email f) (phone_number f) (comment f)
    (picture f) (directory f) (Some m) (tags f).

Definition withTags (l : list jsstring) (f : UserFormData) : UserFormData :=
  mkUserFormData (uid f) (name f) (given_name f) (middle_name f)
    (family_name f) (nickname f) (email f) (phone_number f) (comment f)
    (picture f) (directory f) (metadata f) (Some l).

Definition setMetadataKey (s : jsstring) (st : State) : State :=
  mkState (formData st) s (metadataValue st) (tag st)
    (isLoading st) (error st) (success st) (imagePreview st).

Definition setMetadataValue (s : jsstring) (st : State) : State :=
  mkState (formData st) (metadataKey st) s (tag st)
    (isLoading st) (error st) (success st) (imagePreview st).

Definition setTag (s : jsstring) (st : State) : State :=
  mkState (formData st) (metadataKey st) (metadataValue st) s
    (isLoading st) (error st) (success st) (imagePreview st).

(** The state of the component when it is mounted. *)
Definition initialState : State := stateOf initialFormState.

Definition handleInputChange (n : InputName) (value : jsstring) (st : State)
  : State :=
  setFormData (setField n value) st.

(** [prev.metadata] spread into a new object; spreading [undefined] gives
    the empty object. *)
Definition metadataOf (f : UserFormData) : gmap jsstring json :=
  match metadata f with
  | Some m => m
  | None => ∅
  end.

(** [prev.tags || []] *)
Definition tagsOf (f : UserFormData) : list jsstring :=
  match tags f with
  | Some l => l
  | None => []
  end.

Definition handleAddMetadata (st : State) : State :=
  if negb (nonEmpty (trim (metadataKey st))) then st
  else
    setMetadataValue []
      (setMetadataKey []
         (setFormData
            (fun prev =>
               withMetadata
                 (<[metadataKey st := JStr (metadataValue st)]> (metadataOf prev))
                 prev)
            st)).

Definition handleRemoveMetadata (key : jsstring) (st : State) : State :=
  let newMetadata := delete key (metadataOf (formData st)) in
  setFormData (withMetadata newMetadata) st.

Definition handleAddTag (st : State) : State :=
  if negb (nonEmpty (trim (tag st))) then st
  else
    setTag []
      (setFormData (fun prev => withTags (tagsOf prev ++ [tag st]) prev) st).

(** [prev.tags?.filter(t => t !== tagToRemove) || []] *)
Definition handleRemoveTag (tagToRemove : jsstring) (st : State) : State :=
  setFormData
    (fun prev => withTags (filter (fun t => t <> tagToRemove) (tagsOf prev)) prev)
    st.

(** The button on the image preview, lines 416-419. *)
Definition clearPicture (st : State) : State :=
  setFormData (withPicture []) (setImagePreview None st).

(** What can happen to the mounted form: user actions, and the
    completions of the file read and of the network call. *)
Inductive Event : Type :=
| InputChange (n : InputName) (value : jsstring)
| MetadataKeyChange (value : jsstring)
| MetadataValueChange (value : jsstring)
| TagChange (value : jsstring)
| AddMetadata
| RemoveMetadata (key : jsstring)
| AddTag
| RemoveTag (t : jsstring)
| ImageUpload (file : option File)
| ReaderLoad (base64String : jsstring)
| ReaderError
| ClearPicture
| Submit
| SubmitResponse (response : jsstring + json).

Section WithJsonParse.
Variable JSON_parse : jsstring -> option json.

Definition step (st : State) (e : Event) : State :=
  match e with
  | InputChange n v => handleInputChange n v st
  | MetadataKeyChange v => setMetadataKey v st
  | MetadataValueChange v => setMetadataValue v st
  | TagChange v => setTag v st
  | AddMetadata => handleAddMetadata st
  | RemoveMetadata k => handleRemoveMetadata k st
  | AddTag => handleAddTag st
  | RemoveTag t => handleRemoveTag t st
  | ImageUpload file => fst (handleImageUpload st file)
  | ReaderLoad s => readerOnload s st
  | ReaderError => readerOnerror st
  | ClearPicture => clearPicture st
  | Submit => fst (handleSubmit JSON_parse st)
  | SubmitResponse r => handleSubmitResponse r st
  end.

Definition run (st : State) (events : list Event) : State :=
  fold_left step events st.

End WithJsonParse.

End FormHandlers.

(** ** The other operations of the user data service *)

Module UserServiceCalls.

Definition getUserById (userId : jsstring) : Request :=
  ApiService.get (ENDPOINTS.USERS.BY_ID userId).

Definition getAuthenticatedUser : Request :=
  ApiService.get ENDPOINTS.USERS.GET_AUTHENTICATED.

Definition deleteUser (userId : jsstring) : Request :=
  ApiService.delete (ENDPOINTS.USERS.BY_ID userId).

(** [expiresIn ? { expires_in: expiresIn } : {}]. *)
Definition createAccessToken (userId : jsstring) (expiresIn : option number)
  : Request :=
  let data : gmap jsstring json :=
    match expiresIn with
    | Some n => if truthyNumber n then {[ str "expires_in" := JNum n ]} else ∅
    | None => ∅
    end in
  ApiService.post (ENDPOINTS.USERS.TOKENS userId) (JObj data).

Definition trashUser (userId : jsstring) : Request :=
  ApiService.post (ENDPOINTS.USERS.TRASH userId) (JObj ∅).

Definition restoreUser (userId : jsstring) : Request :=
  ApiService.post (ENDPOINTS.USERS.RESTORE userId) (JObj ∅).

End UserServiceCalls.

(** ** The transport client, [fetchWithConfig]: headers and responses *)

Module Fetch.

(** [API_CONFIG.HEADERS] *)
Definition HEADERS : gmap jsstring jsstring :=
  {[ str "Content-Type" := str "application/json";
     str "Accept" := str "application/json";
     str "Authorization" := str "Bearer wys_hMWpXdekxcn9Gc8Ioah3azOllzUZ7l3HN9yB" ]}.

(** The headers of every request; [authToken] is
    [localStorage.getItem('auth_token')], [None] for [null].  The right
    spread overrides the left one. *)
Definition headers (authToken : option jsstring) : gmap jsstring jsstring :=
  (if truthyStr authToken
   then match authToken with
        | Some t => {[ str "Authorization" := str "Bearer " ++ t ]}
        | None => ∅
        end
   else ∅) ∪ HEADERS.

Module ERROR_MESSAGES.
Definition NETWORK_ERROR : jsstring := str "Network error. Please check your connection.".
Definition SERVER_ERROR : jsstring := str "Server error. Please try again later.".
Definition TIMEOUT_ERROR : jsstring := str "Request timed out. Please try again.".
Definition NOT_FOUND : jsstring := str "Resource not found.".
Definition UNAUTHORIZED : jsstring := str "Unauthorized. Please log in again.".
Definition FORBIDDEN : jsstring := str "You do not have permission to perform this action.".
Definition DEFAULT : jsstring := str "An error occurred. Please try again.".
End ERROR_MESSAGES.

Definition getErrorMessage (status : N) : jsstring :=
  if (status =? 400)%N then ERROR_MESSAGES.DEFAULT
  else if (status =? 401)%N then ERROR_MESSAGES.UNAUTHORIZED
  else if (status =? 403)%N then ERROR_MESSAGES.FORBIDDEN
  else if (status =? 404)%N then ERROR_MESSAGES.NOT_FOUND
  else if (status =? 500)%N then ERROR_MESSAGES.SERVER_ERROR
  else ERROR_MESSAGES.DEFAULT.

(** A response as the client reads it: [body] is what [response.json()]
    resolves to, [None] when it rejects.  [response.ok] is the status
    being in the range 200-299. *)
Record Response : Type := mkResponse {
  status : N;
  body : option json
}.

Definition ok (r : Response) : bool :=
  (200 <=? status r)%N && (status r <=? 299)%N.

(** What the client throws: an [Error] made by the client with the given
    message, or an error raised by the platform ([TypeError],
    [SyntaxError]) whose message is its own. *)
Inductive Thrown : Type :=
| Error (message : jsstring)
| PlatformError.

Section WithToString.

(** [String(v)] for a value that is not a string. *)
Variable toStringOther : json -> jsstring.

Definition toString (v : json) : jsstring :=
  match v with
  | JStr s => s
  | _ => toStringOther v
  end.

(** [a || b] on properties that may be absent. *)
Definition orElse (a b : option json) : option json :=
  if truthyProp a then a else b.

(** [e.message || e] for an element of [errors]; [None] is the
    [TypeError] of reading a property of [null]. *)
Definition elementMessage (e : json) : option json :=
  match e with
  | JNull => None
  | _ =>
      match orElse (getProp e (str "message")) (Some e) with
      | Some v => Some v
      | None => Some e
      end
  end.

Fixpoint mapElementMessage (l : list json) : option (list json) :=
  match l with
  | [] => Some []
  | e :: l' =>
      match elementMessage e, mapElementMessage l' with
      | Some v, Some vs => Some (v :: vs)
      | _, _ => None
      end
  end.

(** [l.join('; ')] *)
Fixpoint join (l : list json) : jsstring :=
  match l with
  | [] => []
  | [v] => toString v
  | v :: l' => toString v ++ str "; " ++ join l'
  end.

(** The last operand of the chain, lines 150-152: the joined messages of
    a non-empty [errors] array, else the text for the status. *)
Definition errorsOrStatus (r : Response) (errorData : json) : option jsstring :=
  match getProp errorData (str "errors") with
  | Some (JArr (e :: l)) =>
      match mapElementMessage (e :: l) with
      | Some vs => Some (join vs)
      | None => None
      end
  | _ => Some (getErrorMessage (status r))
  end.

(** The message of the error thrown for a response that is not [ok],
    lines 136-155; [None] is a [TypeError]. *)
Definition httpErrorMessage (r : Response) : option jsstring :=
  let errorData := match body r with Some v => v | None => JObj ∅ end in
  match errorData with
  | JNull => None
  | _ =>
      match orElse (getProp errorData (str "detail"))
              (orElse (getProp errorData (str "message"))
                 (getProp errorData (str "error"))) with
      | Some v =>
          if truthy v then Some (toString v) else errorsOrStatus r errorData
      | None => errorsOrStatus r errorData
      end
  end.

(** What the race between [fetch] and the 30 s timer settles to. *)
Inductive Settled : Type :=
| Responded (r : Response)
| TimedOut
| FetchRejected.

(** [fetchWithConfig] from the settled race on: the decoded value it
    returns, or what it throws. *)
Definition fetchWithConfig (s : Settled) : Thrown + json :=
  match s with
  | TimedOut => inl (Error (str "Request timeout"))
  | FetchRejected => inl PlatformError
  | Responded r =>
      if negb (ok r) then
        match httpErrorMessage r with
        | Some m => inl (Error m)
        | None => inl PlatformError
        end
      else if (status r =? 204)%N then inr (JObj ∅)
      else
        match body r with
        | Some v => inr v
        | None => inl PlatformError
        end
  end.

End WithToString.

End Fetch.

(** ** The other handlers of the list view *)

Module HomeView.

Record State : Type := mkState {
  users : list HomePage.User;
  loading : bool;
  error : option jsstring;
  showCreateForm : bool;
  searchTerm : jsstring;
  selectedUser : option HomePage.User
}.

Definition setUsers (f : list HomePage.User -> list HomePage.User) (st : State)
  : State :=
  mkState (f (users st)) (loading st) (error st) (showCreateForm st)
    (searchTerm st) (selectedUser st).

Definition setError (e : option jsstring) (st : State) : State :=
  mkState (users st) (loading st) e (showCreateForm st)
    (searchTerm st) (selectedUser st).

Definition setShowCreateForm (b : bool) (st : State) : State :=
  mkState (users st) (loading st) (error st) b
    (searchTerm st) (selectedUser st).

Definition handleUserCreated (newUser : HomePage.User) (st : State) : State :=
  setShowCreateForm false (setUsers (fun prevUsers => prevUsers ++ [newUser]) st).

(** [handleDeleteUser] up to the network call: [confirmed] is the answer
    to [window.confirm]. *)
Definition handleDeleteUser (confirmed : bool) (uid : jsstring)
  : option Request :=
  if confirmed then Some (UserServiceCalls.deleteUser uid) else None.

(** [handleDeleteUser] after the network call: [None] when it resolved,
    the message of the error when it was rejected. *)
Definition handleDeleteUserDone (uid : jsstring) (failure : option jsstring)
  (st : State) : State :=
  match failure with
  | None =>
      setUsers
        (fun prevUsers => filter (fun user => HomePage.uid user <> uid) prevUsers)
        st
  | Some message => setError (Some message) st
  end.

End HomeView.

(** ** Predicates used to state the further properties *)

Definition nonBlank (s : jsstring) : Prop := trim s <> [].

(** The drafts edited through the tag and metadata editors: no tag and
    no metadata key is blank, and every metadata value is a string. *)
Definition draftsWellFormed (f : UserFormData) : Prop :=
  Forall nonBlank (FormHandlers.tagsOf f)
  /\ forall (k : jsstring) (v : json),
       FormHandlers.metadataOf f !! k = Some v ->
       nonBlank k /\ isString v = true.

(** The result of [FileReader.readAsDataURL] for a file of the given
    media type, [payload] being the base64 text of its content. *)
Definition dataUrl (mediaType payload : jsstring) : jsstring :=
  str "data:" ++ mediaType ++ str ";base64," ++ payload.

(** [createUser] makes its request, a POST to the users endpoint, and
    [sent] is the object that the text of its body denotes. *)
Definition createUserSends (parse : jsstring -> option json)
    (u sent : gmap jsstring json) : Prop :=
  exists request : Request,
    UserService.createUser parse u = inr request
    /\ req_method request = POST
    /\ req_url request = ENDPOINTS.USERS.BASE
    /\ sentBody request = Some (JObj sent).

(** An optional number that the conditional [n ? ... : ...] takes as not
    given: absent, or falsy. *)
Definition notGiven (n : option number) : Prop :=
  match n with
  | Some x => truthyNumber x = false
  | None => True
  end.

(** An element of [errors] that carries the text [m]: an object that
    holds the non-empty text [m] under [message], whatever else it holds,
    or the text [m] itself. *)
Inductive carriesText : json -> jsstring -> Prop :=
| carries_message (o : gmap jsstring json) (m : jsstring) :
    o !! str "message" = Some (JStr m) -> m <> [] -> carriesText (JObj o) m
| carries_itself (m : jsstring) : carriesText (JStr m) m.

(** The texts of a list, with ["; "] between them. *)
Fixpoint joinTexts (l : list jsstring) : jsstring :=
  match l with
  | [] => []
  | [m] => m
  | m :: l' => m ++ str "; " ++ joinTexts l'
  end.

(** * Properties *)

(** ** Facts about the string operations *)

Lemma trimStart_nil_iff (s : jsstring) :
  trimStart s = [] <-> forallb isWhiteSpace s = true.
Proof.
  induction s as [|c s IH]; simpl; [tauto|].
  destruct (isWhiteSpace c) eqn:Hc; simpl; [exact IH|].
  split; discriminate.
Qed.

Lemma trimEnd_nil_iff (s : jsstring) :
  trimEnd s = [] <-> forallb isWhiteSpace s = true.
Proof.
  induction s as [|c s IH]; simpl; [tauto|].
  destruct (trimEnd s) as [|d t] eqn:Ht.
  - destruct (isWhiteSpace c); simpl.
    + split; intros _; [apply IH|]; reflexivity.
    + split; discriminate.
  - split; [discriminate|].
    intros H. apply andb_true_iff in H as [_ H].
    apply IH in H. discriminate.
Qed.

Lemma trimStart_noLeadingWs (s : jsstring) : noLeadingWs (trimStart s).
Proof.
  induction s as [|c s IH]; simpl; [exact I|].
  destruct (isWhiteSpace c) eqn:Hc; [exact IH|]. exact Hc.
Qed.

Lemma trimStart_fixed (s : jsstring) : noLeadingWs s -> trimStart s = s.
Proof.
  destruct s as [|c s]; simpl; [reflexivity|].
  intros ->. reflexivity.
Qed.

Lemma trimEnd_noLeadingWs (s : jsstring) :
  noLeadingWs s -> noLeadingWs (trimEnd s).
Proof.
  destruct s as [|c s]; simpl; [trivial|].
  intros Hc. destruct (trimEnd s); [rewrite Hc|]; exact Hc.
Qed.

Lemma trimEnd_idempotent (s : jsstring) : trimEnd (trimEnd s) = trimEnd s.
Proof.
  induction s as [|c s IH]; simpl; [reflexivity|].
  destruct (trimEnd s) as [|d t] eqn:Ht.
  - destruct (isWhiteSpace c) eqn:Hc; simpl; [reflexivity|].
    rewrite Hc. reflexivity.
  - change (trimEnd (c :: d :: t)) with
      (match trimEnd (d :: t) with
       | [] => if isWhiteSpace c then [] else [c]
       | u => c :: u
       end).
    rewrite IH. reflexivity.
Qed.

Lemma trim_noLeadingWs (s : jsstring) : noLeadingWs (trim s).
Proof. apply trimEnd_noLeadingWs, trimStart_noLeadingWs. Qed.

Lemma trim_idempotent (s : jsstring) : trim (trim s) = trim s.
Proof.
  unfold trim at 1.
  rewrite (trimStart_fixed (trim s)) by apply trim_noLeadingWs.
  unfold trim. apply trimEnd_idempotent.
Qed.

Lemma trim_nil_iff (s : jsstring) :
  trim s = [] <-> forallb isWhiteSpace s = true.
Proof.
  unfold trim. rewrite trimEnd_nil_iff. split.
  - intros H. apply trimStart_nil_iff.
    pose proof (trimStart_noLeadingWs s) as Hn.
    destruct (trimStart s) as [|c t]; [reflexivity|].
    simpl in H, Hn. rewrite Hn in H. discriminate.
  - intros H. apply trimStart_nil_iff in H. rewrite H. reflexivity.
Qed.

Lemma startsWith_spec (s p : jsstring) :
  startsWith s p = true <-> exists post, s = p ++ post.
Proof.
  revert s. induction p as [|a p IH]; intros s; simpl.
  - split; [intros _; exists s; reflexivity | reflexivity].
  - destruct s as [|b s].
    + split; [discriminate | intros [post H]; discriminate].
    + rewrite andb_true_iff, N.eqb_eq, IH. split.
      * intros [-> [post ->]]. exists post. reflexivity.
      * intros [post H]. injection H as -> ->. split; [reflexivity|].
        exists post. reflexivity.
Qed.

Lemma includes_spec (s t : jsstring) :
  includes s t = true <-> exists pre post, s = pre ++ t ++ post.
Proof.
  induction s as [|c s IH].
  - simpl. rewrite orb_false_r, startsWith_spec. split.
    + intros [post H]. exists [], post. exact H.
    + intros [pre [post H]]. destruct pre; [|discriminate].
      exists post. exact H.
  - cbn [includes]. rewrite orb_true_iff, startsWith_spec, IH. split.
    + intros [[post H] | [pre [post H]]].
      * exists [], post. exact H.
      * exists (c :: pre), post. rewrite H. reflexivity.
    + intros [pre [post H]]. destruct pre as [|d pre].
      * left. exists post. exact H.
      * right. simpl in H. injection H as _ ->. exists pre, post. reflexivity.
Qed.

Lemma includes_nil (s : jsstring) : includes s [] = true.
Proof. destruct s; reflexivity. Qed.

Lemma includes_char (s : jsstring) (c : N) :
  includes s [c] = true <-> In c s.
Proof.
  induction s as [|d s IH]; simpl.
  - split; [discriminate | tauto].
  - rewrite orb_true_iff, IH, andb_true_r, N.eqb_eq.
    split; intros [H | H]; auto.
Qed.

Lemma matchNonDigit_false_iff (s : jsstring) :
  matchNonDigit s = false <-> forallb isDigit s = true.
Proof.
  unfold matchNonDigit. induction s as [|c s IH]; simpl; [tauto|].
  rewrite orb_false_iff, andb_true_iff, IH, negb_false_iff. tauto.
Qed.

Lemma isDigit_not_ws (c : N) : isDigit c = true -> isWhiteSpace c = false.
Proof.
  unfold isDigit, isWhiteSpace. intros H.
  apply andb_true_iff in H as [H1 H2].
  apply N.leb_le in H1, H2.
  repeat (apply orb_false_iff; split);
    try (apply N.eqb_neq; lia).
  apply andb_false_iff. left. apply N.leb_gt. lia.
Qed.

(** ** The reference reader on sample texts *)

Example jsonParse_object :
  jsonParse (str "{" ++ dq ++ str "a" ++ dq ++ str ":1}")
  = Some (JObj {[ str "a" := JInt 1 ]}).
Proof. vm_compute. reflexivity. Qed.

Example jsonParse_nested :
  jsonParse (str " [1.50, -2e3, true , null, {}, " ++ dq ++ str "xA\n" ++ dq ++ str "] ")
  = Some (JArr [JNum (S754_finite false 6755399441055744 (-52)); JInt (-2000);
                JBool true; JNull; JObj ∅; JStr [120; 65; 10]%N]).
Proof. vm_compute. reflexivity. Qed.

(** Numbers are read as doubles: the literal is rounded to the nearest
    double, a literal beyond the range is an infinity, one below it is a
    zero, and the sign of a zero is kept. *)
Example jsonParse_rounds :
  jsonParse (str "9007199254740993") = Some (JInt 9007199254740992)
  /\ jsonParse (str "0.1") = Some (JNum (S754_finite false 7205759403792794 (-56)))
  /\ jsonParse (str "1e400") = Some (JNum (S754_infinity false))
  /\ jsonParse (str "-1e400") = Some (JNum (S754_infinity true))
  /\ jsonParse (str "1e-400") = Some (JNum (S754_zero false))
  /\ jsonParse (str "-0") = Some (JNum (S754_zero true))
  /\ jsonParse (str "5e-324") = Some (JNum (S754_finite false 1 (-1074)))
  /\ jsonParse (str "1.7976931348623157e308")
     = Some (JNum (S754_finite false 9007199254740991 971)).
Proof. vm_compute. repeat split. Qed.

(** What [JSON.stringify] makes of numbers. *)
Example wire_numbers :
  wire (JArr [JNum (S754_infinity false); JNum S754_nan; JNum (S754_zero true);
              JInt 3; JObj {[ str "n" := JNum (S754_infinity true) ]}])
  = JArr [JNull; JNull; JInt 0; JInt 3; JObj {[ str "n" := JNull ]}].
Proof. vm_compute. reflexivity. Qed.

Example jsonParse_garbage : jsonParse (str "not json") = None.
Proof. vm_compute. reflexivity. Qed.

Example jsonParse_empty : jsonParse [] = None.
Proof. vm_compute. reflexivity. Qed.

Example jsonParse_trailing : jsonParse (str "{} x") = None.
Proof. vm_compute. reflexivity. Qed.

Example jsonParse_leading_zero : jsonParse (str "01") = None.
Proof. vm_compute. reflexivity. Qed.


(** ** Form validation *)

Lemma nonEmpty_false_iff (s : jsstring) : nonEmpty s = false <-> s = [].
Proof. destruct s; simpl; split; congruence. Qed.

Lemma nonEmpty_true_iff (s : jsstring) : nonEmpty s = true <-> s <> [].
Proof. destruct s; simpl; split; congruence. Qed.

Lemma trim_nonEmpty_source (s : jsstring) : trim s <> [] -> s <> [].
Proof. intros H ->. apply H. reflexivity. Qed.

(** The first guard of [validateForm] fires exactly on a blank [uid]. *)
Lemma uid_guard_iff (u : jsstring) :
  negb (nonEmpty u) || negb (nonEmpty (trim u)) = true <-> trim u = [].
Proof.
  rewrite orb_true_iff, !negb_true_iff, !nonEmpty_false_iff. split.
  - intros [-> | H]; [reflexivity | exact H].
  - intros H. right. exact H.
Qed.

Lemma uid_guard_false_iff (u : jsstring) :
  negb (nonEmpty u) || negb (nonEmpty (trim u)) = false <-> trim u <> [].
Proof.
  rewrite <- uid_guard_iff.
  destruct (negb (nonEmpty u) || negb (nonEmpty (trim u))); split; congruence.
Qed.

Lemma digits_trim_nonEmpty (u : jsstring) :
  u <> [] -> forallb isDigit u = true -> trim u <> [].
Proof.
  intros Hne Hd Ht. apply trim_nil_iff in Ht.
  destruct u as [|c u]; [congruence|].
  simpl in Hd, Ht.
  apply andb_true_iff in Hd as [Hc _]. apply andb_true_iff in Ht as [Hw _].
  apply isDigit_not_ws in Hc. congruence.
Qed.

Lemma space_is_nonDigit (u : jsstring) : In 32%N u -> matchNonDigit u = true.
Proof.
  intros H. unfold matchNonDigit. apply existsb_exists.
  exists 32%N. split; [exact H | reflexivity].
Qed.

(** C2, as the code has it: [UidAllDigits] is reported exactly for a
    non-empty [uid] made of digits only, and [MissingUid] exactly for a
    [uid] that is empty after trimming, that is, empty or made of white
    space only. *)
Theorem validateForm_uid_digits_and_missing (f : UserFormData) :
  (validateForm f = Some UidAllDigits
     <-> uid f <> [] /\ forallb isDigit (uid f) = true)
  /\ (validateForm f = Some MissingUid <-> trim (uid f) = []).
Proof.
  unfold validateForm.
  destruct (negb (nonEmpty (uid f)) || negb (nonEmpty (trim (uid f)))) eqn:G.
  - apply uid_guard_iff in G. split.
    + split; [discriminate|]. intros [Hne Hd].
      exfalso. exact (digits_trim_nonEmpty _ Hne Hd G).
    + split; [intros _; exact G | reflexivity].
  - apply uid_guard_false_iff in G.
    destruct (matchNonDigit (uid f)) eqn:M; simpl.
    + split.
      * split.
        -- destruct (includes (uid f) (str " ")); [discriminate|].
           destruct (email f) as [e|]; [|discriminate].
           destruct (nonEmpty e && negb (includes e (str "@"))); discriminate.
        -- intros [_ Hd]. apply matchNonDigit_false_iff in Hd. congruence.
      * split; [|congruence].
        destruct (includes (uid f) (str " ")); [discriminate|].
        destruct (email f) as [e|]; [|discriminate].
        destruct (nonEmpty e && negb (includes e (str "@"))); discriminate.
    + split.
      * split; [|reflexivity]. intros _. split.
        -- exact (trim_nonEmpty_source _ G).
        -- apply matchNonDigit_false_iff. exact M.
      * split; [discriminate | congruence].
Qed.

(** C2, counterexample: a [uid] of one space is not the empty string, and
    is reported as [MissingUid]. *)
Lemma validateForm_missing_uid_on_blank :
  str " " <> [] /\ validateForm (blankForm (str " ")) = Some MissingUid.
Proof. split; [discriminate | reflexivity]. Qed.

(** C3, as the code has it by design: a [uid] that holds a space
    character (U+0020) and is not empty after trimming is reported as
    [UidHasWhitespace]; so is every form whose [uid] is ["12 3"]. *)
Theorem validateForm_uid_with_space :
  (forall f : UserFormData,
      trim (uid f) <> [] -> In 32%N (uid f) ->
      validateForm f = Some UidHasWhitespace)
  /\ (forall f : UserFormData,
      uid f = str "12 3" -> validateForm f = Some UidHasWhitespace).
Proof.
  assert (Hgen : forall f : UserFormData,
             trim (uid f) <> [] -> In 32%N (uid f) ->
             validateForm f = Some UidHasWhitespace).
  { intros f Ht Hs. unfold validateForm.
    apply uid_guard_false_iff in Ht. rewrite Ht.
    rewrite (space_is_nonDigit _ Hs). simpl.
    apply (includes_char (uid f) 32%N) in Hs.
    change (str " ") with [32%N]. rewrite Hs. reflexivity. }
  split; [exact Hgen|].
  intros f Hu. apply Hgen; rewrite Hu.
  - vm_compute. discriminate.
  - vm_compute. tauto.
Qed.

Lemma validateForm_uid_with_space_witness :
  validateForm (blankForm (str "12 3")) = Some UidHasWhitespace.
Proof.
  apply (proj1 validateForm_uid_with_space (blankForm (str "12 3"))).
  - vm_compute. discriminate.
  - vm_compute. tauto.
Defined.

(** C3, counterexample: two uids that hold a white space character, are
    not the empty string and hold a non-digit.  The first, one space, is
    reported as [MissingUid]; the second, [a], a tab and [b], passes
    validation. *)
Lemma validateForm_whitespace_not_reported :
  (existsb isWhiteSpace (str " ") = true /\ str " " <> []
   /\ matchNonDigit (str " ") = true
   /\ validateForm (blankForm (str " ")) = Some MissingUid)
  /\ (existsb isWhiteSpace [97; 9; 98]%N = true /\ [97; 9; 98]%N <> []
   /\ matchNonDigit [97; 9; 98]%N = true
   /\ validateForm (blankForm [97; 9; 98]%N) = None).
Proof. repeat split; discriminate. Qed.

Lemma validateForm_uidAccepted (f : UserFormData) :
  uidAccepted (uid f) = true ->
  validateForm f =
    match email f with
    | Some e =>
        if nonEmpty e && negb (includes e (str "@"))
        then Some InvalidEmail else None
    | None => None
    end.
Proof.
  unfold uidAccepted, validateForm. intros H.
  apply andb_true_iff in H as [H Hs]. apply andb_true_iff in H as [Ht Hd].
  apply negb_true_iff in Hs.
  assert (G : negb (nonEmpty (uid f)) || negb (nonEmpty (trim (uid f))) = false).
  { apply uid_guard_false_iff. apply nonEmpty_true_iff. exact Ht. }
  rewrite G, Hd, Hs. reflexivity.
Qed.

Lemma handleSubmit_invalid (parse : jsstring -> option json) (st : State)
  (e : ValidationError) :
  validateForm (formData st) = Some e ->
  handleSubmit parse st
  = (setError (Some (errorMessage e)) (setError None st), None).
Proof.
  intros H. unfold handleSubmit.
  change (formData (setError None st)) with (formData st).
  rewrite H. reflexivity.
Qed.

(** C7: when [validateForm] rejects the form, [handleSubmit] only records
    the message of the failed rule and sends no request; the form data
    and the loading flag are as before.  Once the [uid] rules pass, a
    present, non-empty [email] is rejected, with [InvalidEmail], exactly
    when it holds no [@].  A form with [uid] ["abc"] and [email] ["bad"]
    is rejected with [InvalidEmail] and nothing is sent. *)
Theorem handleSubmit_blocked_when_invalid :
  (forall (parse : jsstring -> option json) (st : State) (e : ValidationError),
      validateForm (formData st) = Some e ->
      let (st', request) := handleSubmit parse st in
      request = None
      /\ error st' = Some (errorMessage e)
      /\ formData st' = formData st
      /\ isLoading st' = isLoading st
      /\ success st' = success st
      /\ imagePreview st' = imagePreview st)
  /\ (forall (f : UserFormData) (e : jsstring),
      uidAccepted (uid f) = true -> email f = Some e -> e <> [] ->
      (validateForm f = Some InvalidEmail <-> ~ In 64%N e)
      /\ (validateForm f = None <-> In 64%N e))
  /\ (forall (parse : jsstring -> option json) (st : State),
      uid (formData st) = str "abc" -> email (formData st) = Some (str "bad") ->
      validateForm (formData st) = Some InvalidEmail
      /\ snd (handleSubmit parse st) = None).
Proof.
  split; [|split].
  - intros parse st e H. rewrite (handleSubmit_invalid parse st e H).
    repeat split.
  - intros f e Hu He Hne.
    rewrite (validateForm_uidAccepted f Hu), He.
    apply nonEmpty_true_iff in Hne. rewrite Hne. simpl.
    change (str "@") with [64%N].
    pose proof (includes_char e 64%N) as Hc.
    destruct (includes e [64%N]); simpl.
    + split; split; try discriminate; try reflexivity.
      * intros Hn. exfalso. apply Hn, Hc. reflexivity.
      * intros _. apply Hc. reflexivity.
    + split; split; try discriminate; try reflexivity.
      * intros _ Hin. apply Hc in Hin. discriminate.
      * intros Hin. apply Hc in Hin. discriminate.
  - intros parse st Hu He.
    assert (Hv : validateForm (formData st) = Some InvalidEmail).
    { rewrite validateForm_uidAccepted by (rewrite Hu; reflexivity).
      rewrite He. reflexivity. }
    split; [exact Hv|].
    rewrite (handleSubmit_invalid parse st _ Hv). reflexivity.
Qed.

Lemma handleSubmit_blocked_when_invalid_witness :
  validateForm (withEmail (str "bad") (blankForm (str "abc"))) = Some InvalidEmail
  /\ snd (handleSubmit jsonParse
            (stateOf (withEmail (str "bad") (blankForm (str "abc"))))) = None.
Proof.
  apply (proj2 (proj2 handleSubmit_blocked_when_invalid) jsonParse
           (stateOf (withEmail (str "bad") (blankForm (str "abc")))));
    reflexivity.
Defined.

(** ** Image upload *)

(** C9: when [handleImageUpload] rejects the chosen file, because its
    media type does not match [image.*] or because its size exceeds
    5 * 1024 * 1024 bytes, no read is started and the state is the one
    before with only the error message set; the form data, with any
    picture it holds, and the preview are unchanged. *)
Theorem handleImageUpload_reject_keeps_form (st : State) (file : File) :
  includes (file_type file) (str "image") = false
  \/ (5 * 1024 * 1024 < file_size file)%N ->
  exists message : jsstring,
    handleImageUpload st (Some file) = (setError (Some message) st, None)
    /\ formData (fst (handleImageUpload st (Some file))) = formData st
    /\ picture (formData (fst (handleImageUpload st (Some file))))
       = picture (formData st)
    /\ imagePreview (fst (handleImageUpload st (Some file))) = imagePreview st.
Proof.
  intros H. unfold handleImageUpload.
  destruct (includes (file_type file) (str "image")) eqn:Ht; simpl.
  - destruct H as [H | H]; [discriminate|].
    apply N.ltb_lt in H. rewrite H.
    eexists. repeat split.
  - eexists. repeat split.
Qed.

Lemma handleImageUpload_reject_keeps_form_witness :
  exists message : jsstring,
    let st := setFormData (withPicture (str "https://x.png")) (stateOf (blankForm (str "a1"))) in
    let file := mkFile (str "image/png") (5 * 1024 * 1024 + 1) in
    handleImageUpload st (Some file) = (setError (Some message) st, None)
    /\ formData (fst (handleImageUpload st (Some file))) = formData st
    /\ picture (formData (fst (handleImageUpload st (Some file))))
       = picture (formData st)
    /\ imagePreview (fst (handleImageUpload st (Some file))) = imagePreview st.
Proof.
  apply (handleImageUpload_reject_keeps_form
           (setFormData (withPicture (str "https://x.png"))
              (stateOf (blankForm (str "a1"))))
           (mkFile (str "image/png") (5 * 1024 * 1024 + 1))).
  right. vm_compute. reflexivity.
Defined.

(** The handler rejects exactly under the two conditions, and a file of
    exactly 5 MB is accepted. *)
Lemma handleImageUpload_rejects_iff (st : State) (file : File) :
  snd (handleImageUpload st (Some file)) = None
  <-> includes (file_type file) (str "image") = false
      \/ (5 * 1024 * 1024 < file_size file)%N.
Proof.
  unfold handleImageUpload.
  destruct (includes (file_type file) (str "image")); simpl.
  - destruct (5 * 1024 * 1024 <? file_size file)%N eqn:Hs; simpl.
    + apply N.ltb_lt in Hs. split; [right; exact Hs | reflexivity].
    + apply N.ltb_ge in Hs. split; [discriminate|].
      intros [H | H]; [discriminate | lia].
  - split; [left; reflexivity | reflexivity].
Qed.

Example handleImageUpload_five_megabytes (st : State) :
  handleImageUpload st (Some (mkFile (str "image/jpeg") (5 * 1024 * 1024)))
  = (st, Some (mkFile (str "image/jpeg") (5 * 1024 * 1024))).
Proof. reflexivity. Qed.

(** ** Unwrapping the list response *)

(** C10: on an envelope whose [data] is absent, [null] or otherwise
    falsy, [getAllUsers] returns the empty list; on any other envelope it
    returns the [data] value itself; the other fields of the envelope,
    [start], [end] and [count] among them, do not affect the result. *)
Theorem getAllUsers_unwraps_data (envelope : gmap jsstring json) :
  (truthyProp (envelope !! str "data") = false ->
     UserService.getAllUsers (JObj envelope) = Some (JArr []))
  /\ (forall data : json,
        envelope !! str "data" = Some data -> truthy data = true ->
        UserService.getAllUsers (JObj envelope) = Some data)
  /\ (forall (k : jsstring) (v : json),
        k <> str "data" ->
        UserService.getAllUsers (JObj (<[k := v]> envelope))
        = UserService.getAllUsers (JObj envelope)).
Proof.
  unfold UserService.getAllUsers, getProp. split; [|split].
  - destruct (envelope !! str "data") as [d|]; simpl; [|reflexivity].
    intros ->. reflexivity.
  - intros data -> ->. reflexivity.
  - intros k v Hk. rewrite lookup_insert_ne by exact Hk. reflexivity.
Qed.

Lemma getAllUsers_unwraps_data_witness :
  UserService.getAllUsers
    (JObj {[ str "data" := JNull; str "start" := JInt 0;
             str "end" := JInt 0; str "count" := JInt 0 ]})
  = Some (JArr []).
Proof.
  apply (proj1 (getAllUsers_unwraps_data
                  {[ str "data" := JNull; str "start" := JInt 0;
                     str "end" := JInt 0; str "count" := JInt 0 ]})).
  vm_compute. reflexivity.
Defined.

Example getAllUsers_absent_data :
  UserService.getAllUsers (JObj {[ str "count" := JInt 0 ]}) = Some (JArr []).
Proof. vm_compute. reflexivity. Qed.

Example getAllUsers_list :
  UserService.getAllUsers
    (JObj {[ str "data" := JArr [JObj {[ str "uid" := JStr (str "jane") ]}];
             str "start" := JInt 1; str "end" := JInt 1; str "count" := JInt 7 ]})
  = Some (JArr [JObj {[ str "uid" := JStr (str "jane") ]}]).
Proof. vm_compute. reflexivity. Qed.

(** ** The payload of [createUser] *)

Arguments str : simpl never.
Arguments startsWith : simpl never.
Arguments includes : simpl never.

(** Two distinct literal keys. *)
Ltac keyne :=
  let H := fresh "Hkey" in
  intros H; vm_compute in H; discriminate H.

Lemma removeEmptyFields_lookup (d : gmap jsstring json) (k : jsstring) :
  removeEmptyFields d !! k
  = match d !! k with
    | Some v => if isEmptyField v then None else Some v
    | None => None
    end.
Proof.
  unfold removeEmptyFields. destruct (d !! k) as [v|] eqn:Hk.
  - destruct (isEmptyField v) eqn:He.
    + apply map_lookup_filter_None. right. intros x Hx. simpl.
      rewrite Hk in Hx. injection Hx as <-. congruence.
    + apply map_lookup_filter_Some. split; [exact Hk | exact He].
  - apply map_lookup_filter_None. left. exact Hk.
Qed.

(** What [JSON.stringify] changes: nothing in a string, and it leaves
    the kind of a string as it is. *)
Lemma wire_JStr_inv (v : json) (s : jsstring) : wire v = JStr s -> v = JStr s.
Proof.
  destruct v as [| |x| | |]; simpl; try congruence.
  destruct x; simpl; congruence.
Qed.

Lemma wire_isString (v : json) : isString (wire v) = isString v.
Proof. destruct v as [| |x| | |]; try reflexivity. destruct x; reflexivity. Qed.

Lemma wire_strings (l : list jsstring) :
  wire (JArr (List.map JStr l)) = JArr (List.map JStr l).
Proof.
  simpl. f_equal. rewrite List.map_map. apply List.map_ext. reflexivity.
Qed.

Lemma json_size_element (l : list json) (v : json) :
  In v l -> json_size v < json_size (JArr l).
Proof.
  intros H. cbn [json_size]. induction l as [|w l IH]; [destruct H|].
  change (list_sum (List.map json_size (w :: l)))
    with (json_size w + list_sum (List.map json_size l)).
  destruct H as [-> | H]; [lia|].
  specialize (IH H). lia.
Qed.

Lemma json_size_member (o : gmap jsstring json) (k : jsstring) (v : json) :
  o !! k = Some v -> json_size v < json_size (JObj o).
Proof.
  intros H. cbn [json_size].
  rewrite (map_fold_delete_L (fun _ w n => json_size w + n) 0 k v o);
    [lia | intros; lia | exact H].
Qed.

(** Writing a value that was read back from a text changes nothing. *)
Lemma wire_idempotent (v : json) : wire (wire v) = wire v.
Proof.
  induction v as [v IH] using (induction_ltof1 _ json_size).
  unfold ltof in IH.
  destruct v as [| |x| |l|o]; try reflexivity.
  - destruct x; reflexivity.
  - cbn [wire]. f_equal. rewrite List.map_map. apply List.map_ext_in.
    intros w Hw. apply IH, json_size_element, Hw.
  - cbn [wire]. f_equal. rewrite <- map_fmap_compose.
    apply map_fmap_ext. intros k w Hw. apply IH.
    exact (json_size_member o k w Hw).
Qed.

Lemma copyOf_lookup (u : gmap jsstring json) (k : jsstring) :
  UserService.copyOf u !! k = wire <$> (u !! k).
Proof. apply lookup_fmap. Qed.

Lemma copyOf_lookup_Some (u : gmap jsstring json) (k : jsstring) (v : json) :
  u !! k = Some v -> UserService.copyOf u !! k = Some (wire v).
Proof. intros H. rewrite copyOf_lookup, H. reflexivity. Qed.

Lemma copyOf_lookup_string (u : gmap jsstring json) (k s : jsstring) :
  u !! k = Some (JStr s) -> UserService.copyOf u !! k = Some (JStr s).
Proof. apply copyOf_lookup_Some. Qed.

Lemma copyOf_lookup_object (u o : gmap jsstring json) (k : jsstring) :
  u !! k = Some (JObj o) -> UserService.copyOf u !! k = Some (JObj (wire <$> o)).
Proof. apply copyOf_lookup_Some. Qed.

(** Data whose values are written as they are: the copy is the data. *)
Lemma copyOf_stable (u : gmap jsstring json) :
  (forall k v, u !! k = Some v -> wire v = v) -> UserService.copyOf u = u.
Proof.
  intros H. apply map_eq. intros k. rewrite copyOf_lookup.
  destruct (u !! k) as [v|] eqn:Hk; [|reflexivity].
  simpl. rewrite (H k v Hk). reflexivity.
Qed.

Section CreatePayload.
Variable parse : jsstring -> option json.

Lemma reduceDirectory_other (d : gmap jsstring json) (k : jsstring) :
  k <> str "directory" -> UserService.reduceDirectory d !! k = d !! k.
Proof.
  intros Hk. unfold UserService.reduceDirectory.
  destruct (d !! str "directory") as [v|]; [|reflexivity].
  destruct (truthy v); [|reflexivity].
  destruct (isObject v); [|reflexivity].
  unfold assign. destruct (getProp v (str "name")).
  - apply lookup_insert_ne. congruence.
  - apply lookup_delete_ne. congruence.
Qed.

Lemma reduceDirectory_object (d o : gmap jsstring json) :
  d !! str "directory" = Some (JObj o) ->
  UserService.reduceDirectory d !! str "directory" = o !! str "name".
Proof.
  intros Hd. unfold UserService.reduceDirectory. rewrite Hd. simpl.
  destruct (o !! str "name") as [v|]; simpl.
  - apply lookup_insert_eq.
  - apply lookup_delete_eq.
Qed.

Lemma reduceDirectory_string (d : gmap jsstring json) :
  (forall v, d !! str "directory" = Some v -> isObject v = false) ->
  UserService.reduceDirectory d = d.
Proof.
  intros H. unfold UserService.reduceDirectory.
  destruct (d !! str "directory") as [v|]; [|reflexivity].
  rewrite (H v eq_refl). destruct (truthy v); reflexivity.
Qed.

Lemma parseMetadata_other (d : gmap jsstring json) (k : jsstring) :
  k <> str "metadata" -> UserService.parseMetadata parse d !! k = d !! k.
Proof.
  intros Hk. unfold UserService.parseMetadata.
  destruct (d !! str "metadata") as [[| | |s| |]|]; try reflexivity.
  destruct (truthy (JStr s)); [|reflexivity].
  destruct (parse s).
  - apply lookup_insert_ne. congruence.
  - apply lookup_delete_ne. congruence.
Qed.

Lemma parseMetadata_string (d : gmap jsstring json) (s : jsstring) :
  d !! str "metadata" = Some (JStr s) ->
  UserService.parseMetadata parse d !! str "metadata"
  = match s with
    | [] => Some (JStr [])
    | _ :: _ => parse s
    end.
Proof.
  intros Hd. unfold UserService.parseMetadata. rewrite Hd.
  destruct s as [|c s]; simpl; [exact Hd|].
  destruct (parse (c :: s)).
  - apply lookup_insert_eq.
  - apply lookup_delete_eq.
Qed.

Lemma parseMetadata_not_string (d : gmap jsstring json) :
  (forall v, d !! str "metadata" = Some v -> isString v = false) ->
  UserService.parseMetadata parse d = d.
Proof.
  intros H. unfold UserService.parseMetadata.
  destruct (d !! str "metadata") as [[| | |s| |]|]; try reflexivity.
  specialize (H (JStr s) eq_refl). discriminate.
Qed.

Lemma checkPicture_other (d : gmap jsstring json) (k : jsstring) :
  k <> str "picture" -> UserService.checkPicture d !! k = d !! k.
Proof.
  intros Hk. unfold UserService.checkPicture.
  destruct (d !! str "picture") as [[| | |s| |]|]; try reflexivity.
  destruct (truthy (JStr s)); [|reflexivity].
  destruct (startsWith s (str "data:image")); [reflexivity|].
  destruct (startsWith s (str "http")); simpl; [reflexivity|].
  apply lookup_delete_ne. congruence.
Qed.

Lemma checkPicture_string (d : gmap jsstring json) (s : jsstring) :
  d !! str "picture" = Some (JStr s) ->
  UserService.checkPicture d !! str "picture"
  = if nonEmpty s
         && negb (startsWith s (str "data:image"))
         && negb (startsWith s (str "http"))
    then None else Some (JStr s).
Proof.
  intros Hd. unfold UserService.checkPicture. rewrite Hd.
  destruct s as [|c s]; cbn [truthy nonEmpty andb]; [exact Hd|].
  destruct (startsWith (c :: s) (str "data:image")); cbn [negb andb];
    [exact Hd|].
  destruct (startsWith (c :: s) (str "http")); cbn [negb]; [exact Hd|].
  apply lookup_delete_eq.
Qed.

(** Every step only removes a key or leaves it: what is found after
    [checkPicture] was there before. *)
Lemma checkPicture_lookup_Some (d : gmap jsstring json) (k : jsstring) (v : json) :
  UserService.checkPicture d !! k = Some v -> d !! k = Some v.
Proof.
  unfold UserService.checkPicture.
  destruct (d !! str "picture") as [[| | |s| |]|]; try (intros H; exact H).
  destruct (truthy (JStr s)); [|intros H; exact H].
  destruct (startsWith s (str "data:image")); [intros H; exact H|].
  destruct (startsWith s (str "http")); simpl; [intros H; exact H|].
  intros H. apply lookup_delete_Some in H as [_ H]. exact H.
Qed.

Lemma userDataToSend_directory (u : gmap jsstring json) :
  UserService.userDataToSend parse u !! str "directory"
  = match UserService.reduceDirectory (UserService.copyOf u) !! str "directory" with
    | Some v => if isEmptyField v then None else Some v
    | None => None
    end.
Proof.
  unfold UserService.userDataToSend.
  rewrite removeEmptyFields_lookup.
  rewrite checkPicture_other by keyne.
  rewrite parseMetadata_other by keyne.
  reflexivity.
Qed.

Lemma userDataToSend_metadata (u : gmap jsstring json) (s : jsstring) :
  u !! str "metadata" = Some (JStr s) ->
  UserService.userDataToSend parse u !! str "metadata"
  = match s with
    | [] => None
    | _ :: _ =>
        match parse s with
        | Some v => if isEmptyField v then None else Some v
        | None => None
        end
    end.
Proof.
  intros Hu. unfold UserService.userDataToSend.
  rewrite removeEmptyFields_lookup.
  rewrite checkPicture_other by keyne.
  rewrite (parseMetadata_string _ s)
    by (rewrite reduceDirectory_other by keyne;
        apply copyOf_lookup_string; exact Hu).
  destruct s; reflexivity.
Qed.

Lemma userDataToSend_picture (u : gmap jsstring json) (s : jsstring) :
  u !! str "picture" = Some (JStr s) ->
  UserService.userDataToSend parse u !! str "picture"
  = if startsWith s (str "data:image") || startsWith s (str "http")
    then Some (JStr s) else None.
Proof.
  intros Hu. unfold UserService.userDataToSend.
  rewrite removeEmptyFields_lookup.
  rewrite (checkPicture_string _ s)
    by (rewrite parseMetadata_other by keyne;
        rewrite reduceDirectory_other by keyne;
        apply copyOf_lookup_string; exact Hu).
  destruct s as [|c s]; [reflexivity|]. cbn [nonEmpty andb].
  destruct (startsWith (c :: s) (str "data:image")); [reflexivity|].
  destruct (startsWith (c :: s) (str "http")); reflexivity.
Qed.

Lemma createUser_sends (u : gmap jsstring json) :
  UserService.createUser parse u
  = inr (mkRequest POST ENDPOINTS.USERS.BASE
           (Some (JObj (UserService.userDataToSend parse u)))).
Proof. reflexivity. Qed.

Lemma createUser_transmits (u : gmap jsstring json) :
  createUserSends parse u (wire <$> UserService.userDataToSend parse u).
Proof.
  exists (mkRequest POST ENDPOINTS.USERS.BASE
            (Some (JObj (UserService.userDataToSend parse u)))).
  split; [apply createUser_sends|]. repeat split.
Qed.

End CreatePayload.

(** ** The directory field on write *)

(** C1, as the code has it: [createUser] sends a structured directory
    reduced to its name, when that name is a non-empty string;
    [updateUser] and [patchUser] send the user data with a structured
    directory as it is, and send a non-empty string directory wrapped in
    an object that holds it as [name]. *)
Theorem directory_on_write :
  (forall (parse : jsstring -> option json) (u o : gmap jsstring json)
          (n : jsstring),
      u !! str "directory" = Some (JObj o) ->
      o !! str "name" = Some (JStr n) -> n <> [] ->
      exists data : gmap jsstring json,
        UserService.createUser parse u
        = inr (mkRequest POST ENDPOINTS.USERS.BASE (Some (JObj data)))
        /\ data !! str "directory" = Some (JStr n))
  /\ (forall (userId : jsstring) (u o : gmap jsstring json),
      u !! str "directory" = Some (JObj o) ->
      UserService.updateUser userId u
      = mkRequest PUT (ENDPOINTS.USERS.BY_ID userId) (Some (JObj u))
      /\ UserService.patchUser userId u
         = mkRequest PATCH (ENDPOINTS.USERS.BY_ID userId) (Some (JObj u)))
  /\ (forall (userId : jsstring) (u : gmap jsstring json) (s : jsstring),
      u !! str "directory" = Some (JStr s) -> s <> [] ->
      req_body (UserService.updateUser userId u)
      = Some (JObj (<[str "directory" := JObj {[ str "name" := JStr s ]}]> u))
      /\ req_body (UserService.patchUser userId u)
         = Some (JObj (<[str "directory" := JObj {[ str "name" := JStr s ]}]> u))).
Proof.
  split; [|split].
  - intros parse u o n Hu Ho Hn.
    exists (UserService.userDataToSend parse u). split.
    + apply createUser_sends.
    + rewrite userDataToSend_directory.
      rewrite (reduceDirectory_object _ _ (copyOf_lookup_object u o _ Hu)).
      rewrite lookup_fmap, Ho.
      destruct n; [congruence | reflexivity].
  - intros userId u o Hu.
    unfold UserService.updateUser, UserService.patchUser,
      UserService.wrapDirectory.
    rewrite Hu. split; reflexivity.
  - intros userId u s Hu Hs.
    unfold UserService.updateUser, UserService.patchUser,
      UserService.wrapDirectory.
    rewrite Hu. destruct s; [congruence|]. split; reflexivity.
Qed.

Lemma directory_on_write_witness :
  exists data : gmap jsstring json,
    UserService.createUser jsonParse
      {[ str "directory" :=
           JObj {[ str "id" := JInt 1; str "name" := JStr (str "eng") ]} ]}
    = inr (mkRequest POST ENDPOINTS.USERS.BASE (Some (JObj data)))
    /\ data !! str "directory" = Some (JStr (str "eng")).
Proof.
  apply (proj1 directory_on_write jsonParse
           {[ str "directory" :=
                JObj {[ str "id" := JInt 1; str "name" := JStr (str "eng") ]} ]}
           {[ str "id" := JInt 1; str "name" := JStr (str "eng") ]}
           (str "eng")).
  - vm_compute. reflexivity.
  - vm_compute. reflexivity.
  - discriminate.
Defined.

(** C1, counterexample: [updateUser] and [patchUser], given the
    structured directory [{id: 1, name: "eng"}], send that object and
    not the string ["eng"]. *)
Lemma update_sends_structured_directory :
  req_body
    (UserService.updateUser (str "u1")
       {[ str "directory" :=
            JObj {[ str "id" := JInt 1; str "name" := JStr (str "eng") ]} ]})
  = Some (JObj {[ str "directory" :=
            JObj {[ str "id" := JInt 1; str "name" := JStr (str "eng") ]} ]})
  /\ req_body
    (UserService.patchUser (str "u1")
       {[ str "directory" :=
            JObj {[ str "id" := JInt 1; str "name" := JStr (str "eng") ]} ]})
  = Some (JObj {[ str "directory" :=
            JObj {[ str "id" := JInt 1; str "name" := JStr (str "eng") ]} ]}).
Proof. split; vm_compute; reflexivity. Qed.

Example createUser_directory_reduced :
  UserService.userDataToSend jsonParse
    {[ str "directory" :=
         JObj {[ str "id" := JInt 1; str "name" := JStr (str "eng") ]} ]}
  = {[ str "directory" := JStr (str "eng") ]}.
Proof. vm_compute. reflexivity. Qed.

(** ** The picture field of [createUser] *)

(** C5: [createUser] makes its request, and in the payload it transmits
    a string [picture] that begins with [data:image] or with [http] is
    sent unchanged, and any other string [picture] is not sent.  For the
    three sample inputs the payload transmitted is the empty object for
    [ftp://x], and the input itself for the two others. *)
Theorem createUser_picture_prefix :
  (forall (parse : jsstring -> option json) (u : gmap jsstring json)
          (s : jsstring),
      u !! str "picture" = Some (JStr s) ->
      exists sent : gmap jsstring json,
        createUserSends parse u sent
        /\ sent !! str "picture"
           = if startsWith s (str "data:image") || startsWith s (str "http")
             then Some (JStr s) else None)
  /\ createUserSends jsonParse {[ str "picture" := JStr (str "ftp://x") ]} ∅
  /\ createUserSends jsonParse
       {[ str "picture" := JStr (str "https://x.png") ]}
       {[ str "picture" := JStr (str "https://x.png") ]}
  /\ createUserSends jsonParse
       {[ str "picture" := JStr (str "data:image/png;base64,AAA") ]}
       {[ str "picture" := JStr (str "data:image/png;base64,AAA") ]}.
Proof.
  split.
  - intros parse u s Hu.
    exists (wire <$> UserService.userDataToSend parse u).
    split; [apply createUser_transmits|].
    rewrite lookup_fmap, (userDataToSend_picture parse u s Hu).
    destruct (startsWith s (str "data:image") || startsWith s (str "http"));
      reflexivity.
  - split; [|split].
    + exists (mkRequest POST ENDPOINTS.USERS.BASE (Some (JObj ∅))).
      split; [vm_compute; reflexivity | repeat split].
    + exists (mkRequest POST ENDPOINTS.USERS.BASE
                (Some (JObj {[ str "picture" := JStr (str "https://x.png") ]}))).
      split; [vm_compute; reflexivity | repeat split].
    + exists (mkRequest POST ENDPOINTS.USERS.BASE
                (Some (JObj {[ str "picture" :=
                                 JStr (str "data:image/png;base64,AAA") ]}))).
      split; [vm_compute; reflexivity | repeat split].
Qed.

Lemma createUser_picture_prefix_witness :
  exists sent : gmap jsstring json,
    createUserSends jsonParse
      {[ str "uid" := JStr (str "a1"); str "picture" := JStr (str "ftp://x") ]}
      sent
    /\ sent !! str "picture" = None.
Proof.
  apply (proj1 createUser_picture_prefix jsonParse
           {[ str "uid" := JStr (str "a1");
              str "picture" := JStr (str "ftp://x") ]}
           (str "ftp://x")).
  vm_compute. reflexivity.
Defined.

(** ** What [handleSubmit] puts in [cleanedData] *)

Lemma addTrimmed_lookup_ne (k k' : jsstring) (v : option jsstring)
  (d : gmap jsstring json) :
  k' <> k -> addTrimmed k v d !! k' = d !! k'.
Proof.
  intros Hk. unfold addTrimmed. destruct v as [s|]; [|reflexivity].
  destruct (nonEmpty s && nonEmpty (trim s)); [|reflexivity].
  apply lookup_insert_ne. congruence.
Qed.

Lemma nonEmpty_trim (s : jsstring) :
  nonEmpty s && nonEmpty (trim s) = nonEmpty (trim s).
Proof. destruct s; reflexivity. Qed.

Lemma addTrimmed_lookup_eq (k : jsstring) (v : option jsstring)
  (d : gmap jsstring json) :
  d !! k = None ->
  addTrimmed k v d !! k
  = match v with
    | Some s => if nonEmpty (trim s) then Some (JStr (trim s)) else None
    | None => None
    end.
Proof.
  intros Hd. unfold addTrimmed. destruct v as [s|]; [|exact Hd].
  rewrite nonEmpty_trim. destruct (nonEmpty (trim s)); [|exact Hd].
  apply lookup_insert_eq.
Qed.

Lemma addTags_lookup_ne (k : jsstring) (v : option (list jsstring))
  (d : gmap jsstring json) :
  k <> str "tags" -> addTags v d !! k = d !! k.
Proof.
  intros Hk. unfold addTags. destruct v as [l|]; [|reflexivity].
  destruct (0 <? length l)%nat; [|reflexivity].
  apply lookup_insert_ne. congruence.
Qed.

Lemma addMetadata_lookup_ne (k : jsstring) (v : option (gmap jsstring json))
  (d : gmap jsstring json) :
  k <> str "metadata" -> addMetadata v d !! k = d !! k.
Proof.
  intros Hk. unfold addMetadata. destruct v as [m|]; [|reflexivity].
  destruct (0 <? size m)%nat; [|reflexivity].
  apply lookup_insert_ne. congruence.
Qed.

Lemma addMetadata_lookup_eq (v : option (gmap jsstring json))
  (d : gmap jsstring json) :
  d !! str "metadata" = None ->
  addMetadata v d !! str "metadata"
  = match v with
    | Some m => if (0 <? size m)%nat then Some (JObj m) else None
    | None => None
    end.
Proof.
  intros Hd. unfold addMetadata. destruct v as [m|]; [|exact Hd].
  destruct (0 <? size m)%nat; [|exact Hd].
  apply lookup_insert_eq.
Qed.

Lemma cleanedData_unfold (f : UserFormData) :
  cleanedData f
  = addMetadata (metadata f)
      (addTags (tags f)
         (addTrimmed (str "picture") (picture f)
            (addTrimmed (str "directory") (directory f)
               (addTrimmed (str "comment") (comment f)
                  (addTrimmed (str "phone_number") (phone_number f)
                     (addTrimmed (str "email") (email f)
                        (addTrimmed (str "nickname") (nickname f)
                           (addTrimmed (str "family_name") (family_name f)
                              (addTrimmed (str "middle_name") (middle_name f)
                                 (addTrimmed (str "given_name") (given_name f)
                                    (addTrimmed (str "name") (name f)
                                       {[ str "uid" := JStr (trim (uid f)) ]}))))))))))).
Proof. reflexivity. Qed.

(** Look a literal key up in [cleanedData f]: skip the steps that write
    other keys. *)
Ltac cleaned_skip :=
  rewrite ?addMetadata_lookup_ne by keyne;
  rewrite ?addTags_lookup_ne by keyne;
  rewrite ?addTrimmed_lookup_ne by keyne.

Lemma cleanedData_metadata (f : UserFormData) :
  cleanedData f !! str "metadata"
  = match metadata f with
    | Some m => if (0 <? size m)%nat then Some (JObj m) else None
    | None => None
    end.
Proof.
  rewrite cleanedData_unfold. apply addMetadata_lookup_eq.
  cleaned_skip. apply lookup_singleton_ne. keyne.
Qed.

Lemma cleanedData_directory (f : UserFormData) :
  cleanedData f !! str "directory"
  = match directory f with
    | Some s => if nonEmpty (trim s) then Some (JStr (trim s)) else None
    | None => None
    end.
Proof.
  rewrite cleanedData_unfold. cleaned_skip. apply addTrimmed_lookup_eq.
  cleaned_skip. apply lookup_singleton_ne. keyne.
Qed.

Lemma cleanedData_picture (f : UserFormData) :
  cleanedData f !! str "picture"
  = match picture f with
    | Some s => if nonEmpty (trim s) then Some (JStr (trim s)) else None
    | None => None
    end.
Proof.
  rewrite cleanedData_unfold. cleaned_skip. apply addTrimmed_lookup_eq.
  cleaned_skip. apply lookup_singleton_ne. keyne.
Qed.

(** ** The metadata field *)

(** C6, as the code has it: when [metadata] reaches [createUser] as a
    non-empty string that [JSON.parse] accepts, the payload transmitted
    carries under [metadata] the parsed value as [JSON.stringify] writes
    it, unless the parsed value is [null] or the empty string; an object
    without keys is sent like any other, and a number that is read as an
    infinity, such as [1e400], is sent as [null].  When [JSON.parse]
    throws, when the string is empty and when the parsed value is [null]
    or the empty string, no [metadata] key is sent and the request is made
    all the same.  The check for at least one key is made by
    [handleSubmit] on the metadata of the form. *)
Theorem createUser_metadata_string :
  (forall (parse : jsstring -> option json) (u : gmap jsstring json)
          (s : jsstring) (v : json),
      u !! str "metadata" = Some (JStr s) -> s <> [] ->
      parse s = Some v -> isEmptyField v = false ->
      exists sent : gmap jsstring json,
        createUserSends parse u sent
        /\ sent !! str "metadata" = Some (wire v))
  /\ (forall (parse : jsstring -> option json) (u : gmap jsstring json)
          (s : jsstring),
      u !! str "metadata" = Some (JStr s) ->
      s = [] \/ parse s = None
      \/ (exists v : json, parse s = Some v /\ isEmptyField v = true) ->
      exists sent : gmap jsstring json,
        createUserSends parse u sent
        /\ sent !! str "metadata" = None)
  /\ (forall f : UserFormData,
      cleanedData f !! str "metadata"
      = match metadata f with
        | Some m => if (0 <? size m)%nat then Some (JObj m) else None
        | None => None
        end)
  /\ createUserSends jsonParse
       {[ str "uid" := JStr (str "a1");
          str "metadata" := JStr (str "{" ++ dq ++ str "a" ++ dq ++ str ":1}") ]}
       {[ str "uid" := JStr (str "a1");
          str "metadata" := JObj {[ str "a" := JInt 1 ]} ]}
  /\ (jsonParse (str "1e400") = Some (JNum (S754_infinity false))
      /\ createUserSends jsonParse
           {[ str "uid" := JStr (str "a1"); str "metadata" := JStr (str "1e400") ]}
           {[ str "uid" := JStr (str "a1"); str "metadata" := JNull ]}).
Proof.
  split; [|split; [|split; [|split; [|split]]]].
  - intros parse u s v Hu Hs Hp Hv.
    exists (wire <$> UserService.userDataToSend parse u).
    split; [apply createUser_transmits|].
    rewrite lookup_fmap, (userDataToSend_metadata parse u s Hu).
    destruct s; [congruence|]. rewrite Hp, Hv. reflexivity.
  - intros parse u s Hu Hs.
    exists (wire <$> UserService.userDataToSend parse u).
    split; [apply createUser_transmits|].
    rewrite lookup_fmap, (userDataToSend_metadata parse u s Hu).
    destruct s as [|c s]; [reflexivity|].
    destruct Hs as [Hs | [Hs | [v [Hp Hv]]]]; [discriminate| |].
    + rewrite Hs. reflexivity.
    + rewrite Hp, Hv. reflexivity.
  - exact cleanedData_metadata.
  - exists (mkRequest POST ENDPOINTS.USERS.BASE
              (Some (JObj {[ str "uid" := JStr (str "a1");
                             str "metadata" := JObj {[ str "a" := JInt 1 ]} ]}))).
    split; [vm_compute; reflexivity|].
    split; [reflexivity|]. split; [reflexivity|]. vm_compute. reflexivity.
  - vm_compute. reflexivity.
  - exists (mkRequest POST ENDPOINTS.USERS.BASE
              (Some (JObj {[ str "uid" := JStr (str "a1");
                             str "metadata" := JNum (S754_infinity false) ]}))).
    split; [vm_compute; reflexivity|].
    split; [reflexivity|]. split; [reflexivity|]. vm_compute. reflexivity.
Qed.

Lemma createUser_metadata_string_witness :
  exists sent : gmap jsstring json,
    createUserSends jsonParse
      {[ str "metadata" := JStr (str "{" ++ dq ++ str "a" ++ dq ++ str ":1}") ]}
      sent
    /\ sent !! str "metadata" = Some (wire (JObj {[ str "a" := JInt 1 ]})).
Proof.
  apply (proj1 createUser_metadata_string jsonParse
           {[ str "metadata" :=
                JStr (str "{" ++ dq ++ str "a" ++ dq ++ str ":1}") ]}
           (str "{" ++ dq ++ str "a" ++ dq ++ str ":1}")
           (JObj {[ str "a" := JInt 1 ]})).
  - vm_compute. reflexivity.
  - discriminate.
  - vm_compute. reflexivity.
  - reflexivity.
Defined.

(** C6, counterexample: the string [{}] parses to an object without
    keys, and [createUser] sends it under [metadata]; the string [null]
    parses, and no [metadata] key is sent. *)
Lemma createUser_sends_empty_metadata :
  (jsonParse (str "{}") = Some (JObj ∅)
   /\ UserService.createUser jsonParse
        {[ str "uid" := JStr (str "a1"); str "metadata" := JStr (str "{}") ]}
      = inr (mkRequest POST ENDPOINTS.USERS.BASE
               (Some (JObj {[ str "uid" := JStr (str "a1");
                              str "metadata" := JObj ∅ ]})))
   /\ sentBody (mkRequest POST ENDPOINTS.USERS.BASE
                  (Some (JObj {[ str "uid" := JStr (str "a1");
                                 str "metadata" := JObj ∅ ]})))
      = Some (JObj {[ str "uid" := JStr (str "a1"); str "metadata" := JObj ∅ ]}))
  /\ (jsonParse (str "null") = Some JNull
   /\ UserService.createUser jsonParse
        {[ str "uid" := JStr (str "a1"); str "metadata" := JStr (str "null") ]}
      = inr (mkRequest POST ENDPOINTS.USERS.BASE
               (Some (JObj {[ str "uid" := JStr (str "a1") ]})))
   /\ sentBody (mkRequest POST ENDPOINTS.USERS.BASE
                  (Some (JObj {[ str "uid" := JStr (str "a1") ]})))
      = Some (JObj {[ str "uid" := JStr (str "a1") ]})).
Proof. repeat split; vm_compute; reflexivity. Qed.

Example createUser_metadata_unparseable :
  UserService.userDataToSend jsonParse
    {[ str "metadata" := JStr (str "not json") ]} = ∅.
Proof. vm_compute. reflexivity. Qed.

(** ** The payload sent for a form *)

Lemma trimmedStrings_insert_str (k s : jsstring) (d : gmap jsstring json) :
  trim s = s -> trimmedStrings d -> trimmedStrings (<[k := JStr s]> d).
Proof.
  intros Hs Hd k' s' H. apply lookup_insert_Some in H as [[_ H] | [_ H]].
  - injection H as <-. exact Hs.
  - exact (Hd k' s' H).
Qed.

Lemma trimmedStrings_insert_other (k : jsstring) (v : json)
  (d : gmap jsstring json) :
  isString v = false -> trimmedStrings d -> trimmedStrings (<[k := v]> d).
Proof.
  intros Hv Hd k' s' H. apply lookup_insert_Some in H as [[_ H] | [_ H]].
  - subst v. discriminate.
  - exact (Hd k' s' H).
Qed.

Lemma addTrimmed_trimmed (k : jsstring) (v : option jsstring)
  (d : gmap jsstring json) :
  trimmedStrings d -> trimmedStrings (addTrimmed k v d).
Proof.
  intros Hd. unfold addTrimmed. destruct v as [s|]; [|exact Hd].
  destruct (nonEmpty s && nonEmpty (trim s)); [|exact Hd].
  apply trimmedStrings_insert_str; [apply trim_idempotent | exact Hd].
Qed.

Lemma addTags_trimmed (v : option (list jsstring)) (d : gmap jsstring json) :
  trimmedStrings d -> trimmedStrings (addTags v d).
Proof.
  intros Hd. unfold addTags. destruct v as [l|]; [|exact Hd].
  destruct (0 <? length l)%nat; [|exact Hd].
  apply trimmedStrings_insert_other; [reflexivity | exact Hd].
Qed.

Lemma addMetadata_trimmed (v : option (gmap jsstring json))
  (d : gmap jsstring json) :
  trimmedStrings d -> trimmedStrings (addMetadata v d).
Proof.
  intros Hd. unfold addMetadata. destruct v as [m|]; [|exact Hd].
  destruct (0 <? size m)%nat; [|exact Hd].
  apply trimmedStrings_insert_other; [reflexivity | exact Hd].
Qed.

Lemma cleanedData_trimmed (f : UserFormData) : trimmedStrings (cleanedData f).
Proof.
  rewrite cleanedData_unfold.
  apply addMetadata_trimmed, addTags_trimmed.
  repeat apply addTrimmed_trimmed.
  intros k s Hk. apply lookup_singleton_Some in Hk as [_ Hk].
  injection Hk as <-. apply trim_idempotent.
Qed.

(** [createUser] changes neither the directory nor the metadata of its
    copy of what [handleSubmit] gives it: the first is a string, the
    second an object. *)
Lemma userDataToSend_cleanedData (parse : jsstring -> option json)
  (f : UserFormData) :
  UserService.userDataToSend parse (cleanedData f)
  = removeEmptyFields
      (UserService.checkPicture (UserService.copyOf (cleanedData f))).
Proof.
  unfold UserService.userDataToSend.
  rewrite (reduceDirectory_string (UserService.copyOf (cleanedData f))).
  - rewrite (parseMetadata_not_string parse (UserService.copyOf (cleanedData f)));
      [reflexivity|].
    intros v. rewrite copyOf_lookup, cleanedData_metadata.
    destruct (metadata f) as [m|]; [|discriminate].
    destruct (0 <? size m)%nat; [|discriminate].
    intros [= <-]. reflexivity.
  - intros v. rewrite copyOf_lookup, cleanedData_directory.
    destruct (directory f) as [s|]; [|discriminate].
    destruct (nonEmpty (trim s)); [|discriminate].
    intros [= <-]. reflexivity.
Qed.

(** A string found in the copy is a string of the data. *)
Lemma copyOf_lookup_string_inv (u : gmap jsstring json) (k s : jsstring) :
  UserService.copyOf u !! k = Some (JStr s) -> u !! k = Some (JStr s).
Proof.
  rewrite copyOf_lookup. destruct (u !! k) as [v|]; [|discriminate].
  intros [= H]. apply wire_JStr_inv in H. rewrite H. reflexivity.
Qed.

Lemma payload_of_trimmed_field (parse : jsstring -> option json)
  (f : UserFormData) (k : jsstring) (o : option jsstring) :
  k <> str "picture" ->
  cleanedData f !! k
  = match o with
    | Some s => if nonEmpty (trim s) then Some (JStr (trim s)) else None
    | None => None
    end ->
  UserService.userDataToSend parse (cleanedData f) !! k
  = match o with
    | Some s => if nonEmpty (trim s) then Some (JStr (trim s)) else None
    | None => None
    end.
Proof.
  intros Hk Hc.
  rewrite userDataToSend_cleanedData, removeEmptyFields_lookup.
  rewrite checkPicture_other by exact Hk. rewrite copyOf_lookup, Hc.
  destruct o as [s|]; [|reflexivity].
  destruct (trim s); reflexivity.
Qed.

Ltac cleaned_field :=
  rewrite cleanedData_unfold; cleaned_skip;
  apply addTrimmed_lookup_eq; cleaned_skip;
  apply lookup_singleton_ne; keyne.

Lemma validateForm_passed_uid (f : UserFormData) :
  validateForm f = None -> trim (uid f) <> [].
Proof.
  unfold validateForm.
  destruct (negb (nonEmpty (uid f)) || negb (nonEmpty (trim (uid f)))) eqn:G;
    [discriminate|].
  intros _. apply uid_guard_false_iff. exact G.
Qed.

Lemma handleSubmit_valid (parse : jsstring -> option json) (st : State) :
  validateForm (formData st) = None ->
  handleSubmit parse st
  = (setIsLoading true (setError None st),
     Some (mkRequest POST ENDPOINTS.USERS.BASE
             (Some (JObj (UserService.userDataToSend parse
                            (cleanedData (formData st))))))).
Proof.
  intros H. unfold handleSubmit.
  change (formData (setError None st)) with (formData st).
  rewrite H. reflexivity.
Qed.

(** C4: in the payload sent for a form, the cleaning of [handleSubmit]
    followed by [createUser], every string value is equal to its trimmed
    form and is not empty, and no value is [null]; each free-text field
    is sent trimmed when something is left after trimming, and its key is
    absent otherwise.  A form that passes validation is sent with this
    payload and its trimmed [uid]. *)
Theorem submitted_payload_has_no_blank_field
  (parse : jsstring -> option json) (f : UserFormData) :
  (forall (k s : jsstring),
      UserService.userDataToSend parse (cleanedData f) !! k = Some (JStr s) ->
      trim s = s /\ trim s <> [])
  /\ (forall k : jsstring,
      UserService.userDataToSend parse (cleanedData f) !! k <> Some JNull)
  /\ Forall
       (fun kf : jsstring * (UserFormData -> option jsstring) =>
          UserService.userDataToSend parse (cleanedData f) !! kf.1
          = match kf.2 f with
            | Some s => if nonEmpty (trim s) then Some (JStr (trim s)) else None
            | None => None
            end)
       (freeTextFields ++ [(str "directory", directory)])
  /\ (validateForm f = None ->
      UserService.userDataToSend parse (cleanedData f) !! str "uid"
      = Some (JStr (trim (uid f)))
      /\ forall st : State, formData st = f ->
           handleSubmit parse st
           = (setIsLoading true (setError None st),
              Some (mkRequest POST ENDPOINTS.USERS.BASE
                      (Some (JObj (UserService.userDataToSend parse
                                     (cleanedData f))))))).
Proof.
  split; [|split; [|split]].
  - intros k s H.
    rewrite userDataToSend_cleanedData, removeEmptyFields_lookup in H.
    destruct (UserService.checkPicture (UserService.copyOf (cleanedData f)) !! k)
      as [v|] eqn:Hv; [|discriminate].
    destruct (isEmptyField v) eqn:He; [discriminate|].
    injection H as ->.
    apply checkPicture_lookup_Some, copyOf_lookup_string_inv in Hv.
    apply cleanedData_trimmed in Hv. rewrite Hv. split; [reflexivity|].
    destruct s; [discriminate | discriminate].
  - intros k H.
    rewrite userDataToSend_cleanedData, removeEmptyFields_lookup in H.
    destruct (UserService.checkPicture (UserService.copyOf (cleanedData f)) !! k)
      as [v|]; [|discriminate].
    destruct (isEmptyField v) eqn:He; [discriminate|].
    injection H as ->. discriminate.
  - unfold freeTextFields. cbn [app].
    repeat (apply List.Forall_cons;
            [cbn [fst snd]; apply payload_of_trimmed_field;
             [keyne | cleaned_field] |]).
    apply List.Forall_nil.
  - intros Hv. split.
    + rewrite userDataToSend_cleanedData, removeEmptyFields_lookup.
      rewrite checkPicture_other by keyne.
      rewrite copyOf_lookup, cleanedData_unfold. cleaned_skip.
      rewrite lookup_singleton_eq.
      apply validateForm_passed_uid in Hv.
      destruct (trim (uid f)); [congruence | reflexivity].
    + intros st <-. exact (handleSubmit_valid parse st Hv).
Qed.

Lemma submitted_payload_has_no_blank_field_witness :
  UserService.userDataToSend jsonParse (cleanedData (blankForm (str "a1")))
    !! str "uid"
  = Some (JStr (trim (uid (blankForm (str "a1"))))).
Proof.
  refine (proj1 (proj2 (proj2 (proj2
            (submitted_payload_has_no_blank_field jsonParse
               (blankForm (str "a1"))))) _)).
  vm_compute. reflexivity.
Defined.

(** The form [{uid: "a1"}] passes validation and is sent as [{uid: "a1"}];
    blank fields are left out and the others are trimmed. *)
Example handleSubmit_uid_only :
  handleSubmit jsonParse (stateOf (blankForm (str "a1")))
  = (setIsLoading true (stateOf (blankForm (str "a1"))),
     Some (mkRequest POST ENDPOINTS.USERS.BASE
             (Some (JObj {[ str "uid" := JStr (str "a1") ]})))).
Proof. vm_compute. reflexivity. Qed.

Example cleanedData_trims_and_omits :
  UserService.userDataToSend jsonParse
    (cleanedData
       (mkUserFormData (str "a1") (Some (str "  Ann Lee ")) (Some (str "   "))
          (Some []) None None (Some (str "ann@x.com ")) None None
          (Some (str " ftp://x")) (Some (str " eng ")) (Some ∅) (Some [])))
  = {[ str "uid" := JStr (str "a1"); str "name" := JStr (str "Ann Lee");
       str "email" := JStr (str "ann@x.com");
       str "directory" := JStr (str "eng") ]}.
Proof. vm_compute. reflexivity. Qed.

(** ** The search filter *)

Lemma optionalIncludes_spec (lower : jsstring -> jsstring)
  (field : option jsstring) (q : jsstring) :
  HomePage.optionalIncludes lower field q = true
  <-> exists s, field = Some s /\ isSubstringOf q (lower s).
Proof.
  unfold HomePage.optionalIncludes. destruct field as [s|].
  - rewrite orb_false_r, includes_spec. split.
    + intros H. exists s. split; [reflexivity | exact H].
    + intros [s' [[= <-] H]]. exact H.
  - split; [discriminate | intros [s [H _]]; discriminate].
Qed.

Lemma matchesSearch_spec (lower : jsstring -> jsstring) (q : jsstring)
  (u : HomePage.User) :
  HomePage.matchesSearch lower q u = true <-> matchesQuery lower q u.
Proof.
  unfold HomePage.matchesSearch, matchesQuery.
  rewrite !orb_true_iff, !optionalIncludes_spec, includes_spec.
  unfold isSubstringOf. tauto.
Qed.

Lemma filter_all (A : Type) (p : A -> bool) (l : list A) :
  (forall x, p x = true) -> List.filter p l = l.
Proof.
  intros H. induction l as [|x l IH]; simpl; [reflexivity|].
  rewrite H, IH. reflexivity.
Qed.

Lemma filter_sublist (A : Type) (p : A -> bool) (l : list A) :
  sublist (List.filter p l) l.
Proof.
  induction l as [|x l IH]; simpl; [constructor|].
  destruct (p x); [apply sublist_skip | apply sublist_cons]; exact IH.
Qed.

(** C8: for any case mapping, the filter keeps, in their order, exactly
    the users that match the query in the sense of the specification, and
    a user without [name] and [email] matches on its [uid] alone.  The
    empty query keeps every user, as its lower case is the empty string.
    For a case mapping that agrees with the Basic Latin one on ASCII
    strings, the query ["john"] keeps exactly the user [john_doe] of the
    sample list. *)
Theorem filteredUsers_search :
  (forall (lower : jsstring -> jsstring) (users : list HomePage.User)
          (q : jsstring),
      sublist (HomePage.filteredUsers lower users q) users
      /\ forall u : HomePage.User,
           In u (HomePage.filteredUsers lower users q)
           <-> In u users /\ matchesQuery lower q u)
  /\ (forall (lower : jsstring -> jsstring) (q : jsstring) (u : HomePage.User),
      HomePage.name u = None -> HomePage.email u = None ->
      (HomePage.matchesSearch lower q u = true
       <-> isSubstringOf (lower q) (lower (HomePage.uid u))))
  /\ (forall (lower : jsstring -> jsstring) (users : list HomePage.User),
      lower [] = [] -> HomePage.filteredUsers lower users [] = users)
  /\ (forall lower : jsstring -> jsstring,
      (forall s : jsstring,
          forallb isAscii s = true -> lower s = toLowerCaseLatin1 s) ->
      HomePage.filteredUsers lower
        [ HomePage.mkUser (str "john_doe") None (Some (str "john@x.com")) ∅;
          HomePage.mkUser (str "jane") None None ∅ ]
        (str "john")
      = [ HomePage.mkUser (str "john_doe") None (Some (str "john@x.com")) ∅ ]).
Proof.
  split; [|split; [|split]].
  - intros lower users q. unfold HomePage.filteredUsers. split.
    + apply filter_sublist.
    + intros u. rewrite List.filter_In, matchesSearch_spec. reflexivity.
  - intros lower q u Hn He. unfold HomePage.matchesSearch.
    rewrite Hn, He. cbn [HomePage.optionalIncludes].
    rewrite !orb_false_r. apply includes_spec.
  - intros lower users Hnil. unfold HomePage.filteredUsers. apply filter_all.
    intros u. unfold HomePage.matchesSearch.
    rewrite Hnil, includes_nil. reflexivity.
  - intros lower Hascii.
    unfold HomePage.filteredUsers, HomePage.matchesSearch,
      HomePage.optionalIncludes.
    cbn [List.filter HomePage.uid HomePage.name HomePage.email].
    rewrite (Hascii (str "john")) by reflexivity.
    rewrite (Hascii (str "john_doe")) by reflexivity.
    rewrite (Hascii (str "john@x.com")) by reflexivity.
    rewrite (Hascii (str "jane")) by reflexivity.
    vm_compute. reflexivity.
Qed.

Lemma filteredUsers_search_witness :
  HomePage.filteredUsers toLowerCaseLatin1
    [ HomePage.mkUser (str "john_doe") None (Some (str "john@x.com")) ∅;
      HomePage.mkUser (str "jane") None None ∅ ]
    (str "john")
  = [ HomePage.mkUser (str "john_doe") None (Some (str "john@x.com")) ∅ ].
Proof.
  apply (proj2 (proj2 (proj2 filteredUsers_search)) toLowerCaseLatin1).
  intros s _. reflexivity.
Defined.

Example filteredUsers_ignores_case :
  HomePage.filteredUsers toLowerCaseLatin1
    [ HomePage.mkUser (str "JOHN_DOE") None None ∅;
      HomePage.mkUser (str "jane") (Some (str "Jane Johnson")) None ∅;
      HomePage.mkUser (str "bob") None None ∅ ]
    (str "John")
  = [ HomePage.mkUser (str "JOHN_DOE") None None ∅;
      HomePage.mkUser (str "jane") (Some (str "Jane Johnson")) None ∅ ].
Proof. vm_compute. reflexivity. Qed.

(** * Further properties *)

Import FormHandlers.

(** ** The tag editor *)

Lemma filter_ne_fresh (t : jsstring) (l : list jsstring) :
  t ∉ l -> filter (fun x => x <> t) l = l.
Proof.
  induction l as [|a l IH]; intros H; [reflexivity|].
  apply not_elem_of_cons in H as [Hne Hl].
  rewrite filter_cons_True by congruence. f_equal. exact (IH Hl).
Qed.

Lemma filter_ne_idempotent (t : jsstring) (l : list jsstring) :
  filter (fun x => x <> t) (filter (fun x => x <> t) l)
  = filter (fun x => x <> t) l.
Proof.
  apply filter_ne_fresh. intros H.
  apply list_elem_of_filter in H as [Hne _]. congruence.
Qed.

(** [handleRemoveTag] removes every occurrence of the tag and keeps the
    other tags in their order; removing twice is removing once, and
    removing a tag that is not there changes no tag. *)
Theorem handleRemoveTag_removes_all (t : jsstring) (st : State) :
  (t ∉ tagsOf (formData (handleRemoveTag t st)))
  /\ (forall x : jsstring,
        x ∈ tagsOf (formData (handleRemoveTag t st))
        <-> x ∈ tagsOf (formData st) /\ x <> t)
  /\ sublist (tagsOf (formData (handleRemoveTag t st))) (tagsOf (formData st))
  /\ handleRemoveTag t (handleRemoveTag t st) = handleRemoveTag t st
  /\ (t ∉ tagsOf (formData st) ->
      tagsOf (formData (handleRemoveTag t st)) = tagsOf (formData st)).
Proof.
  change (tagsOf (formData (handleRemoveTag t st)))
    with (filter (fun x => x <> t) (tagsOf (formData st))).
  split; [|split; [intros x; split|split; [|split]]].
  - intros H. apply list_elem_of_filter in H as [Hne _]. congruence.
  - intros H. apply list_elem_of_filter in H. tauto.
  - intros H. apply list_elem_of_filter. tauto.
  - apply sublist_filter; exact _.
  - unfold handleRemoveTag, setFormData, withTags. cbn.
    change (tagsOf
              (mkUserFormData (uid (formData st)) (name (formData st))
                 (given_name (formData st)) (middle_name (formData st))
                 (family_name (formData st)) (nickname (formData st))
                 (email (formData st)) (phone_number (formData st))
                 (comment (formData st)) (picture (formData st))
                 (directory (formData st)) (metadata (formData st))
                 (Some (filter (fun x => x <> t) (tagsOf (formData st))))))
      with (filter (fun x => x <> t) (tagsOf (formData st))).
    rewrite filter_ne_idempotent. reflexivity.
  - apply filter_ne_fresh.
Qed.

Lemma handleRemoveTag_removes_all_witness :
  tagsOf (formData (handleRemoveTag (str "b")
            (setFormData (withTags [str "a"; str "c"]) initialState)))
  = tagsOf (formData (setFormData (withTags [str "a"; str "c"]) initialState)).
Proof.
  apply (proj2 (proj2 (proj2 (proj2
           (handleRemoveTag_removes_all (str "b")
              (setFormData (withTags [str "a"; str "c"]) initialState)))))).
  vm_compute. intros H.
  apply elem_of_cons in H as [H | H]; [discriminate|].
  apply elem_of_cons in H as [H | H]; [discriminate|].
  apply elem_of_nil in H. exact H.
Defined.

(** [handleAddTag] ignores a draft that is blank after trimming.  Any
    other draft is appended at the end as it was typed, whether or not
    the tag is already there, and the draft is cleared.  Removing the tag
    just added gives back the former tags when it was new; otherwise it
    also removes the occurrences that were there before. *)
Theorem handleAddTag_then_remove (st : State) :
  (trim (tag st) = [] -> handleAddTag st = st)
  /\ (trim (tag st) <> [] ->
      tagsOf (formData (handleAddTag st)) = tagsOf (formData st) ++ [tag st]
      /\ tag (handleAddTag st) = []
      /\ tagsOf (formData (handleRemoveTag (tag st) (handleAddTag st)))
         = filter (fun x => x <> tag st) (tagsOf (formData st))
      /\ (tag st ∉ tagsOf (formData st) ->
          tagsOf (formData (handleRemoveTag (tag st) (handleAddTag st)))
          = tagsOf (formData st))).
Proof.
  unfold handleAddTag. split.
  - intros H. rewrite H. reflexivity.
  - intros H. apply nonEmpty_true_iff in H. rewrite H. cbn [negb].
    assert (Hr : tagsOf (formData (handleRemoveTag (tag st)
                   (setTag []
                      (setFormData
                         (fun prev => withTags (tagsOf prev ++ [tag st]) prev) st))))
                 = filter (fun x => x <> tag st) (tagsOf (formData st))).
    { change (filter (fun x => x <> tag st) (tagsOf (formData st) ++ [tag st])
              = filter (fun x => x <> tag st) (tagsOf (formData st))).
      rewrite filter_app, filter_cons_False by (intros Hn; apply Hn; reflexivity).
      rewrite filter_nil, app_nil_r. reflexivity. }
    repeat split.
    + exact Hr.
    + intros Hf. rewrite Hr. apply filter_ne_fresh. exact Hf.
Qed.

Lemma handleAddTag_then_remove_witness :
  tagsOf (formData (handleAddTag (setTag (str " vip ") initialState)))
  = tagsOf (formData (setTag (str " vip ") initialState)) ++ [str " vip "].
Proof.
  refine (proj1 (proj2 (handleAddTag_then_remove
                          (setTag (str " vip ") initialState)) _)).
  vm_compute. discriminate.
Defined.

(** ** The metadata editor *)

(** [handleAddMetadata] ignores a key that is blank after trimming.
    Otherwise the key, as typed, is bound to the value as a string,
    replacing any earlier value; the other entries are as before and both
    drafts are cleared.  Removing a key that was just added as a new key
    gives back the former metadata. *)
Theorem handleAddMetadata_then_remove (st : State) :
  (trim (metadataKey st) = [] -> handleAddMetadata st = st)
  /\ (trim (metadataKey st) <> [] ->
      metadataOf (formData (handleAddMetadata st)) !! metadataKey st
      = Some (JStr (metadataValue st))
      /\ (forall k : jsstring,
            k <> metadataKey st ->
            metadataOf (formData (handleAddMetadata st)) !! k
            = metadataOf (formData st) !! k)
      /\ metadataKey (handleAddMetadata st) = []
      /\ metadataValue (handleAddMetadata st) = []
      /\ (metadataOf (formData st) !! metadataKey st = None ->
          metadataOf (formData (handleRemoveMetadata (metadataKey st)
                                  (handleAddMetadata st)))
          = metadataOf (formData st))).
Proof.
  unfold handleAddMetadata. split.
  - intros H. rewrite H. reflexivity.
  - intros H. apply nonEmpty_true_iff in H. rewrite H. cbn [negb].
    repeat split.
    + apply lookup_insert_eq.
    + intros k Hk. apply lookup_insert_ne. congruence.
    + intros Hf.
      change (delete (metadataKey st)
                (<[metadataKey st := JStr (metadataValue st)]>
                   (metadataOf (formData st)))
              = metadataOf (formData st)).
      apply delete_insert_id. exact Hf.
Qed.

Lemma handleAddMetadata_then_remove_witness :
  metadataOf (formData (handleAddMetadata
     (setMetadataValue (str "blue") (setMetadataKey (str "team") initialState))))
    !! str "team"
  = Some (JStr (str "blue")).
Proof.
  refine (proj1 (proj2 (handleAddMetadata_then_remove
     (setMetadataValue (str "blue") (setMetadataKey (str "team") initialState))) _)).
  vm_compute. discriminate.
Defined.

(** [handleRemoveMetadata] removes the key and nothing else; on a key
    that is not bound it changes no entry. *)
Theorem handleRemoveMetadata_removes (key : jsstring) (st : State) :
  metadataOf (formData (handleRemoveMetadata key st)) !! key = None
  /\ (forall k : jsstring,
        k <> key ->
        metadataOf (formData (handleRemoveMetadata key st)) !! k
        = metadataOf (formData st) !! k)
  /\ (metadataOf (formData st) !! key = None ->
      metadataOf (formData (handleRemoveMetadata key st))
      = metadataOf (formData st)).
Proof.
  change (metadataOf (formData (handleRemoveMetadata key st)))
    with (delete key (metadataOf (formData st))).
  repeat split.
  - apply lookup_delete_eq.
  - intros k Hk. apply lookup_delete_ne. congruence.
  - apply delete_id.
Qed.

Lemma handleRemoveMetadata_removes_witness :
  metadataOf (formData (handleRemoveMetadata (str "team") initialState))
  = metadataOf (formData initialState).
Proof.
  apply (proj2 (proj2 (handleRemoveMetadata_removes (str "team") initialState))).
  vm_compute. reflexivity.
Defined.

(** ** An invariant of the form under every sequence of events *)

Lemma setField_tagsOf (n : InputName) (v : jsstring) (f : UserFormData) :
  tagsOf (setField n v f) = tagsOf f.
Proof. destruct n; reflexivity. Qed.

Lemma setField_metadataOf (n : InputName) (v : jsstring) (f : UserFormData) :
  metadataOf (setField n v f) = metadataOf f.
Proof. destruct n; reflexivity. Qed.

Lemma handleSubmit_formData (parse : jsstring -> option json) (st : State) :
  formData (fst (handleSubmit parse st)) = formData st.
Proof.
  unfold handleSubmit.
  change (formData (setError None st)) with (formData st).
  destruct (validateForm (formData st)); reflexivity.
Qed.

Lemma handleImageUpload_formData (st : State) (file : option File) :
  formData (fst (handleImageUpload st file)) = formData st.
Proof.
  unfold handleImageUpload. destruct file as [f|]; [|reflexivity].
  destruct (negb (includes (file_type f) (str "image"))); [reflexivity|].
  destruct (5 * 1024 * 1024 <? file_size f)%N; reflexivity.
Qed.

Lemma draftsWellFormed_initial : draftsWellFormed initialFormState.
Proof.
  split; [constructor|]. intros k v H.
  unfold metadataOf, initialFormState in H. cbn in H.
  rewrite lookup_empty in H. discriminate.
Qed.

Lemma step_draftsWellFormed (parse : jsstring -> option json) (st : State)
  (e : Event) :
  draftsWellFormed (formData st) -> draftsWellFormed (formData (step parse st e)).
Proof.
  intros [Ht Hm]. destruct e as [n v|v|v|v| |k| |t|file|s| | | |r];
    cbn [step].
  - unfold draftsWellFormed, handleInputChange.
    change (formData (setFormData (setField n v) st))
      with (setField n v (formData st)).
    rewrite setField_tagsOf, setField_metadataOf. split; assumption.
  - split; assumption.
  - split; assumption.
  - split; assumption.
  - unfold handleAddMetadata.
    destruct (nonEmpty (trim (metadataKey st))) eqn:Hk; cbn [negb];
      [|split; assumption].
    split; [exact Ht|]. intros k v H.
    change (<[metadataKey st := JStr (metadataValue st)]>
              (metadataOf (formData st)) !! k = Some v) in H.
    apply lookup_insert_Some in H as [[<- <-] | [_ H]].
    + split; [apply nonEmpty_true_iff; exact Hk | reflexivity].
    + exact (Hm k v H).
  - split; [exact Ht|]. intros k' v H.
    change (delete k (metadataOf (formData st)) !! k' = Some v) in H.
    apply lookup_delete_Some in H as [_ H]. exact (Hm k' v H).
  - unfold handleAddTag.
    destruct (nonEmpty (trim (tag st))) eqn:Hk; cbn [negb];
      [|split; assumption].
    split; [|exact Hm].
    change (Forall nonBlank (tagsOf (formData st) ++ [tag st])).
    apply Forall_app. split; [exact Ht|].
    constructor; [|constructor]. apply nonEmpty_true_iff. exact Hk.
  - split; [|exact Hm].
    change (Forall nonBlank (filter (fun x => x <> t) (tagsOf (formData st)))).
    apply Forall_forall. intros x Hx.
    apply list_elem_of_filter in Hx as [_ Hx].
    rewrite Forall_forall in Ht. exact (Ht x Hx).
  - rewrite handleImageUpload_formData. split; assumption.
  - split; assumption.
  - split; assumption.
  - split; assumption.
  - rewrite handleSubmit_formData. split; assumption.
  - unfold handleSubmitResponse.
    destruct (UserService.createUserResult r);
      [split; assumption | exact draftsWellFormed_initial].
Qed.

(** Whatever is done with the form after it is mounted, the tags it
    holds are never blank, the metadata keys it holds are never blank and
    its metadata values are strings. *)
Theorem drafts_stay_well_formed (parse : jsstring -> option json)
  (events : list Event) :
  draftsWellFormed (formData (run parse initialState events)).
Proof.
  unfold run.
  assert (H : draftsWellFormed (formData initialState))
    by exact draftsWellFormed_initial.
  revert H. generalize initialState as st.
  induction events as [|e events IH]; intros st H; [exact H|].
  cbn [fold_left]. apply IH. apply step_draftsWellFormed. exact H.
Qed.

Example drafts_after_some_events :
  formData
    (run jsonParse initialState
       [ TagChange (str "  "); AddTag; TagChange (str "vip"); AddTag;
         TagChange (str "vip"); AddTag; MetadataKeyChange (str "team");
         MetadataValueChange []; AddMetadata; InputChange In_uid (str "a1");
         RemoveTag (str "x") ])
  = mkUserFormData (str "a1") (Some []) (Some []) (Some []) (Some [])
      (Some []) (Some []) (Some []) (Some []) (Some []) (Some [])
      (Some {[ str "team" := JStr [] ]}) (Some [str "vip"; str "vip"]).
Proof. vm_compute. reflexivity. Qed.

(** ** How tags are sent *)

Lemma addTags_lookup_eq (v : option (list jsstring)) (d : gmap jsstring json) :
  d !! str "tags" = None ->
  addTags v d !! str "tags"
  = match v with
    | Some (t :: l) => Some (JArr (List.map JStr (t :: l)))
    | _ => None
    end.
Proof.
  intros Hd. unfold addTags. destruct v as [[|t l]|]; try exact Hd.
  cbn [length Nat.ltb Nat.leb]. apply lookup_insert_eq.
Qed.

(** The tags of the form are sent as they are held, in their order,
    neither trimmed nor deduplicated; without any tag, the [tags] key is
    not sent. *)
Theorem tags_sent_as_held (parse : jsstring -> option json) (f : UserFormData) :
  UserService.userDataToSend parse (cleanedData f) !! str "tags"
  = match tagsOf f with
    | [] => None
    | t :: l => Some (JArr (List.map JStr (t :: l)))
    end.
Proof.
  rewrite userDataToSend_cleanedData, removeEmptyFields_lookup.
  rewrite checkPicture_other by keyne.
  rewrite copyOf_lookup, cleanedData_unfold.
  rewrite addMetadata_lookup_ne by keyne.
  rewrite addTags_lookup_eq
    by (cleaned_skip; apply lookup_singleton_ne; keyne).
  unfold tagsOf. destruct (tags f) as [[|t l]|]; try reflexivity.
  cbn [fmap option_fmap option_map]. rewrite wire_strings. reflexivity.
Qed.

(** ** The submission cycle *)

(** A form that passes validation is sent, and the form is marked as
    loading meanwhile.  When the call fails, the form data are kept, the
    error shown is the message of the client after ["Failed to create
    user: "], loading ends, and submitting again sends the same request. *)
Theorem failed_submission_can_be_retried (parse : jsstring -> option json)
  (st : State) (message : jsstring) :
  validateForm (formData st) = None ->
  snd (handleSubmit parse st) <> None
  /\ isLoading (fst (handleSubmit parse st)) = true
  /\ formData (handleSubmitResponse (inl message) (fst (handleSubmit parse st)))
     = formData st
  /\ isLoading (handleSubmitResponse (inl message) (fst (handleSubmit parse st)))
     = false
  /\ error (handleSubmitResponse (inl message) (fst (handleSubmit parse st)))
     = Some (str "Failed to create user: " ++ message)
  /\ snd (handleSubmit parse
            (handleSubmitResponse (inl message) (fst (handleSubmit parse st))))
     = snd (handleSubmit parse st).
Proof.
  intros Hv. rewrite (handleSubmit_valid parse st Hv). cbn [fst snd].
  repeat split.
  - discriminate.
  - rewrite handleSubmit_valid by exact Hv. reflexivity.
Qed.

Lemma failed_submission_can_be_retried_witness :
  error (handleSubmitResponse (inl (str "Resource not found."))
           (fst (handleSubmit jsonParse (stateOf (blankForm (str "a1"))))))
  = Some (str "Failed to create user: " ++ str "Resource not found.").
Proof.
  refine (proj1 (proj2 (proj2 (proj2 (proj2
            (failed_submission_can_be_retried jsonParse
               (stateOf (blankForm (str "a1"))) (str "Resource not found.") _)))))).
  vm_compute. reflexivity.
Defined.

(** When the call succeeds, the form data go back to the initial form,
    the preview is dropped, the success flag is set and loading ends; the
    drafts of the tag and metadata editors are kept.  Submitting the reset
    form is blocked by validation and sends nothing. *)
Theorem successful_submission_resets_form (parse : jsstring -> option json)
  (st : State) (user : json) :
  validateForm (formData st) = None ->
  formData (handleSubmitResponse (inr user) (fst (handleSubmit parse st)))
  = initialFormState
  /\ imagePreview (handleSubmitResponse (inr user) (fst (handleSubmit parse st)))
     = None
  /\ success (handleSubmitResponse (inr user) (fst (handleSubmit parse st)))
     = true
  /\ isLoading (handleSubmitResponse (inr user) (fst (handleSubmit parse st)))
     = false
  /\ error (handleSubmitResponse (inr user) (fst (handleSubmit parse st)))
     = None
  /\ tag (handleSubmitResponse (inr user) (fst (handleSubmit parse st)))
     = tag st
  /\ metadataKey (handleSubmitResponse (inr user) (fst (handleSubmit parse st)))
     = metadataKey st
  /\ metadataValue (handleSubmitResponse (inr user) (fst (handleSubmit parse st)))
     = metadataValue st
  /\ snd (handleSubmit parse
            (handleSubmitResponse (inr user) (fst (handleSubmit parse st))))
     = None.
Proof.
  intros Hv. rewrite (handleSubmit_valid parse st Hv). cbn [fst].
  repeat split.
Qed.

Lemma successful_submission_resets_form_witness :
  formData (handleSubmitResponse (inr (JObj {[ str "uid" := JStr (str "a1") ]}))
              (fst (handleSubmit jsonParse (stateOf (blankForm (str "a1"))))))
  = initialFormState.
Proof.
  refine (proj1 (successful_submission_resets_form jsonParse
                   (stateOf (blankForm (str "a1")))
                   (JObj {[ str "uid" := JStr (str "a1") ]}) _)).
  vm_compute. reflexivity.
Defined.

Lemma step_success (parse : jsstring -> option json) (st : State) (e : Event) :
  success st = true -> success (step parse st e) = true.
Proof.
  intros H. destruct e as [n v|v|v|v| |k| |t|file|s| | | |r]; cbn [step];
    try exact H.
  - unfold handleAddMetadata.
    destruct (negb (nonEmpty (trim (metadataKey st)))); exact H.
  - unfold handleAddTag. destruct (negb (nonEmpty (trim (tag st)))); exact H.
  - unfold handleImageUpload. destruct file as [f|]; [|exact H].
    destruct (negb (includes (file_type f) (str "image"))); [exact H|].
    destruct (5 * 1024 * 1024 <? file_size f)%N; exact H.
  - unfold handleSubmit.
    change (formData (setError None st)) with (formData st).
    destruct (validateForm (formData st)); exact H.
  - unfold handleSubmitResponse.
    destruct (UserService.createUserResult r); [exact H | reflexivity].
Qed.

(** Once a creation has succeeded, no event clears the success flag: a
    later submission that fails leaves the success flag set beside the
    error message. *)
Theorem success_flag_is_never_cleared (parse : jsstring -> option json) :
  (forall (events : list Event) (st : State),
      success st = true -> success (run parse st events) = true)
  /\ (forall (st : State) (message : jsstring),
      success st = true -> validateForm (formData st) = None ->
      success (run parse st [Submit; SubmitResponse (inl message)]) = true
      /\ error (run parse st [Submit; SubmitResponse (inl message)])
         = Some (str "Failed to create user: " ++ message)).
Proof.
  assert (Hrun : forall (events : list Event) (st : State),
             success st = true -> success (run parse st events) = true).
  { unfold run. induction events as [|e events IH]; intros st H; [exact H|].
    cbn [fold_left]. apply IH. apply step_success. exact H. }
  split; [exact Hrun|].
  intros st message Hs Hv. split; [apply Hrun; exact Hs|].
  unfold run. cbn [fold_left step].
  rewrite (handleSubmit_valid parse st Hv). reflexivity.
Qed.

Lemma success_flag_is_never_cleared_witness :
  success
    (run jsonParse (setSuccess true (stateOf (blankForm (str "a1"))))
       [Submit; SubmitResponse (inl (str "Request timeout"))])
  = true.
Proof.
  apply (proj1 (success_flag_is_never_cleared jsonParse)
           [Submit; SubmitResponse (inl (str "Request timeout"))]
           (setSuccess true (stateOf (blankForm (str "a1"))))).
  reflexivity.
Defined.

(** ** Validation as a whole *)

Lemma matchNonDigit_true_iff (s : jsstring) :
  matchNonDigit s = true <-> exists c, In c s /\ isDigit c = false.
Proof.
  unfold matchNonDigit. rewrite existsb_exists.
  split; intros [c [Hc Hd]]; exists c; split; try exact Hc.
  - apply negb_true_iff. exact Hd.
  - rewrite Hd. reflexivity.
Qed.

Lemma includes_char_false (s : jsstring) (c : N) :
  includes s [c] = false <-> ~ In c s.
Proof.
  rewrite <- includes_char. destruct (includes s [c]); split; congruence.
Qed.

Lemma validateForm_None_iff (f : UserFormData) :
  validateForm f = None
  <-> trim (uid f) <> []
      /\ (exists c, In c (uid f) /\ isDigit c = false)
      /\ ~ In 32%N (uid f)
      /\ (forall e, email f = Some e -> e <> [] -> In 64%N e).
Proof.
  unfold validateForm.
  destruct (negb (nonEmpty (uid f)) || negb (nonEmpty (trim (uid f)))) eqn:G.
  { apply uid_guard_iff in G. split; [discriminate|]. intros [H _]. congruence. }
  apply uid_guard_false_iff in G.
  destruct (matchNonDigit (uid f)) eqn:M; cbn [negb].
  2:{ split; [discriminate|]. intros [_ [H _]].
      apply matchNonDigit_true_iff in H. congruence. }
  apply matchNonDigit_true_iff in M.
  change (str " ") with [32%N].
  destruct (includes (uid f) [32%N]) eqn:S.
  { apply includes_char in S. split; [discriminate|]. intros [_ [_ [H _]]].
    contradiction. }
  apply includes_char_false in S.
  change (str "@") with [64%N].
  destruct (email f) as [e|].
  + destruct (nonEmpty e) eqn:Ne; cbn [andb].
    * destruct (includes e [64%N]) eqn:A; cbn [negb].
      -- apply includes_char in A. split; [|reflexivity]. intros _.
         repeat split; try assumption. intros e' [= <-] _. exact A.
      -- apply includes_char_false in A. split; [discriminate|].
         intros [_ [_ [_ H]]]. exfalso. apply A. apply (H e eq_refl).
         apply nonEmpty_true_iff. exact Ne.
    * apply nonEmpty_false_iff in Ne. split; [|reflexivity]. intros _.
      repeat split; try assumption. intros e' [= <-] H. congruence.
  + split; [|reflexivity]. intros _.
    repeat split; try assumption. discriminate.
Qed.

(** [validateForm] reads the [uid] and the [email] of the form and
    nothing else.  It accepts the form exactly when the [uid] is not
    empty after trimming, holds a character that is not a digit and holds
    no space, and the [email], when present and not empty, holds a [@]. *)
Theorem validateForm_accepts_iff :
  (forall f : UserFormData,
      validateForm f = None
      <-> trim (uid f) <> []
          /\ (exists c, In c (uid f) /\ isDigit c = false)
          /\ ~ In 32%N (uid f)
          /\ (forall e, email f = Some e -> e <> [] -> In 64%N e))
  /\ (forall f g : UserFormData,
      uid f = uid g -> email f = email g -> validateForm f = validateForm g).
Proof.
  split.
  - exact validateForm_None_iff.
  - intros f g Hu He. unfold validateForm. rewrite Hu, He. reflexivity.
Qed.

Lemma validateForm_accepts_iff_witness :
  validateForm (withPicture (str "https://x.png") (blankForm (str "a1")))
  = validateForm (blankForm (str "a1")).
Proof.
  apply (proj2 validateForm_accepts_iff
           (withPicture (str "https://x.png") (blankForm (str "a1")))
           (blankForm (str "a1"))); reflexivity.
Defined.

(** ** The uid that is sent *)

Lemma trimEnd_snoc (s : jsstring) (c : N) :
  isWhiteSpace c = false -> trimEnd (s ++ [c]) = s ++ [c].
Proof.
  intros Hc. induction s as [|a s IH]; cbn [app trimEnd].
  - rewrite Hc. reflexivity.
  - rewrite IH. destruct (s ++ [c]) eqn:E; [|reflexivity].
    destruct s; discriminate.
Qed.

Lemma trimEnd_no_ws (s : jsstring) :
  Forall (fun c => isWhiteSpace c = false) s -> trimEnd s = s.
Proof.
  intros H. destruct s as [|a s] using rev_ind; [reflexivity|].
  apply trimEnd_snoc. apply Forall_app in H as [_ H].
  inversion H. assumption.
Qed.

Lemma trim_no_ws (s : jsstring) :
  Forall (fun c => isWhiteSpace c = false) s -> trim s = s.
Proof.
  intros H. unfold trim. rewrite trimStart_fixed.
  - apply trimEnd_no_ws. exact H.
  - destruct s as [|c s]; [exact I|]. inversion H. assumption.
Qed.

Lemma digits_no_ws (d : jsstring) :
  forallb isDigit d = true -> Forall (fun c => isWhiteSpace c = false) d.
Proof.
  intros H. apply Forall_forall. intros c Hc.
  apply isDigit_not_ws. rewrite forallb_forall in H. apply H.
  apply list_elem_of_In. exact Hc.
Qed.

Lemma cleaned_uid_sent (parse : jsstring -> option json) (f : UserFormData) :
  UserService.userDataToSend parse (cleanedData f) !! str "uid"
  = if nonEmpty (trim (uid f)) then Some (JStr (trim (uid f))) else None.
Proof.
  rewrite userDataToSend_cleanedData, removeEmptyFields_lookup.
  rewrite checkPicture_other by keyne.
  rewrite copyOf_lookup, cleanedData_unfold. cleaned_skip.
  rewrite lookup_singleton_eq. destruct (trim (uid f)); reflexivity.
Qed.

(** Validation looks at the [uid] as typed, and the [uid] sent is the
    trimmed one.  So a [uid] made of a white space character other than
    the space, followed by digits, passes validation and is sent as the
    digits alone, which validation rejects as [UidAllDigits] when typed
    as such.  A valid [uid] without white space is sent as typed. *)
Theorem uid_is_validated_before_trimming (parse : jsstring -> option json) :
  (forall (c : N) (d : jsstring),
      isWhiteSpace c = true -> c <> 32%N ->
      d <> [] -> forallb isDigit d = true ->
      validateForm (blankForm (c :: d)) = None
      /\ UserService.userDataToSend parse (cleanedData (blankForm (c :: d)))
           !! str "uid" = Some (JStr d)
      /\ validateForm (blankForm d) = Some UidAllDigits)
  /\ (forall f : UserFormData,
      validateForm f = None ->
      Forall (fun c => isWhiteSpace c = false) (uid f) ->
      UserService.userDataToSend parse (cleanedData f) !! str "uid"
      = Some (JStr (uid f))).
Proof.
  split.
  - intros c d Hw Hc Hd Hdig.
    assert (Ht : trim (c :: d) = d).
    { unfold trim. cbn [trimStart]. rewrite Hw.
      fold (trim d). apply trim_no_ws, digits_no_ws. exact Hdig. }
    split; [|split].
    + apply validateForm_None_iff. cbn [uid email blankForm].
      rewrite Ht. repeat split.
      * exact Hd.
      * exists c. split; [left; reflexivity|].
        destruct (isDigit c) eqn:E; [|reflexivity].
        apply isDigit_not_ws in E. congruence.
      * intros [H | H]; [congruence|].
        rewrite forallb_forall in Hdig. specialize (Hdig _ H). discriminate.
      * discriminate.
    + rewrite cleaned_uid_sent. cbn [uid blankForm]. rewrite Ht.
      destruct d; [congruence | reflexivity].
    + unfold validateForm. cbn [uid blankForm].
      assert (G : negb (nonEmpty d) || negb (nonEmpty (trim d)) = false).
      { apply uid_guard_false_iff. apply digits_trim_nonEmpty; assumption. }
      rewrite G. apply matchNonDigit_false_iff in Hdig. rewrite Hdig.
      reflexivity.
  - intros f Hv Hn. rewrite cleaned_uid_sent, (trim_no_ws _ Hn).
    apply validateForm_passed_uid in Hv. rewrite (trim_no_ws _ Hn) in Hv.
    destruct (uid f); [congruence | reflexivity].
Qed.

Lemma uid_is_validated_before_trimming_witness :
  validateForm (blankForm (9%N :: str "12")) = None
  /\ UserService.userDataToSend jsonParse
       (cleanedData (blankForm (9%N :: str "12"))) !! str "uid"
     = Some (JStr (str "12"))
  /\ validateForm (blankForm (str "12")) = Some UidAllDigits.
Proof.
  apply (proj1 (uid_is_validated_before_trimming jsonParse) 9%N (str "12")).
  - reflexivity.
  - discriminate.
  - discriminate.
  - reflexivity.
Defined.

(** ** From the chosen file to the picture that is sent *)

Lemma startsWith_includes (s p : jsstring) :
  startsWith s p = true -> includes s p = true.
Proof.
  rewrite startsWith_spec, includes_spec. intros [post H].
  exists [], post. exact H.
Qed.

Lemma startsWith_app_same (p s q : jsstring) :
  startsWith (p ++ s) (p ++ q) = startsWith s q.
Proof.
  induction p as [|a p IH]; [reflexivity|].
  cbn [app]. unfold startsWith at 1. fold startsWith.
  rewrite N.eqb_refl. exact IH.
Qed.

Lemma startsWith_app_long (s r p : jsstring) :
  length p <= length s -> startsWith (s ++ r) p = startsWith s p.
Proof.
  revert s. induction p as [|a p IH]; intros s H; [reflexivity|].
  destruct s as [|b s]; [cbn in H; lia|].
  cbn [app]. unfold startsWith. fold startsWith.
  rewrite IH by (cbn in H; lia). reflexivity.
Qed.

Lemma dataUrl_head (mediaType payload : jsstring) :
  dataUrl mediaType payload
  = 100%N :: str "ata:" ++ mediaType ++ str ";base64," ++ payload.
Proof. reflexivity. Qed.

Lemma trim_dataUrl (mediaType payload : jsstring) :
  Forall (fun c => isWhiteSpace c = false) payload ->
  trim (dataUrl mediaType payload) = dataUrl mediaType payload.
Proof.
  intros H. unfold trim.
  rewrite trimStart_fixed by (rewrite dataUrl_head; reflexivity).
  unfold dataUrl.
  change (str ";base64,") with (str ";base64" ++ [44%N]).
  destruct payload as [|c q] using rev_ind.
  - rewrite app_nil_r, !app_assoc. apply trimEnd_snoc. reflexivity.
  - rewrite !app_assoc. apply trimEnd_snoc.
    apply Forall_app in H as [_ H]. inversion H. assumption.
Qed.

Lemma cleaned_picture_sent (parse : jsstring -> option json)
  (f : UserFormData) (s : jsstring) :
  picture f = Some s -> trim s = s -> s <> [] ->
  UserService.userDataToSend parse (cleanedData f) !! str "picture"
  = if startsWith s (str "data:image") || startsWith s (str "http")
    then Some (JStr s) else None.
Proof.
  intros Hp Ht Hs. apply userDataToSend_picture.
  rewrite cleanedData_picture, Hp, Ht.
  destruct s; [congruence | reflexivity].
Qed.

Lemma handleImageUpload_accepts (st : State) (file : File) :
  includes (file_type file) (str "image") = true ->
  (file_size file <= 5 * 1024 * 1024)%N ->
  handleImageUpload st (Some file) = (st, Some file).
Proof.
  intros Ht Hs. unfold handleImageUpload. rewrite Ht. cbn [negb].
  apply N.ltb_ge in Hs. rewrite Hs. reflexivity.
Qed.

(** A file of at most 5 MB whose media type begins with [image] is read;
    once its data URL is loaded it is shown as the preview, and a form
    that passes validation is then sent with that data URL, unchanged, as
    its [picture]. *)
Theorem uploaded_image_is_sent (parse : jsstring -> option json) (st : State)
  (file : File) (payload : jsstring) :
  startsWith (file_type file) (str "image") = true ->
  (file_size file <= 5 * 1024 * 1024)%N ->
  Forall (fun c => isWhiteSpace c = false) payload ->
  validateForm (formData st) = None ->
  handleImageUpload st (Some file) = (st, Some file)
  /\ imagePreview (readerOnload (dataUrl (file_type file) payload) st)
     = Some (dataUrl (file_type file) payload)
  /\ exists data : gmap jsstring json,
       snd (handleSubmit parse
              (readerOnload (dataUrl (file_type file) payload) st))
       = Some (mkRequest POST ENDPOINTS.USERS.BASE (Some (JObj data)))
       /\ data !! str "picture"
          = Some (JStr (dataUrl (file_type file) payload)).
Proof.
  intros Ht Hs Hp Hv. split; [|split].
  - apply handleImageUpload_accepts; [apply startsWith_includes; exact Ht | exact Hs].
  - reflexivity.
  - eexists. split.
    + rewrite handleSubmit_valid by exact Hv. reflexivity.
    + rewrite (cleaned_picture_sent parse _ (dataUrl (file_type file) payload)).
      * assert (E : startsWith (dataUrl (file_type file) payload)
                      (str "data:image") = true).
        { apply startsWith_spec in Ht as [post Ht]. apply startsWith_spec.
          exists (post ++ str ";base64," ++ payload).
          unfold dataUrl. rewrite Ht.
          change (str "data:image") with (str "data:" ++ str "image").
          rewrite <- !app_assoc. reflexivity. }
        rewrite E. reflexivity.
      * reflexivity.
      * apply trim_dataUrl. exact Hp.
      * rewrite dataUrl_head. discriminate.
Qed.

Lemma uploaded_image_is_sent_witness :
  handleImageUpload (stateOf (blankForm (str "a1")))
    (Some (mkFile (str "image/png") 2048))
  = (stateOf (blankForm (str "a1")), Some (mkFile (str "image/png") 2048)).
Proof.
  refine (proj1 (uploaded_image_is_sent jsonParse (stateOf (blankForm (str "a1")))
                   (mkFile (str "image/png") 2048) (str "iVBORw0KGgo=") _ _ _ _)).
  - reflexivity.
  - vm_compute. discriminate.
  - repeat constructor.
  - reflexivity.
Defined.

(** The handler looks for [image] anywhere in the media type, and
    [createUser] for [data:image] at the start of the picture: a file
    whose media type holds [image] elsewhere than at its start is
    accepted and read, and its data URL is then left out of the payload. *)
Theorem image_type_not_at_start_is_dropped (parse : jsstring -> option json)
  (st : State) (file : File) (payload : jsstring) :
  includes (file_type file) (str "image") = true ->
  startsWith (file_type file) (str "image") = false ->
  (file_size file <= 5 * 1024 * 1024)%N ->
  Forall (fun c => isWhiteSpace c = false) payload ->
  handleImageUpload st (Some file) = (st, Some file)
  /\ UserService.userDataToSend parse
       (cleanedData
          (formData (readerOnload (dataUrl (file_type file) payload) st)))
       !! str "picture" = None.
Proof.
  intros Hi Ht Hs Hp. split.
  - apply handleImageUpload_accepts; assumption.
  - rewrite (cleaned_picture_sent parse _ (dataUrl (file_type file) payload)).
    + assert (E1 : startsWith (dataUrl (file_type file) payload)
                     (str "data:image") = false).
      { unfold dataUrl.
        change (str "data:image") with (str "data:" ++ str "image").
        rewrite startsWith_app_same, startsWith_app_long; [exact Ht|].
        apply includes_spec in Hi as [pre [post Hi]]. rewrite Hi.
        rewrite !length_app. change (length (str "image")) with 5. lia. }
      rewrite E1, dataUrl_head. reflexivity.
    + reflexivity.
    + apply trim_dataUrl. exact Hp.
    + rewrite dataUrl_head. discriminate.
Qed.

Lemma image_type_not_at_start_is_dropped_witness :
  UserService.userDataToSend jsonParse
    (cleanedData
       (formData (readerOnload (dataUrl (str "application/x-image") (str "AAAA"))
                    (stateOf (blankForm (str "a1"))))))
    !! str "picture" = None.
Proof.
  refine (proj2 (image_type_not_at_start_is_dropped jsonParse
                   (stateOf (blankForm (str "a1")))
                   (mkFile (str "application/x-image") 10) (str "AAAA") _ _ _ _)).
  - reflexivity.
  - reflexivity.
  - vm_compute. discriminate.
  - repeat constructor.
Defined.

(** ** What [createUser] leaves alone *)

Lemma reduceDirectory_is_Some (d : gmap jsstring json) (k : jsstring) :
  is_Some (UserService.reduceDirectory d !! k) -> is_Some (d !! k).
Proof.
  unfold UserService.reduceDirectory.
  destruct (d !! str "directory") as [v|] eqn:Hd; [|intros H; exact H].
  destruct (truthy v); [|intros H; exact H].
  destruct (isObject v); [|intros H; exact H].
  unfold assign. destruct (getProp v (str "name")) as [n|].
  - intros [x Hx]. apply lookup_insert_Some in Hx as [[<- _] | [_ Hx]].
    + rewrite Hd. eexists. reflexivity.
    + eexists. exact Hx.
  - intros [x Hx]. apply lookup_delete_Some in Hx as [_ Hx].
    eexists. exact Hx.
Qed.

Lemma parseMetadata_is_Some (parse : jsstring -> option json)
  (d : gmap jsstring json) (k : jsstring) :
  is_Some (UserService.parseMetadata parse d !! k) -> is_Some (d !! k).
Proof.
  unfold UserService.parseMetadata.
  destruct (d !! str "metadata") as [[| | |s| |]|] eqn:Hd;
    try (intros H; exact H).
  destruct (truthy (JStr s)); [|intros H; exact H].
  destruct (parse s) as [p|].
  - intros [x Hx]. apply lookup_insert_Some in Hx as [[<- _] | [_ Hx]].
    + rewrite Hd. eexists. reflexivity.
    + eexists. exact Hx.
  - intros [x Hx]. apply lookup_delete_Some in Hx as [_ Hx].
    eexists. exact Hx.
Qed.

Lemma checkPicture_accepted (d : gmap jsstring json) :
  (forall s, d !! str "picture" = Some (JStr s) ->
     startsWith s (str "data:image") || startsWith s (str "http") = true) ->
  UserService.checkPicture d = d.
Proof.
  intros H. unfold UserService.checkPicture.
  destruct (d !! str "picture") as [[| | |s| |]|]; try reflexivity.
  specialize (H s eq_refl). destruct (truthy (JStr s)); [|reflexivity].
  destruct (startsWith s (str "data:image")); [reflexivity|].
  cbn [orb] in H. rewrite H. reflexivity.
Qed.

Lemma removeEmptyFields_clean (d : gmap jsstring json) :
  (forall k v, d !! k = Some v -> isEmptyField v = false) ->
  removeEmptyFields d = d.
Proof.
  intros H. unfold removeEmptyFields. apply map_filter_id.
  intros k v Hk. exact (H k v Hk).
Qed.

Lemma copyOf_is_Some (u : gmap jsstring json) (k : jsstring) :
  is_Some (UserService.copyOf u !! k) -> is_Some (u !! k).
Proof.
  rewrite copyOf_lookup. destruct (u !! k) as [v|]; intros [x Hx];
    [eexists; reflexivity | discriminate].
Qed.

(** The values of the copy are written as they are. *)
Lemma copyOf_value_stable (u : gmap jsstring json) (k : jsstring) (v : json) :
  UserService.copyOf u !! k = Some v -> wire v = v.
Proof.
  rewrite copyOf_lookup. destruct (u !! k) as [x|]; [|discriminate].
  intros [= <-]. apply wire_idempotent.
Qed.

Lemma wire_member_stable (o : gmap jsstring json) (k : jsstring) (v : json) :
  wire (JObj o) = JObj o -> o !! k = Some v -> wire v = v.
Proof.
  cbn [wire]. intros [= H] Hk.
  assert (E : (wire <$> o) !! k = Some (wire v))
    by (rewrite lookup_fmap, Hk; reflexivity).
  rewrite H, Hk in E. congruence.
Qed.

(** So are the values left by the reduction of the directory. *)
Lemma reduceDirectory_copy_stable (u : gmap jsstring json) (k : jsstring)
  (v : json) :
  UserService.reduceDirectory (UserService.copyOf u) !! k = Some v ->
  wire v = v.
Proof.
  unfold UserService.reduceDirectory.
  destruct (UserService.copyOf u !! str "directory") as [d|] eqn:Hd;
    [|apply copyOf_value_stable].
  destruct (truthy d); [|apply copyOf_value_stable].
  destruct (isObject d); [|apply copyOf_value_stable].
  unfold assign. destruct (getProp d (str "name")) as [n|] eqn:Hn.
  - intros H. apply lookup_insert_Some in H as [[_ <-] | [_ H]].
    + destruct d as [| | | | |o]; try discriminate Hn.
      apply (wire_member_stable o (str "name") n); [|exact Hn].
      exact (copyOf_value_stable u _ _ Hd).
    + exact (copyOf_value_stable u _ _ H).
  - intros H. apply lookup_delete_Some in H as [_ H].
    exact (copyOf_value_stable u _ _ H).
Qed.

(** [createUser] makes its request, and the payload it transmits never
    holds a key that the user data lack and never holds an empty string;
    the only key it can hold as [null] is [metadata], when the metadata
    string parses to a number that [JSON.stringify] writes as [null].
    Apart from [directory], [metadata] and [picture], a field is sent as
    [JSON.stringify] writes it, unless that is an empty string or [null],
    in which case it is left out.  User data whose values are written as
    they are and are neither empty strings nor [null], whose directory is
    not an object, whose metadata is not a string and whose string picture
    begins with [data:image] or [http], are sent as they are. *)
Theorem createUser_keeps_other_fields (parse : jsstring -> option json)
  (u : gmap jsstring json) :
  exists sent : gmap jsstring json,
    createUserSends parse u sent
    /\ (forall (k : jsstring) (w : json),
        sent !! k = Some w ->
        is_Some (u !! k) /\ w <> JStr []
        /\ (w = JNull -> k = str "metadata"))
    /\ (forall k : jsstring,
        k <> str "directory" -> k <> str "metadata" -> k <> str "picture" ->
        sent !! k
        = match u !! k with
          | Some v => if isEmptyField (wire v) then None else Some (wire v)
          | None => None
          end)
    /\ ((forall k v, u !! k = Some v -> isEmptyField v = false /\ wire v = v) ->
        (forall v, u !! str "directory" = Some v -> isObject v = false) ->
        (forall v, u !! str "metadata" = Some v -> isString v = false) ->
        (forall s, u !! str "picture" = Some (JStr s) ->
           startsWith s (str "data:image") || startsWith s (str "http") = true) ->
        sent = u).
Proof.
  exists (wire <$> UserService.userDataToSend parse u).
  split; [apply createUser_transmits|]. split; [|split].
  - intros k w H. rewrite lookup_fmap in H.
    destruct (UserService.userDataToSend parse u !! k) as [v|] eqn:Hv;
      [|discriminate].
    injection H as <-. unfold UserService.userDataToSend in Hv.
    rewrite removeEmptyFields_lookup in Hv.
    destruct (UserService.checkPicture
                (UserService.parseMetadata parse
                   (UserService.reduceDirectory (UserService.copyOf u))) !! k)
      as [v'|] eqn:Hc; [|discriminate].
    destruct (isEmptyField v') eqn:He; [discriminate|].
    injection Hv as ->. apply checkPicture_lookup_Some in Hc.
    split; [|split].
    + apply copyOf_is_Some, reduceDirectory_is_Some,
        (parseMetadata_is_Some parse).
      eexists. exact Hc.
    + intros Hw. apply wire_JStr_inv in Hw. subst v. discriminate He.
    + intros Hw. destruct (decide (k = str "metadata")) as [Hk|Hk];
        [exact Hk | exfalso].
      rewrite parseMetadata_other in Hc by exact Hk.
      apply reduceDirectory_copy_stable in Hc. rewrite Hc in Hw.
      subst v. discriminate He.
  - intros k Hd Hm Hp. rewrite lookup_fmap.
    unfold UserService.userDataToSend.
    rewrite removeEmptyFields_lookup.
    rewrite checkPicture_other by exact Hp.
    rewrite parseMetadata_other by exact Hm.
    rewrite reduceDirectory_other by exact Hd.
    rewrite copyOf_lookup. destruct (u !! k) as [v|]; [|reflexivity].
    cbn [fmap option_fmap option_map].
    destruct (isEmptyField (wire v)); [reflexivity|].
    cbn [fmap option_fmap option_map]. rewrite wire_idempotent. reflexivity.
  - intros He Hd Hm Hp.
    assert (Hcopy : UserService.copyOf u = u)
      by (apply copyOf_stable; intros k v Hk; exact (proj2 (He k v Hk))).
    unfold UserService.userDataToSend. rewrite Hcopy.
    rewrite (reduceDirectory_string u Hd).
    rewrite (parseMetadata_not_string parse u Hm).
    rewrite (checkPicture_accepted u Hp).
    rewrite removeEmptyFields_clean
      by (intros k v Hk; exact (proj1 (He k v Hk))).
    exact Hcopy.
Qed.

Lemma createUser_keeps_other_fields_witness :
  exists sent : gmap jsstring json,
    createUserSends jsonParse
      {[ str "uid" := JStr (str "a1"); str "directory" := JStr (str "eng");
         str "picture" := JStr (str "https://x.png") ]}
      sent
    /\ sent
       = {[ str "uid" := JStr (str "a1"); str "directory" := JStr (str "eng");
            str "picture" := JStr (str "https://x.png") ]}.
Proof.
  destruct (createUser_keeps_other_fields jsonParse
              {[ str "uid" := JStr (str "a1"); str "directory" := JStr (str "eng");
                 str "picture" := JStr (str "https://x.png") ]})
    as [sent [Hsent [_ [_ Hsame]]]].
  exists sent. split; [exact Hsent|]. apply Hsame.
  - intros k v H.
    destruct (decide (k = str "uid")) as [->|N1];
      [vm_compute in H; injection H as <-; split; reflexivity|].
    destruct (decide (k = str "directory")) as [->|N2];
      [vm_compute in H; injection H as <-; split; reflexivity|].
    destruct (decide (k = str "picture")) as [->|N3];
      [vm_compute in H; injection H as <-; split; reflexivity|].
    rewrite !lookup_insert_ne in H by congruence.
    rewrite lookup_singleton_ne in H by congruence. discriminate.
  - intros v H. vm_compute in H. injection H as <-. reflexivity.
  - intros v H. vm_compute in H. discriminate.
  - intros s H. vm_compute in H. injection H as <-. reflexivity.
Defined.

(** A field that holds an infinity is written as [null] in the copy and
    left out; a metadata string that parses to an infinity is sent as
    [null]. *)
Example createUser_infinity :
  createUserSends jsonParse
    {[ str "uid" := JStr (str "a1"); str "id" := JNum (S754_infinity false);
       str "metadata" := JStr (str "1e400") ]}
    {[ str "uid" := JStr (str "a1"); str "metadata" := JNull ]}.
Proof.
  exists (mkRequest POST ENDPOINTS.USERS.BASE
            (Some (JObj {[ str "uid" := JStr (str "a1");
                           str "metadata" := JNum (S754_infinity false) ]}))).
  split; [vm_compute; reflexivity|].
  split; [reflexivity|]. split; [reflexivity|]. vm_compute. reflexivity.
Qed.

(** ** What [updateUser] and [patchUser] send *)

Lemma wrapDirectory_cases (u : gmap jsstring json) :
  UserService.wrapDirectory u = u
  \/ exists s : jsstring,
       UserService.wrapDirectory u
       = <[str "directory" := JObj {[ str "name" := JStr s ]}]> u.
Proof.
  unfold UserService.wrapDirectory.
  destruct (u !! str "directory") as [[| | |s| |]|]; try (left; reflexivity).
  destruct (truthy (JStr s)); [right; exists s; reflexivity | left; reflexivity].
Qed.

(** [updateUser] and [patchUser] send every field other than [directory]
    as it is, empty strings and [null] included; they differ in the
    method only.  Wrapping the directory twice is wrapping it once, and
    the directory sent is never a non-empty string. *)
Theorem update_sends_fields_as_they_are (userId : jsstring)
  (u : gmap jsstring json) :
  (forall k : jsstring,
      k <> str "directory" -> UserService.wrapDirectory u !! k = u !! k)
  /\ UserService.wrapDirectory (UserService.wrapDirectory u)
     = UserService.wrapDirectory u
  /\ (forall s : jsstring,
      UserService.wrapDirectory u !! str "directory" = Some (JStr s) -> s = [])
  /\ UserService.updateUser userId u
     = mkRequest PUT (ENDPOINTS.USERS.BY_ID userId)
         (Some (JObj (UserService.wrapDirectory u)))
  /\ UserService.patchUser userId u
     = mkRequest PATCH (ENDPOINTS.USERS.BY_ID userId)
         (Some (JObj (UserService.wrapDirectory u))).
Proof.
  split; [|split; [|split; [|split; reflexivity]]].
  - intros k Hk. unfold UserService.wrapDirectory.
    destruct (u !! str "directory") as [[| | |s| |]|]; try reflexivity.
    destruct (truthy (JStr s)); [|reflexivity].
    apply lookup_insert_ne. congruence.
  - destruct (wrapDirectory_cases u) as [Hw | [s Hw]].
    + rewrite Hw. exact Hw.
    + rewrite Hw. unfold UserService.wrapDirectory.
      rewrite lookup_insert_eq. reflexivity.
  - intros s. unfold UserService.wrapDirectory.
    destruct (u !! str "directory") as [[| | |t| |]|] eqn:Hd;
      try (rewrite Hd; discriminate).
    destruct t as [|c t]; cbn [truthy].
    + rewrite Hd. intros [= <-]. reflexivity.
    + rewrite lookup_insert_eq. discriminate.
Qed.

Lemma update_sends_fields_as_they_are_witness :
  UserService.wrapDirectory {[ str "name" := JStr []; str "comment" := JNull ]}
    !! str "name" = Some (JStr []).
Proof.
  rewrite (proj1 (update_sends_fields_as_they_are (str "u1")
                    {[ str "name" := JStr []; str "comment" := JNull ]})
             (str "name")).
  - vm_compute. reflexivity.
  - vm_compute. discriminate.
Defined.

(** ** The requests of the other service operations *)

Lemma startsWith_BASE_URL (path : jsstring) :
  startsWith (BASE_URL ++ path) (str "http") = true.
Proof.
  rewrite startsWith_app_long; [reflexivity|].
  vm_compute. lia.
Qed.

Lemma post_absolute (path : jsstring) (data : json) :
  ApiService.post (BASE_URL ++ path) data
  = mkRequest POST (BASE_URL ++ path) (Some data).
Proof.
  unfold ApiService.post. rewrite startsWith_BASE_URL. reflexivity.
Qed.

(** [ApiService.post] sends to the URL it is given when that URL begins
    with [http], and to that URL placed after the base URL otherwise: the
    URL of the request always begins with [http].  The operations of the
    service that post are sent to their endpoint unchanged, with the
    empty object as body for [trashUser] and [restoreUser]. *)
Theorem post_sends_to_an_absolute_url :
  (forall (url : jsstring) (data : json),
      startsWith (req_url (ApiService.post url data)) (str "http") = true
      /\ (startsWith url (str "http") = true ->
          req_url (ApiService.post url data) = url)
      /\ (startsWith url (str "http") = false ->
          req_url (ApiService.post url data) = BASE_URL ++ url))
  /\ (forall userId : jsstring,
      UserServiceCalls.trashUser userId
      = mkRequest POST (ENDPOINTS.USERS.TRASH userId) (Some (JObj ∅))
      /\ UserServiceCalls.restoreUser userId
         = mkRequest POST (ENDPOINTS.USERS.RESTORE userId) (Some (JObj ∅))
      /\ forall expiresIn : option number,
           req_method (UserServiceCalls.createAccessToken userId expiresIn) = POST
           /\ req_url (UserServiceCalls.createAccessToken userId expiresIn)
              = ENDPOINTS.USERS.TOKENS userId).
Proof.
  split.
  - intros url data. unfold ApiService.post. cbn [req_url].
    destruct (startsWith url (str "http")) eqn:H.
    + split; [exact H|]. split; [reflexivity | discriminate].
    + split; [apply startsWith_BASE_URL|]. split; [discriminate | reflexivity].
  - intros userId. split; [|split].
    + apply post_absolute.
    + apply post_absolute.
    + intros expiresIn. unfold UserServiceCalls.createAccessToken.
      unfold ENDPOINTS.USERS.TOKENS. rewrite post_absolute. split; reflexivity.
Qed.

Lemma post_sends_to_an_absolute_url_witness :
  req_url (ApiService.post (str "/api/users") (JObj ∅))
  = BASE_URL ++ str "/api/users".
Proof.
  apply (proj2 (proj2 (proj1 post_sends_to_an_absolute_url
                         (str "/api/users") (JObj ∅)))).
  reflexivity.
Defined.

(** A user id is put in the path as it is, without escaping.  Distinct
    ids give distinct URLs for the same operation, and the token, trash
    and restore URLs of a user are its own URL followed by a fixed
    suffix; so the URL of the user whose id is that of another user
    followed by [/trash] is the trash URL of that other user. *)
Theorem user_id_is_put_in_the_path_as_it_is :
  (forall a b : jsstring,
      ENDPOINTS.USERS.BY_ID a = ENDPOINTS.USERS.BY_ID b -> a = b)
  /\ (forall userId : jsstring,
      ENDPOINTS.USERS.TOKENS userId
      = ENDPOINTS.USERS.BY_ID userId ++ str "/tokens"
      /\ ENDPOINTS.USERS.TRASH userId
         = ENDPOINTS.USERS.BY_ID userId ++ str "/trash"
      /\ ENDPOINTS.USERS.RESTORE userId
         = ENDPOINTS.USERS.BY_ID userId ++ str "/restore")
  /\ (forall userId : jsstring,
      req_url (UserServiceCalls.deleteUser (userId ++ str "/trash"))
      = req_url (UserServiceCalls.trashUser userId)
      /\ req_url (UserServiceCalls.getUserById (userId ++ str "/tokens"))
         = req_url (UserServiceCalls.createAccessToken userId None)).
Proof.
  split; [|split].
  - intros a b H. unfold ENDPOINTS.USERS.BY_ID in H.
    apply app_inv_head in H. apply app_inv_head in H. exact H.
  - intros userId.
    unfold ENDPOINTS.USERS.TOKENS, ENDPOINTS.USERS.TRASH,
      ENDPOINTS.USERS.RESTORE, ENDPOINTS.USERS.BY_ID.
    rewrite <- !app_assoc. repeat split.
  - intros userId.
    unfold UserServiceCalls.deleteUser, UserServiceCalls.trashUser,
      UserServiceCalls.getUserById, UserServiceCalls.createAccessToken.
    unfold ENDPOINTS.USERS.TOKENS, ENDPOINTS.USERS.TRASH,
      ENDPOINTS.USERS.BY_ID.
    rewrite !post_absolute. split; reflexivity.
Qed.

Lemma user_id_is_put_in_the_path_as_it_is_witness :
  str "a1" = str "a1".
Proof.
  apply (proj1 user_id_is_put_in_the_path_as_it_is (str "a1") (str "a1")).
  reflexivity.
Defined.

(** ** Optional numbers *)

(** An optional number that is falsy, that is [0], [-0] or [NaN], is
    treated as not given, and these are the only falsy numbers.
    [getAllUsers] asks for the plain list URL when [take] is not given,
    and otherwise for that URL followed by [?take=] and the number
    converted to a string.  [createAccessToken] sends the empty object
    when [expiresIn] is not given, and otherwise an object holding only
    [expires_in], which [JSON.stringify] writes as the number, or as
    [null] when the number is an infinity. *)
Theorem zero_is_treated_as_not_given (numberToString : number -> jsstring) :
  (forall n : number,
      truthyNumber n = false
      <-> n = S754_zero false \/ n = S754_zero true \/ n = S754_nan)
  /\ (forall take : option number,
      notGiven take ->
      UserService.getAllUsersRequest numberToString take
      = mkRequest GET ENDPOINTS.USERS.BASE None)
  /\ (forall n : number,
      truthyNumber n = true ->
      UserService.getAllUsersRequest numberToString (Some n)
      = mkRequest GET (ENDPOINTS.USERS.BASE ++ str "?take=" ++ numberToString n)
          None)
  /\ (forall (userId : jsstring) (expiresIn : option number),
      notGiven expiresIn ->
      UserServiceCalls.createAccessToken userId expiresIn
      = mkRequest POST (ENDPOINTS.USERS.TOKENS userId) (Some (JObj ∅))
      /\ sentBody (UserServiceCalls.createAccessToken userId expiresIn)
         = Some (JObj ∅))
  /\ (forall (userId : jsstring) (n : number),
      truthyNumber n = true ->
      UserServiceCalls.createAccessToken userId (Some n)
      = mkRequest POST (ENDPOINTS.USERS.TOKENS userId)
          (Some (JObj {[ str "expires_in" := JNum n ]}))
      /\ sentBody (UserServiceCalls.createAccessToken userId (Some n))
         = Some (JObj {[ str "expires_in" :=
                           match n with
                           | S754_infinity _ => JNull
                           | _ => JNum n
                           end ]})).
Proof.
  split; [|split; [|split; [|split]]].
  - intros n. destruct n as [b|b| |b m e]; cbn [truthyNumber].
    + destruct b; split; auto.
    + split; [discriminate | intros [H | [H | H]]; discriminate].
    + split; auto.
    + split; [discriminate | intros [H | [H | H]]; discriminate].
  - intros take H. unfold UserService.getAllUsersRequest.
    destruct take as [n|]; [|reflexivity].
    cbn [notGiven] in H. rewrite H. reflexivity.
  - intros n H. unfold UserService.getAllUsersRequest. rewrite H. reflexivity.
  - intros userId expiresIn H.
    unfold UserServiceCalls.createAccessToken, ENDPOINTS.USERS.TOKENS.
    rewrite post_absolute.
    destruct expiresIn as [n|]; [cbn [notGiven] in H; rewrite H|];
      split; reflexivity.
  - intros userId n H.
    unfold UserServiceCalls.createAccessToken, ENDPOINTS.USERS.TOKENS.
    rewrite post_absolute, H. split; [reflexivity|].
    unfold sentBody. cbn [req_body fmap option_fmap option_map wire].
    rewrite map_fmap_singleton.
    destruct n as [b|b| |b m e]; try discriminate H; reflexivity.
Qed.

Lemma zero_is_treated_as_not_given_witness :
  UserServiceCalls.createAccessToken (str "a1") (Some (ofInteger 3600))
  = mkRequest POST (ENDPOINTS.USERS.TOKENS (str "a1"))
      (Some (JObj {[ str "expires_in" := JInt 3600 ]}))
  /\ sentBody (UserServiceCalls.createAccessToken (str "a1")
                 (Some (ofInteger 3600)))
     = Some (JObj {[ str "expires_in" := JInt 3600 ]}).
Proof.
  apply (proj2 (proj2 (proj2 (proj2
           (zero_is_treated_as_not_given (fun _ => []))))) (str "a1")
           (ofInteger 3600)).
  reflexivity.
Defined.

Example getAllUsersRequest_negative_zero :
  UserService.getAllUsersRequest (fun _ => str "0") (Some (S754_zero true))
  = mkRequest GET ENDPOINTS.USERS.BASE None.
Proof. reflexivity. Qed.

(** ** The headers of a request *)

(** Every request carries the configured content type and accept
    headers and an authorization header, and no other header.  A
    non-empty token found in the local storage replaces the configured
    bearer; without a token, or with an empty one, the configured headers
    are sent as they are. *)
Theorem stored_token_replaces_configured_bearer (authToken : option jsstring) :
  Fetch.headers authToken !! str "Content-Type" = Some (str "application/json")
  /\ Fetch.headers authToken !! str "Accept" = Some (str "application/json")
  /\ dom (Fetch.headers authToken) = dom Fetch.HEADERS
  /\ (forall t : jsstring,
        authToken = Some t -> t <> [] ->
        Fetch.headers authToken !! str "Authorization"
        = Some (str "Bearer " ++ t))
  /\ (authToken = None \/ authToken = Some [] ->
      Fetch.headers authToken = Fetch.HEADERS).
Proof.
  unfold Fetch.headers.
  destruct authToken as [[|c t]|]; cbn [truthyStr nonEmpty].
  - rewrite (left_id_L ∅ (∪)). repeat split; try reflexivity.
    intros t [= <-] H. congruence.
  - split; [|split; [|split; [|split]]].
    + rewrite lookup_union_r by (apply lookup_singleton_ne; keyne). reflexivity.
    + rewrite lookup_union_r by (apply lookup_singleton_ne; keyne). reflexivity.
    + rewrite dom_union_L, dom_singleton_L. unfold Fetch.HEADERS.
      rewrite !dom_insert_L. set_solver.
    + intros t' [= <-] _. apply lookup_union_Some_l. apply lookup_singleton_eq.
    + intros [H | H]; discriminate.
  - rewrite (left_id_L ∅ (∪)). repeat split; try reflexivity.
    intros t H. discriminate.
Qed.

Lemma stored_token_replaces_configured_bearer_witness :
  Fetch.headers (Some (str "abc")) !! str "Authorization"
  = Some (str "Bearer " ++ str "abc").
Proof.
  apply (proj1 (proj2 (proj2 (proj2
           (stored_token_replaces_configured_bearer (Some (str "abc")))))));
    [reflexivity | discriminate].
Defined.

(** ** Responses that are not ok *)

Section ErrorResponses.
Variable toStringOther : json -> jsstring.

Lemma fetch_not_ok (r : Fetch.Response) :
  Fetch.ok r = false ->
  Fetch.fetchWithConfig toStringOther (Fetch.Responded r)
  = match Fetch.httpErrorMessage toStringOther r with
    | Some m => inl (Fetch.Error m)
    | None => inl Fetch.PlatformError
    end.
Proof. intros H. unfold Fetch.fetchWithConfig. rewrite H. reflexivity. Qed.

Lemma httpErrorMessage_object (r : Fetch.Response) (o : gmap jsstring json) :
  Fetch.body r = Some (JObj o) ->
  Fetch.httpErrorMessage toStringOther r
  = match Fetch.orElse (o !! str "detail")
            (Fetch.orElse (o !! str "message") (o !! str "error")) with
    | Some v =>
        if truthy v then Some (Fetch.toString toStringOther v)
        else Fetch.errorsOrStatus toStringOther r (JObj o)
    | None => Fetch.errorsOrStatus toStringOther r (JObj o)
    end.
Proof. intros H. unfold Fetch.httpErrorMessage. rewrite H. reflexivity. Qed.

Lemma truthy_text (s : jsstring) : s <> [] -> truthy (JStr s) = true.
Proof. destruct s; [congruence | reflexivity]. Qed.

(** The message of the error thrown for a response that is not ok, with
    an object as body, is the first of [detail], [message] and [error]
    that is truthy: a non-empty text under [detail] is the message
    whatever else the body holds, [message] counts only when [detail] is
    absent or falsy, and [error] only when both are. *)
Theorem error_message_priority (r : Fetch.Response) (o : gmap jsstring json) :
  Fetch.ok r = false -> Fetch.body r = Some (JObj o) ->
  (forall d : jsstring,
      o !! str "detail" = Some (JStr d) -> d <> [] ->
      Fetch.fetchWithConfig toStringOther (Fetch.Responded r)
      = inl (Fetch.Error d))
  /\ (forall m : jsstring,
      truthyProp (o !! str "detail") = false ->
      o !! str "message" = Some (JStr m) -> m <> [] ->
      Fetch.fetchWithConfig toStringOther (Fetch.Responded r)
      = inl (Fetch.Error m))
  /\ (forall e : jsstring,
      truthyProp (o !! str "detail") = false ->
      truthyProp (o !! str "message") = false ->
      o !! str "error" = Some (JStr e) -> e <> [] ->
      Fetch.fetchWithConfig toStringOther (Fetch.Responded r)
      = inl (Fetch.Error e)).
Proof.
  intros Hok Hb. rewrite (fetch_not_ok r Hok), (httpErrorMessage_object r o Hb).
  unfold Fetch.orElse. split; [|split].
  - intros d Hd Hne. rewrite Hd.
    destruct d; [congruence | reflexivity].
  - intros m Hd Hm Hne. rewrite Hd, Hm.
    destruct m; [congruence | reflexivity].
  - intros e Hd Hm He Hne. rewrite Hd, Hm, He.
    destruct e; [congruence | reflexivity].
Qed.

(** Without a usable body, the message is the text for the status; this
    is so when the body is not JSON, when it is a JSON value other than
    an object and [null], and when it is an object in which [detail],
    [message] and [error] are absent or falsy and [errors] is not a
    non-empty array.  That text is never empty.  A body that is [null]
    makes the client fail with an error of the platform instead. *)
Theorem error_message_falls_back_to_status (r : Fetch.Response) :
  Fetch.ok r = false ->
  (Fetch.body r = None ->
     Fetch.fetchWithConfig toStringOther (Fetch.Responded r)
     = inl (Fetch.Error (Fetch.getErrorMessage (Fetch.status r))))
  /\ (forall v : json,
      Fetch.body r = Some v -> v <> JNull -> (forall o, v <> JObj o) ->
      Fetch.fetchWithConfig toStringOther (Fetch.Responded r)
      = inl (Fetch.Error (Fetch.getErrorMessage (Fetch.status r))))
  /\ (forall o : gmap jsstring json,
      Fetch.body r = Some (JObj o) ->
      truthyProp (o !! str "detail") = false ->
      truthyProp (o !! str "message") = false ->
      truthyProp (o !! str "error") = false ->
      (forall e l, o !! str "errors" <> Some (JArr (e :: l))) ->
      Fetch.fetchWithConfig toStringOther (Fetch.Responded r)
      = inl (Fetch.Error (Fetch.getErrorMessage (Fetch.status r))))
  /\ (Fetch.body r = Some JNull ->
      Fetch.fetchWithConfig toStringOther (Fetch.Responded r)
      = inl Fetch.PlatformError)
  /\ Fetch.getErrorMessage (Fetch.status r) <> [].
Proof.
  intros Hok. rewrite (fetch_not_ok r Hok).
  split; [|split; [|split; [|split]]].
  - intros Hb. unfold Fetch.httpErrorMessage. rewrite Hb. reflexivity.
  - intros v Hb Hn Ho. unfold Fetch.httpErrorMessage. rewrite Hb.
    destruct v as [|b|x|s|l|o]; try reflexivity.
    + congruence.
    + exfalso. exact (Ho o eq_refl).
  - intros o Hb Hd Hm He Herr. rewrite (httpErrorMessage_object r o Hb).
    assert (Hl : Fetch.errorsOrStatus toStringOther r (JObj o)
                 = Some (Fetch.getErrorMessage (Fetch.status r))).
    { unfold Fetch.errorsOrStatus. cbn [getProp].
      destruct (o !! str "errors") as [[| | | |[|e l]|]|] eqn:E;
        try reflexivity.
      exfalso. exact (Herr e l eq_refl). }
    unfold Fetch.orElse. rewrite Hd, Hm.
    destruct (o !! str "error") as [v|]; cbn [truthyProp] in He.
    + rewrite He, Hl. reflexivity.
    + rewrite Hl. reflexivity.
  - intros Hb. unfold Fetch.httpErrorMessage. rewrite Hb. reflexivity.
  - unfold Fetch.getErrorMessage.
    repeat match goal with
           | |- context [if ?c then _ else _] => destruct c
           end; discriminate.
Qed.

Lemma elementMessage_carries (e : json) (m : jsstring) :
  carriesText e m -> Fetch.elementMessage e = Some (JStr m).
Proof.
  intros [o m' Ho Hm | m']; unfold Fetch.elementMessage, Fetch.orElse;
    cbn [getProp truthyProp].
  - rewrite Ho. cbn [truthyProp]. rewrite (truthy_text m' Hm). reflexivity.
  - reflexivity.
Qed.

Lemma mapElementMessage_carries (es : list json) (ms : list jsstring) :
  Forall2 carriesText es ms ->
  Fetch.mapElementMessage es = Some (List.map JStr ms).
Proof.
  induction 1 as [|e m es ms He _ IH]; [reflexivity|].
  cbn [List.map Fetch.mapElementMessage].
  rewrite (elementMessage_carries e m He), IH. reflexivity.
Qed.

Lemma mapElementMessage_null (es : list json) :
  In JNull es -> Fetch.mapElementMessage es = None.
Proof.
  induction es as [|e es IH]; intros H; [destruct H|].
  cbn [Fetch.mapElementMessage]. destruct H as [-> | H]; [reflexivity|].
  rewrite (IH H). destruct (Fetch.elementMessage e); reflexivity.
Qed.

Lemma join_texts (ms : list jsstring) :
  Fetch.join toStringOther (List.map JStr ms) = joinTexts ms.
Proof.
  induction ms as [|m ms IH]; [reflexivity|].
  destruct ms as [|m' ms]; [reflexivity|].
  cbn [List.map Fetch.join joinTexts Fetch.toString] in *.
  rewrite IH. reflexivity.
Qed.

(** When [detail], [message] and [error] are absent or falsy and
    [errors] is a non-empty array, the message is made of the elements
    of [errors], with ["; "] between them: the [message] of an element
    that is an object with a non-empty text under [message], whatever
    else the object holds, and the element itself when it is a text, in
    any mixture of the two.  An element that is [null], wherever it is in
    the array, makes the client fail with an error of the platform. *)
Theorem errors_are_joined (r : Fetch.Response) (o : gmap jsstring json) :
  Fetch.ok r = false -> Fetch.body r = Some (JObj o) ->
  truthyProp (o !! str "detail") = false ->
  truthyProp (o !! str "message") = false ->
  truthyProp (o !! str "error") = false ->
  (forall (es : list json) (ms : list jsstring),
      es <> [] -> Forall2 carriesText es ms ->
      o !! str "errors" = Some (JArr es) ->
      Fetch.fetchWithConfig toStringOther (Fetch.Responded r)
      = inl (Fetch.Error (joinTexts ms)))
  /\ (forall es : list json,
      In JNull es ->
      o !! str "errors" = Some (JArr es) ->
      Fetch.fetchWithConfig toStringOther (Fetch.Responded r)
      = inl Fetch.PlatformError).
Proof.
  intros Hok Hb Hd Hm He.
  rewrite (fetch_not_ok r Hok), (httpErrorMessage_object r o Hb).
  assert (Hfirst : forall x : option jsstring,
            match Fetch.orElse (o !! str "detail")
                    (Fetch.orElse (o !! str "message") (o !! str "error")) with
            | Some v =>
                if truthy v then Some (Fetch.toString toStringOther v) else x
            | None => x
            end = x).
  { intros x. unfold Fetch.orElse. rewrite Hd, Hm.
    destruct (o !! str "error") as [v|]; cbn [truthyProp] in He;
      [rewrite He|]; reflexivity. }
  rewrite Hfirst. unfold Fetch.errorsOrStatus. cbn [getProp].
  split.
  - intros es ms Hne Hall Herr. rewrite Herr.
    destruct es as [|e es]; [congruence|].
    rewrite (mapElementMessage_carries (e :: es) ms Hall), join_texts.
    reflexivity.
  - intros es Hnull Herr. rewrite Herr.
    destruct es as [|e es]; [destruct Hnull|].
    rewrite (mapElementMessage_null (e :: es) Hnull). reflexivity.
Qed.

End ErrorResponses.

Lemma error_message_priority_witness :
  Fetch.fetchWithConfig (fun _ => str "[object Object]")
    (Fetch.Responded
       (Fetch.mkResponse 404
          (Some (JObj {[ str "detail" := JStr (str "No such user");
                         str "message" := JStr (str "Not Found") ]}))))
  = inl (Fetch.Error (str "No such user")).
Proof.
  apply (proj1 (error_message_priority (fun _ => str "[object Object]")
                  (Fetch.mkResponse 404
                     (Some (JObj {[ str "detail" := JStr (str "No such user");
                                    str "message" := JStr (str "Not Found") ]})))
                  {[ str "detail" := JStr (str "No such user");
                     str "message" := JStr (str "Not Found") ]}
                  eq_refl eq_refl)).
  - vm_compute. reflexivity.
  - discriminate.
Defined.

Lemma error_message_falls_back_to_status_witness :
  Fetch.fetchWithConfig (fun _ => str "[object Object]")
    (Fetch.Responded (Fetch.mkResponse 404 None))
  = inl (Fetch.Error (str "Resource not found.")).
Proof.
  apply (proj1 (error_message_falls_back_to_status
                  (fun _ => str "[object Object]")
                  (Fetch.mkResponse 404 None) eq_refl)).
  reflexivity.
Defined.

Lemma errors_are_joined_witness :
  Fetch.fetchWithConfig (fun _ => str "[object Object]")
    (Fetch.Responded
       (Fetch.mkResponse 400
          (Some (JObj {[ str "errors" :=
                   JArr [ JObj {[ str "field" := JStr (str "uid");
                                  str "message" := JStr (str "uid is taken") ]};
                          JStr (str "email is invalid") ] ]}))))
  = inl (Fetch.Error (joinTexts [str "uid is taken"; str "email is invalid"])).
Proof.
  refine (proj1 (errors_are_joined (fun _ => str "[object Object]")
                  (Fetch.mkResponse 400
                     (Some (JObj {[ str "errors" :=
                        JArr [ JObj {[ str "field" := JStr (str "uid");
                                       str "message" := JStr (str "uid is taken") ]};
                               JStr (str "email is invalid") ] ]})))
                  {[ str "errors" :=
                       JArr [ JObj {[ str "field" := JStr (str "uid");
                                      str "message" := JStr (str "uid is taken") ]};
                              JStr (str "email is invalid") ] ]}
                  eq_refl eq_refl _ _ _)
           [ JObj {[ str "field" := JStr (str "uid");
                     str "message" := JStr (str "uid is taken") ]};
             JStr (str "email is invalid") ]
           [str "uid is taken"; str "email is invalid"] _ _ _).
  - vm_compute. reflexivity.
  - vm_compute. reflexivity.
  - vm_compute. reflexivity.
  - discriminate.
  - constructor; [|constructor; [|constructor]].
    + apply carries_message; [vm_compute; reflexivity | discriminate].
    + apply carries_itself.
  - vm_compute. reflexivity.
Defined.

(** A [null] after other elements makes the client fail as well. *)
Example errors_with_a_null :
  Fetch.fetchWithConfig (fun _ => str "[object Object]")
    (Fetch.Responded
       (Fetch.mkResponse 400
          (Some (JObj {[ str "errors" :=
                   JArr [JStr (str "uid is taken"); JNull] ]}))))
  = inl Fetch.PlatformError.
Proof. vm_compute. reflexivity. Qed.

Example joinTexts_two :
  joinTexts [str "uid is taken"; str "email is invalid"]
  = str "uid is taken; email is invalid".
Proof. vm_compute. reflexivity. Qed.

(** ** Responses that are ok, and the list read from them *)

(** For a response that is ok the client throws no error of its own.
    With status 204 it returns the empty object without reading the
    body, and [getAllUsers] then gives the empty list.  Otherwise it
    returns the decoded body: an envelope gives its [data]; a body that
    is a bare array, not an envelope, gives the empty list, its elements
    being dropped; a body that is [null] makes [getAllUsers] fail; a body
    that is not JSON makes the client fail with an error of the platform. *)
Theorem list_read_from_an_ok_response (toStringOther : json -> jsstring)
  (r : Fetch.Response) :
  Fetch.ok r = true ->
  (forall message : jsstring,
      Fetch.fetchWithConfig toStringOther (Fetch.Responded r)
      <> inl (Fetch.Error message))
  /\ (Fetch.status r = 204%N ->
      Fetch.fetchWithConfig toStringOther (Fetch.Responded r) = inr (JObj ∅)
      /\ UserService.getAllUsers (JObj ∅) = Some (JArr []))
  /\ (Fetch.status r <> 204%N ->
      (forall v : json,
          Fetch.body r = Some v ->
          Fetch.fetchWithConfig toStringOther (Fetch.Responded r) = inr v)
      /\ (Fetch.body r = None ->
          Fetch.fetchWithConfig toStringOther (Fetch.Responded r)
          = inl Fetch.PlatformError))
  /\ (forall l : list json, UserService.getAllUsers (JArr l) = Some (JArr []))
  /\ UserService.getAllUsers JNull = None
  /\ (forall (o : gmap jsstring json) (l : list json),
      o !! str "data" = Some (JArr l) ->
      UserService.getAllUsers (JObj o) = Some (JArr l)).
Proof.
  intros Hok. unfold Fetch.fetchWithConfig. rewrite Hok. cbn [negb].
  split; [|split; [|split; [|split; [|split]]]].
  - intros message. destruct (Fetch.status r =? 204)%N; [discriminate|].
    destruct (Fetch.body r); discriminate.
  - intros Hs. rewrite Hs. split; reflexivity.
  - intros Hs. apply N.eqb_neq in Hs. rewrite Hs. split.
    + intros v ->. reflexivity.
    + intros ->. reflexivity.
  - reflexivity.
  - reflexivity.
  - intros o l Ho. unfold UserService.getAllUsers. cbn [getProp].
    rewrite Ho. reflexivity.
Qed.

Lemma list_read_from_an_ok_response_witness :
  Fetch.fetchWithConfig (fun _ => str "[object Object]")
    (Fetch.Responded (Fetch.mkResponse 204 None)) = inr (JObj ∅)
  /\ UserService.getAllUsers (JObj ∅) = Some (JArr []).
Proof.
  apply (proj1 (proj2 (list_read_from_an_ok_response
                         (fun _ => str "[object Object]")
                         (Fetch.mkResponse 204 None) eq_refl))).
  reflexivity.
Defined.

(** ** The list view: creating and deleting *)

Lemma filter_uid_commutes (lower : jsstring -> jsstring) (q uid : jsstring)
  (l : list HomePage.User) :
  HomePage.filteredUsers lower
    (filter (fun user => HomePage.uid user <> uid) l) q
  = filter (fun user => HomePage.uid user <> uid)
      (HomePage.filteredUsers lower l q).
Proof.
  unfold HomePage.filteredUsers.
  induction l as [|u l IH]; [reflexivity|].
  destruct (decide (HomePage.uid u <> uid)) as [Hu | Hu].
  - rewrite filter_cons_True by exact Hu. cbn [List.filter].
    destruct (HomePage.matchesSearch lower q u).
    + rewrite filter_cons_True by exact Hu. rewrite IH. reflexivity.
    + exact IH.
  - rewrite filter_cons_False by exact Hu. cbn [List.filter].
    destruct (HomePage.matchesSearch lower q u).
    + rewrite filter_cons_False by exact Hu. exact IH.
    + exact IH.
Qed.

(** Deleting asks for confirmation first: without it no request is made.
    With it, one DELETE request is made for the user.  When the request
    succeeds, every user with that uid leaves the list and the others
    stay in their order; searching the new list gives the former search
    result without those users.  When it fails, the list is as before
    and the message is shown. *)
Theorem deleting_a_user_from_the_list (uid : jsstring) (st : HomeView.State) :
  HomeView.handleDeleteUser false uid = None
  /\ HomeView.handleDeleteUser true uid
     = Some (mkRequest DELETE (ENDPOINTS.USERS.BY_ID uid) None)
  /\ (forall u : HomePage.User,
        u ∈ HomeView.users (HomeView.handleDeleteUserDone uid None st)
        <-> u ∈ HomeView.users st /\ HomePage.uid u <> uid)
  /\ sublist (HomeView.users (HomeView.handleDeleteUserDone uid None st))
       (HomeView.users st)
  /\ (forall (lower : jsstring -> jsstring) (q : jsstring),
        HomePage.filteredUsers lower
          (HomeView.users (HomeView.handleDeleteUserDone uid None st)) q
        = filter (fun user => HomePage.uid user <> uid)
            (HomePage.filteredUsers lower (HomeView.users st) q))
  /\ (forall message : jsstring,
        HomeView.users (HomeView.handleDeleteUserDone uid (Some message) st)
        = HomeView.users st
        /\ HomeView.error (HomeView.handleDeleteUserDone uid (Some message) st)
           = Some message).
Proof.
  split; [reflexivity|]. split; [reflexivity|].
  change (HomeView.users (HomeView.handleDeleteUserDone uid None st))
    with (filter (fun user => HomePage.uid user <> uid) (HomeView.users st)).
  split; [|split; [|split]].
  - intros u. rewrite list_elem_of_filter. tauto.
  - apply sublist_filter; exact _.
  - intros lower q. apply filter_uid_commutes.
  - intros message. split; reflexivity.
Qed.

(** A created user is added at the end of the list and the form is
    closed; a search of the new list gives the former result, followed
    by the new user when it matches.  No check is made on the uid of the
    new user: deleting it afterwards gives back the former list exactly
    when no user of that list has the same uid. *)
Theorem creating_then_deleting_a_user (newUser : HomePage.User)
  (st : HomeView.State) :
  HomeView.users (HomeView.handleUserCreated newUser st)
  = HomeView.users st ++ [newUser]
  /\ HomeView.showCreateForm (HomeView.handleUserCreated newUser st) = false
  /\ (forall (lower : jsstring -> jsstring) (q : jsstring),
        HomePage.filteredUsers lower
          (HomeView.users (HomeView.handleUserCreated newUser st)) q
        = HomePage.filteredUsers lower (HomeView.users st) q
          ++ (if HomePage.matchesSearch lower q newUser then [newUser] else []))
  /\ (HomeView.users
        (HomeView.handleDeleteUserDone (HomePage.uid newUser) None
           (HomeView.handleUserCreated newUser st))
      = HomeView.users st
      <-> Forall (fun u => HomePage.uid u <> HomePage.uid newUser)
            (HomeView.users st)).
Proof.
  split; [reflexivity|]. split; [reflexivity|]. split.
  - intros lower q.
    change (HomeView.users (HomeView.handleUserCreated newUser st))
      with (HomeView.users st ++ [newUser]).
    unfold HomePage.filteredUsers. rewrite List.filter_app. reflexivity.
  - change (HomeView.users
              (HomeView.handleDeleteUserDone (HomePage.uid newUser) None
                 (HomeView.handleUserCreated newUser st)))
      with (filter (fun user => HomePage.uid user <> HomePage.uid newUser)
              (HomeView.users st ++ [newUser])).
    rewrite filter_app, filter_cons_False by (intros H; apply H; reflexivity).
    rewrite filter_nil, app_nil_r. split.
    + intros H. rewrite <- H. apply Forall_forall. intros u Hu.
      apply list_elem_of_filter in Hu as [Hu _]. exact Hu.
    + intros H. induction (HomeView.users st) as [|u l IH]; [reflexivity|].
      inversion H as [|? ? Hu Hl]; subst.
      rewrite filter_cons_True by exact Hu. f_equal. exact (IH Hl).
Qed.
